(** * Ichimoku signal bot: rolling candle buffer, indicator, signal detector
      and backtest replay, embedded from the Python sources

    - [core/candle_buffer.py]   : [CandleBuffer]
    - [core/indicator.py]       : [IchimokuIndicator]
    - [core/signal_detector.py] : [SignalDetector]
    - [backtest/engine.py]      : [BacktestEngine]
    - [backtest/report.py]      : [BacktestReport]
    - [core/data_fetcher.py]    : the retry loop of [MT5DataFetcher]
    - [core/notifier.py]        : the construction and the retry loop of
                                  [DiscordNotifier]
    - [bot.py]                  : [process_candle]

    Python's [float] is an IEEE-754 binary64 number, and so is Rocq's
    primitive [float]: prices and indicator values are primitive floats,
    "undefined" is [nan].  A pandas DataFrame of candles indexed by time is a
    list of rows in index order.  Timestamps are integers (nanoseconds since
    the epoch, the resolution of a pandas Timestamp). *)

From Stdlib Require Import ZArith Floats.
From stdpp Require Import base decidable option list sorting gmap strings.

Open Scope Z_scope.

(** ** Python values shared by the four components *)

Inductive exn := ValueError | RuntimeError | IndexError.

Inductive result (A : Type) : Type :=
  | Ok (a : A)
  | Raise (e : exn).
Arguments Ok {A} a.
Arguments Raise {A} e.

#[global] Instance result_ret : MRet result := fun _ a => Ok a.
#[global] Instance result_bind : MBind result := fun _ _ k m =>
  match m with
  | Ok a => k a
  | Raise e => Raise e
  end.
#[global] Instance result_fmap : FMap result := fun _ _ f m =>
  match m with
  | Ok a => Ok (f a)
  | Raise e => Raise e
  end.

(** One row of a candle DataFrame: the index entry and the four price columns. *)
Record Candle := mkCandle {
  time : Z;
  open : float;
  high : float;
  low : float;
  close : float;
}.

Abbreviation DataFrame := (list Candle).

Definition index (df : DataFrame) : list Z := time <$> df.

(** [math.isnan] / [np.isnan]. *)
Definition isnan (v : float) : bool := PrimFloat.is_nan v.

(** Builtin [max(a, b)] and [min(a, b)] on two arguments: the first argument is
    kept unless the second compares strictly greater (smaller). *)
Definition py_max (a b : float) : float := if (a <? b)%float then b else a.
Definition py_min (a b : float) : float := if (b <? a)%float then b else a.

(** [df.tail(n)]: the last [n] rows; for negative [n], all rows but the first
    [-n]. *)
Definition df_tail {A} (n : Z) (df : list A) : list A :=
  if n <? 0 then drop (Z.to_nat (- n)) df
  else drop (length df - Z.to_nat n)%nat df.

(** [df.iloc[:n]] and [df.iloc[n:]] with Python's slice rules: a negative bound
    counts from the end, and bounds are clamped to the frame. *)
Definition slice_bound {A} (n : Z) (df : list A) : nat :=
  if n <? 0 then Z.to_nat (Z.of_nat (length df) + n) else Z.to_nat n.
Definition iloc_to {A} (n : Z) (df : list A) : list A := take (slice_bound n df) df.
Definition iloc_from {A} (n : Z) (df : list A) : list A := drop (slice_bound n df) df.

(** [df.iloc[i]] for one row: a negative position counts from the end, a
    position outside the frame raises [IndexError]. *)
Definition iloc {A} (df : list A) (i : Z) : result A :=
  let j := if i <? 0 then Z.of_nat (length df) + i else i in
  if j <? 0 then Raise IndexError
  else match df !! Z.to_nat j with
       | Some row => Ok row
       | None => Raise IndexError
       end.

(** [s.endswith(suffix)] *)
Definition endswith (s suffix : string) : bool :=
  let n := String.length s in
  let k := String.length suffix in
  bool_decide (k <= n)%nat && String.eqb (String.substring (n - k) k s) suffix.

(** [timedelta(minutes=m)] in nanoseconds. *)
Definition timedelta_minutes (m : Z) : Z := m * 60000000000.

(** [timedelta(minutes=m)] exists for the [m] within 999999999 days of zero
    and raises [OverflowError] for every other; [timedelta_minutes] is its
    value on that range.  A statement that a call which builds the timedelta
    returns is made for [m] in this range. *)
Definition timedelta_in_range (m : Z) : Prop :=
  -999999999 * 1440 <= m < 1000000000 * 1440.

(** ** core/candle_buffer.py *)

Module CandleBuffer.

Definition DEFAULT_MIN : Z := 78.

Record t := mk {
  _max_size : Z;
  _min : Z;
  _data : option DataFrame;
}.

(** [__init__]: rejects a capacity below the minimum history. *)
Definition init (max_size min_candles : Z) : result t :=
  if max_size <? min_candles then Raise ValueError
  else Ok {| _max_size := max_size; _min := min_candles; _data := None |}.

(** A row has a NaN in one of its OHLC columns. *)
Definition row_has_nan (c : Candle) : bool :=
  isnan (open c) || isnan (high c) || isnan (low c) || isnan (close c).

Definition dropna (df : DataFrame) : DataFrame :=
  filter (fun c => row_has_nan c = false) df.

Definition time_le (a b : Candle) : Prop := time a <= time b.

#[global] Instance time_le_dec a b : Decision (time_le a b).
Proof. unfold time_le. apply _. Defined.

(** [Index.is_monotonic_increasing]: no entry is below the one before it. *)
Fixpoint is_monotonic_increasing (idx : list Z) : bool :=
  match idx with
  | x :: (y :: _) as rest => (x <=? y) && is_monotonic_increasing rest
  | _ => true
  end.

(** [sort_index]: a frame whose index is already ascending, ties included,
    is returned as it is; any other frame is sorted ascending by timestamp,
    and pandas leaves the relative order of rows with equal timestamps to the
    sort kind, here a merge sort. *)
Definition sort_index (df : DataFrame) : DataFrame :=
  if is_monotonic_increasing (index df) then df else merge_sort time_le df.

(** [_prepare]: a [Candle] row always has its time index and its four price
    columns, so the two [ValueError] branches (no time index, missing
    columns) cannot be taken; what remains is dropping NaN rows and
    sorting. *)
Definition _prepare (df : DataFrame) : DataFrame := sort_index (dropna df).

Definition seed (self : t) (df : DataFrame) : t :=
  let df := _prepare df in
  {| _max_size := _max_size self; _min := _min self;
     _data := Some (df_tail (_max_size self) df) |}.

(** [new[~new.index.isin(existing_idx)]] *)
Definition not_isin (existing_idx : list Z) (new : DataFrame) : DataFrame :=
  filter (fun c => time c ∉ existing_idx) new.

Definition append (self : t) (df : DataFrame) : result t :=
  match _data self with
  | None => Raise RuntimeError
  | Some data0 =>
      let new := _prepare df in
      let existing_idx := index data0 in
      let new := not_isin existing_idx new in
      match new with
      | [] => Ok self
      | _ :: _ =>
          Ok {| _max_size := _max_size self; _min := _min self;
                _data := Some (df_tail (_max_size self) (data0 ++ new)) |}
      end
  end.

Definition data (self : t) : result DataFrame :=
  match _data self with
  | None => Raise RuntimeError
  | Some d => Ok d
  end.

Definition is_ready (self : t) : bool :=
  match _data self with
  | None => false
  | Some d => bool_decide (_min self <= Z.of_nat (length d))
  end.

Definition size (self : t) : Z :=
  match _data self with
  | None => 0
  | Some d => Z.of_nat (length d)
  end.

Definition latest_time (self : t) : option Z :=
  match _data self with
  | None => None
  | Some d => last (index d)
  end.

End CandleBuffer.

(** ** core/indicator.py *)

(** The flat dict returned by [latest_values]: always the same sixteen keys,
    here a record whose fields are the keys, in the order the dict literal
    lists them. *)
Module Indicators.

Record t := mk {
  tenkan : float;
  kijun : float;
  senkou_a : float;
  senkou_b : float;
  chikou : float;
  close : float;
  cloud_top : float;
  cloud_bottom : float;
  prev_tenkan : float;
  prev_kijun : float;
  prev_senkou_a : float;
  prev_senkou_b : float;
  prev_chikou : float;
  prev_close : float;
  prev_cloud_top : float;
  prev_cloud_bottom : float;
}.

(** [indicators.values()] *)
Definition values (d : t) : list float :=
  [ tenkan d; kijun d; senkou_a d; senkou_b d; chikou d; close d;
    cloud_top d; cloud_bottom d;
    prev_tenkan d; prev_kijun d; prev_senkou_a d; prev_senkou_b d;
    prev_chikou d; prev_close d; prev_cloud_top d; prev_cloud_bottom d ].

End Indicators.

Module IchimokuIndicator.

Record IchimokuConfig := mkConfig {
  tenkan_period : Z;
  kijun_period : Z;
  senkou_b_period : Z;
  displacement : Z;
  chikou_shift : Z;
}.

Definition default_config : IchimokuConfig := mkConfig 9 26 52 26 26.

Record t := mk { cfg : IchimokuConfig }.

(** [__init__]: [self.cfg = config or IchimokuConfig()]; a dataclass
    instance is always truthy. *)
Definition init (config : option IchimokuConfig) : t :=
  {| cfg := default default_config config |}.

(** One row of the frame [calculate] returns. *)
Record Row := mkRow {
  r_tenkan : float;
  r_kijun : float;
  r_senkou_a : float;
  r_senkou_b : float;
  r_chikou : float;
}.

(** pandas [Series.rolling(window=period)]: the observations of the window
    that ends at row [i]. *)
Definition window_at (period : Z) (xs : list float) (i : nat) : list float :=
  drop (S i - Z.to_nat period)%nat (take (S i) xs).

Definition aggregate (pick : float -> float -> float) (w : list float) : float :=
  match w with
  | [] => nan
  | x :: w' => fold_left pick w' x
  end.

(** [np.isinf] *)
Definition isinf (v : float) : bool := PrimFloat.is_infinity v.

(** [_prep_values]: before a rolling aggregate is taken pandas turns the
    infinities of the column into NaN. *)
Definition _prep_values (xs : list float) : list float :=
  (fun x => if isinf x then nan else x) <$> xs.

(** [rolling(window=period).max()] / [.min()]: a negative window is refused
    with [ValueError]; the values are those of [_prep_values];
    [min_periods] defaults to the window size, so a row with fewer than
    [period] non-NaN observations is NaN; an empty window is NaN. *)
Definition rolling (pick : float -> float -> float) (period : Z)
    (xs : list float) : result (list float) :=
  if period <? 0 then Raise ValueError
  else Ok ((fun i =>
              let w := window_at period (_prep_values xs) i in
              let nobs := length (filter (fun x => isnan x = false) w) in
              if bool_decide (Z.of_nat nobs < period) then nan
              else aggregate pick w) <$> seq 0 (length xs)).

Definition rolling_max := rolling py_max.
Definition rolling_min := rolling py_min.

(** [Series.shift(n)]: row [i] takes the value of row [i - n], NaN when
    that row does not exist. *)
Definition shift (n : Z) (xs : list float) : list float :=
  (fun i =>
     let j := Z.of_nat i - n in
     if j <? 0 then nan else default nan (xs !! Z.to_nat j)) <$> seq 0 (length xs).

Definition _midpoint (df : DataFrame) (period : Z) : result (list float) :=
  hi ← rolling_max period (high <$> df);
  lo ← rolling_min period (low <$> df);
  Ok (zip_with (fun h l => ((h + l) / 2)%float) hi lo).

(** [calculate]: [_normalise_columns] and the column check of [_validate]
    do nothing on a frame of [Candle] rows. *)
Definition calculate (self : t) (candles : DataFrame) : result (list Row) :=
  tenkan ← _midpoint candles (tenkan_period (cfg self));
  kijun ← _midpoint candles (kijun_period (cfg self));
  senkou_b ← _midpoint candles (senkou_b_period (cfg self));
  let senkou_a :=
    shift (displacement (cfg self))
          (zip_with (fun t k => ((t + k) / 2)%float) tenkan kijun) in
  let senkou_b := shift (displacement (cfg self)) senkou_b in
  let chikou := shift (- chikou_shift (cfg self)) (close <$> candles) in
  let col (c : list float) (i : nat) := default nan (c !! i) in
  Ok ((fun i => mkRow (col tenkan i) (col kijun i) (col senkou_a i)
                      (col senkou_b i) (col chikou i))
        <$> seq 0 (length candles)).

Definition _nan_dict : Indicators.t :=
  Indicators.mk nan nan nan nan nan nan nan nan nan nan nan nan nan nan nan nan.

(** [v(series_row, col)]: the value itself, NaN staying NaN. *)
Definition v (val : float) : float := if isnan val then nan else val.

Definition latest_values (self : t) (candles : DataFrame) : result Indicators.t :=
  ichi ← calculate self candles;
  if bool_decide (length ichi < 2)%nat then Ok _nan_dict
  else
    cur ← iloc ichi (-1);
    prev ← iloc ichi (-2);
    c ← iloc candles (-1);
    pc ← iloc candles (-2);
    Ok {| Indicators.tenkan := v (r_tenkan cur);
          Indicators.kijun := v (r_kijun cur);
          Indicators.senkou_a := v (r_senkou_a cur);
          Indicators.senkou_b := v (r_senkou_b cur);
          Indicators.chikou := v (r_chikou cur);
          Indicators.close := close c;
          Indicators.cloud_top := py_max (v (r_senkou_a cur)) (v (r_senkou_b cur));
          Indicators.cloud_bottom := py_min (v (r_senkou_a cur)) (v (r_senkou_b cur));
          Indicators.prev_tenkan := v (r_tenkan prev);
          Indicators.prev_kijun := v (r_kijun prev);
          Indicators.prev_senkou_a := v (r_senkou_a prev);
          Indicators.prev_senkou_b := v (r_senkou_b prev);
          Indicators.prev_chikou := v (r_chikou prev);
          Indicators.prev_close := close pc;
          Indicators.prev_cloud_top := py_max (v (r_senkou_a prev)) (v (r_senkou_b prev));
          Indicators.prev_cloud_bottom := py_min (v (r_senkou_a prev)) (v (r_senkou_b prev)) |}.

End IchimokuIndicator.

(** ** core/signal_detector.py *)

Module SignalDetector.

Record Signal := mkSignal {
  pair : string;
  timeframe : string;
  signal_type : string;
  direction : string;
  timestamp : Z;
  price : float;
  details : list (string * float);
}.

Record DetectorConfig := mkConfig {
  cooldown_minutes : Z;
  cloud_filter : bool;
  strong_signal_only : bool;
}.

Definition default_config : DetectorConfig := mkConfig 30 true false.

(** [_CooldownKey]: (pair, timeframe, signal_type). *)
Abbreviation CooldownKey := (string * string * string)%type.

Definition ALL_SIGNALS : gset string :=
  {[ "tk_cross_up"; "tk_cross_down";
     "kumo_breakout_up"; "kumo_breakout_down";
     "chikou_cross_up"; "chikou_cross_down" ]}.

Record t := mk {
  cfg : DetectorConfig;
  enabled : gset string;
  _last_signal_time : gmap CooldownKey Z;
}.

Definition init (config : option DetectorConfig)
    (enabled_signals : option (gset string)) : t :=
  {| cfg := default default_config config;
     enabled := default ALL_SIGNALS enabled_signals;
     _last_signal_time := ∅ |}.

Definition reset_cooldowns (self : t) : t :=
  {| cfg := cfg self; enabled := enabled self; _last_signal_time := ∅ |}.

(** *** Signal rules: each returns [(fired, details)]. *)

Definition _tk_cross_up (self : t) (ind : Indicators.t)
    : bool * list (string * float) :=
  let cross :=
    (Indicators.prev_tenkan ind <=? Indicators.prev_kijun ind)%float
    && (Indicators.kijun ind <? Indicators.tenkan ind)%float in
  if negb cross then (false, [])
  else if cloud_filter (cfg self)
          && (Indicators.close ind <? Indicators.cloud_top ind)%float
  then (false, [])
  else (true, [ ("tenkan", Indicators.tenkan ind);
                ("kijun", Indicators.kijun ind);
                ("cloud_top", Indicators.cloud_top ind) ]).

Definition _tk_cross_down (self : t) (ind : Indicators.t)
    : bool * list (string * float) :=
  let cross :=
    (Indicators.prev_kijun ind <=? Indicators.prev_tenkan ind)%float
    && (Indicators.tenkan ind <? Indicators.kijun ind)%float in
  if negb cross then (false, [])
  else if cloud_filter (cfg self)
          && (Indicators.cloud_bottom ind <? Indicators.close ind)%float
  then (false, [])
  else (true, [ ("tenkan", Indicators.tenkan ind);
                ("kijun", Indicators.kijun ind);
                ("cloud_bottom", Indicators.cloud_bottom ind) ]).

Definition _kumo_breakout_up (self : t) (ind : Indicators.t)
    : bool * list (string * float) :=
  let was_outside_or_inside :=
    (Indicators.prev_close ind <=? Indicators.prev_cloud_top ind)%float in
  let now_above := (Indicators.cloud_top ind <? Indicators.close ind)%float in
  let fired := was_outside_or_inside && now_above in
  (fired, if fired then [ ("cloud_top", Indicators.cloud_top ind) ] else []).

Definition _kumo_breakout_down (self : t) (ind : Indicators.t)
    : bool * list (string * float) :=
  let was_outside_or_inside :=
    (Indicators.prev_cloud_bottom ind <=? Indicators.prev_close ind)%float in
  let now_below := (Indicators.close ind <? Indicators.cloud_bottom ind)%float in
  let fired := was_outside_or_inside && now_below in
  (fired, if fired then [ ("cloud_bottom", Indicators.cloud_bottom ind) ] else []).

Definition _chikou_cross_up (self : t) (ind : Indicators.t)
    : bool * list (string * float) :=
  let fired :=
    (Indicators.prev_chikou ind <=? Indicators.prev_close ind)%float
    && (Indicators.prev_close ind <? Indicators.chikou ind)%float in
  (fired, if fired then [ ("chikou", Indicators.chikou ind);
                          ("ref_close", Indicators.prev_close ind) ] else []).

Definition _chikou_cross_down (self : t) (ind : Indicators.t)
    : bool * list (string * float) :=
  let fired :=
    (Indicators.prev_close ind <=? Indicators.prev_chikou ind)%float
    && (Indicators.chikou ind <? Indicators.prev_close ind)%float in
  (fired, if fired then [ ("chikou", Indicators.chikou ind);
                          ("ref_close", Indicators.prev_close ind) ] else []).

(** *** Cooldown helpers *)

(** [_on_cooldown]: for a key with an entry the source builds
    [timedelta(minutes=cooldown_minutes)], which raises [OverflowError] for a
    [cooldown_minutes] outside [timedelta_in_range]; the definition is the
    source's value for a [cooldown_minutes] in that range. *)
Definition _on_cooldown (self : t) (pair timeframe signal_type : string)
    (now : Z) : bool :=
  let key := (pair, timeframe, signal_type) in
  match _last_signal_time self !! key with
  | None => false
  | Some last =>
      let delta := now - last in
      delta <? timedelta_minutes (cooldown_minutes (cfg self))
  end.

Definition _record_signal (self : t) (pair timeframe signal_type : string)
    (now : Z) : t :=
  {| cfg := cfg self; enabled := enabled self;
     _last_signal_time :=
       <[ (pair, timeframe, signal_type) := now ]> (_last_signal_time self) |}.

Definition _has_nan (indicators : Indicators.t) : bool :=
  existsb isnan (Indicators.values indicators).

(** *** [check] *)

Definition rule_fn : Type := t -> Indicators.t -> bool * list (string * float).

(** The local table [rules] of [check], in its fixed order. *)
Definition rules : list (string * rule_fn) :=
  [ ("tk_cross_up", _tk_cross_up);
    ("tk_cross_down", _tk_cross_down);
    ("kumo_breakout_up", _kumo_breakout_up);
    ("kumo_breakout_down", _kumo_breakout_down);
    ("chikou_cross_up", _chikou_cross_up);
    ("chikou_cross_down", _chikou_cross_down) ].

(** One iteration of the [for signal_type, rule_fn in rules] loop, on the
    state the loop threads: the list [signals] and the detector. *)
Definition check_rule (pair timeframe : string) (indicators : Indicators.t)
    (candle_time : Z) (acc : list Signal * t) (rule : string * rule_fn)
    : list Signal * t :=
  let '(signals, self) := acc in
  let '(signal_type, rule_fn) := rule in
  if negb (bool_decide (signal_type ∈ enabled self)) then acc
  else
    let '(fired, details) := rule_fn self indicators in
    if negb fired then acc
    else if _on_cooldown self pair timeframe signal_type candle_time then acc
    else
      let direction := if endswith signal_type "_up" then "BUY" else "SELL" in
      let sig := {| pair := pair; timeframe := timeframe;
                    signal_type := signal_type; direction := direction;
                    timestamp := candle_time;
                    price := Indicators.close indicators;
                    details := details |} in
      (signals ++ [sig], _record_signal self pair timeframe signal_type candle_time).

Definition check_rules (rs : list (string * rule_fn)) (self : t)
    (pair timeframe : string) (indicators : Indicators.t) (candle_time : Z)
    : list Signal * t :=
  if _has_nan indicators then ([], self)
  else fold_left (check_rule pair timeframe indicators candle_time) rs ([], self).

(** [check] returns the signals and leaves the detector with its updated
    cooldown registry. *)
Definition check (self : t) (pair timeframe : string)
    (indicators : Indicators.t) (candle_time : Z) : list Signal * t :=
  check_rules rules self pair timeframe indicators candle_time.

End SignalDetector.

(** ** backtest/engine.py *)

Module BacktestEngine.

Record BacktestConfig := mkConfig {
  ichimoku : IchimokuIndicator.IchimokuConfig;
  detector : SignalDetector.DetectorConfig;
  warmup_candles : Z;
  buffer_size : Z;
}.

Definition default_config : BacktestConfig :=
  mkConfig IchimokuIndicator.default_config SignalDetector.default_config 100 300.

Record t := mk { cfg : BacktestConfig }.

Definition init (config : option BacktestConfig) : t :=
  {| cfg := default default_config config |}.

(** The objects the replay loop of [run] works on. *)
Record loop_state := mkState {
  st_buffer : CandleBuffer.t;
  st_detector : SignalDetector.t;
  all_signals : list SignalDetector.Signal;
}.

(** The body of the [for ... in replay_candles.iterrows()] loop for one row:
    append the one-row frame, skip while the buffer is not ready, skip when
    the indicator raises, else check the signals at the row's timestamp. *)
Definition replay_step (indicator : IchimokuIndicator.t)
    (symbol timeframe : string) (st : loop_state) (row : Candle)
    : result loop_state :=
  let new_candle := [mkCandle (time row) (open row) (high row) (low row) (close row)] in
  buffer ← CandleBuffer.append (st_buffer st) new_candle;
  if negb (CandleBuffer.is_ready buffer)
  then Ok (mkState buffer (st_detector st) (all_signals st))
  else
    match d ← CandleBuffer.data buffer; IchimokuIndicator.latest_values indicator d with
    | Raise _ => Ok (mkState buffer (st_detector st) (all_signals st))
    | Ok ind_values =>
        let '(signals, det) :=
          SignalDetector.check (st_detector st) symbol timeframe ind_values (time row) in
        Ok (mkState buffer det (all_signals st ++ signals))
    end.

Fixpoint replay_loop (indicator : IchimokuIndicator.t)
    (symbol timeframe : string) (replay_candles : DataFrame) (st : loop_state)
    : result loop_state :=
  match replay_candles with
  | [] => Ok st
  | row :: rest =>
      st' ← replay_step indicator symbol timeframe st row;
      replay_loop indicator symbol timeframe rest st'
  end.

(** The state the loop starts from: fresh components, the buffer seeded
    with the warm-up window. *)
Definition start (self : t) (candles : DataFrame)
    (enabled_signals : option (gset string)) : result loop_state :=
  buffer ← CandleBuffer.init (buffer_size (cfg self)) CandleBuffer.DEFAULT_MIN;
  let detector := SignalDetector.init (Some (detector (cfg self))) enabled_signals in
  let warmup_df := iloc_to (warmup_candles (cfg self)) candles in
  Ok (mkState (CandleBuffer.seed buffer warmup_df) detector []).

Definition run (self : t) (symbol timeframe : string) (candles : DataFrame)
    (enabled_signals : option (gset string))
    : result (list SignalDetector.Signal) :=
  let total := Z.of_nat (length candles) in
  let warmup := warmup_candles (cfg self) in
  if total <=? warmup then Raise ValueError
  else
    let indicator := IchimokuIndicator.init (Some (ichimoku (cfg self))) in
    st0 ← start self candles enabled_signals;
    let replay_candles := iloc_from warmup candles in
    st ← replay_loop indicator symbol timeframe replay_candles st0;
    Ok (all_signals st).

End BacktestEngine.

(** ** backtest/report.py *)

(** [sorted(xs, key=key)]: Python's sort is stable, so its result is the one
    of an insertion sort that puts an element in front of the later elements
    with an equal key. *)
Fixpoint insert_by {A} (key : A -> Z) (x : A) (l : list A) : list A :=
  match l with
  | [] => [x]
  | y :: l' => if key x <=? key y then x :: l else y :: insert_by key x l'
  end.

Fixpoint sorted {A} (key : A -> Z) (xs : list A) : list A :=
  match xs with
  | [] => []
  | x :: xs' => insert_by key x (sorted key xs')
  end.

(** [d[k] = v] on a dict in insertion order: an existing key keeps its place. *)
Fixpoint dict_set {V} (k : string) (v : V) (d : list (string * V)) : list (string * V) :=
  match d with
  | [] => [(k, v)]
  | (k', v') :: d' =>
      if String.eqb k' k then (k', v) :: d' else (k', v') :: dict_set k v d'
  end.

(** [d.update(other)] *)
Definition dict_update {V} (d other : list (string * V)) : list (string * V) :=
  fold_left (fun d kv => dict_set kv.1 kv.2 d) other d.

Module BacktestReport.

(** [_results] is a [defaultdict(list)] keyed by (symbol, timeframe); its
    entries stand in the order in which the keys were first used. *)
Record t := mk {
  _results : list ((string * string) * list SignalDetector.Signal);
}.

Definition init : t := {| _results := [] |}.

(** [self._results[key].extend(signals)]: a key that is missing is entered
    at the end with an empty list, which the signals then extend. *)
Fixpoint extend_at (key : string * string) (signals : list SignalDetector.Signal)
    (results : list ((string * string) * list SignalDetector.Signal))
    : list ((string * string) * list SignalDetector.Signal) :=
  match results with
  | [] => [(key, [] ++ signals)]
  | (k, v) :: rest =>
      if decide (k = key) then (k, v ++ signals) :: rest
      else (k, v) :: extend_at key signals rest
  end.

Definition add_results (self : t) (symbol timeframe : string)
    (signals : list SignalDetector.Signal) : t :=
  {| _results := extend_at (symbol, timeframe) signals (_results self) |}.

(** [[s for signals in self._results.values() for s in signals]] *)
Definition all_signals (self : t) : list SignalDetector.Signal :=
  concat ((_results self).*2).

(** A cell of a row: the timestamp, a string column or a float column. *)
Inductive cell :=
  | Stamp (t : Z)
  | Str (s : string)
  | Num (x : float).

(** The dict [row] built for one signal: the six fixed columns, then
    [row.update(sig.details)]. *)
Definition row_of (sig : SignalDetector.Signal) : list (string * cell) :=
  let row :=
    [ ("timestamp", Stamp (SignalDetector.timestamp sig));
      ("pair", Str (SignalDetector.pair sig));
      ("timeframe", Str (SignalDetector.timeframe sig));
      ("direction", Str (SignalDetector.direction sig));
      ("signal_type", Str (SignalDetector.signal_type sig));
      ("price", Num (SignalDetector.price sig)) ] in
  dict_update row (prod_map id Num <$> SignalDetector.details sig).

(** [signals_as_dataframe]: the frame is given by the list [rows] it is built
    from, one record per signal, in the order of the sort; no signal gives the
    empty frame. *)
Definition signals_as_dataframe (self : t) : list (list (string * cell)) :=
  match all_signals self with
  | [] => []
  | _ :: _ => row_of <$> sorted SignalDetector.timestamp (all_signals self)
  end.

End BacktestReport.

(** ** The retry loops of core/data_fetcher.py and core/notifier.py *)

(** What a retry loop does to the outside world, in order. *)
Inductive event :=
  | Call
  | Sleep (seconds : float).

(** [range(1, n + 1)] *)
Definition range_from_1 (n : Z) : list Z := seqZ 1 n.

Module MT5DataFetcher.

Record MT5Config := mkConfig {
  login : Z;
  server : string;
  password : string;
  timeout : Z;
  max_retries : Z;
  retry_delay : float;
}.

Definition default_config : MT5Config := mkConfig 0 "" "" 60000 5 2.

Record t := mk { cfg : MT5Config; _connected : bool }.

(** One call of [fn]: it returns [None] or an array of rows, or it raises. *)
Inductive outcome (A : Type) :=
  | Returned (result : option (list A))
  | Raised.
Arguments Returned {A} result.
Arguments Raised {A}.

Definition _ensure_connected (self : t) : result unit :=
  if negb (_connected self) then Raise RuntimeError else Ok tt.

(** The [for attempt in range(1, max_tries + 1)] loop of [_retry]; [fn k] is
    the outcome of the call of [fn] made after [k] earlier calls, [log] what
    was done so far. *)
Fixpoint retry_loop {A} (fn : nat -> outcome A) (max_tries : Z) (attempts : list Z)
    (k : nat) (delay : float) (log : list event) : option (list A) * list event :=
  match attempts with
  | [] => (None, log)
  | attempt :: rest =>
      let log := log ++ [Call] in
      let failed :=
        if attempt <? max_tries
        then retry_loop fn max_tries rest (S k) (delay * 2)%float (log ++ [Sleep delay])
        else retry_loop fn max_tries rest (S k) delay log in
      match fn k with
      | Returned (Some (x :: xs)) => (Some (x :: xs), log)
      | Returned _ => failed
      | Raised => failed
      end
  end.

Definition _retry {A} (self : t) (fn : nat -> outcome A) (retries : option Z)
    : option (list A) * list event :=
  let max_tries := default (max_retries (cfg self)) retries in
  let delay := retry_delay (cfg self) in
  retry_loop fn max_tries (range_from_1 max_tries) 0 delay [].

End MT5DataFetcher.

Module DiscordNotifier.

Definition WEBHOOK_PREFIX : string := "https://discord.com/api/webhooks/".

Record t := mk {
  webhook_url : string;
  dry_run : bool;
  max_retries : Z;
  retry_delay : float;
}.

Definition init (webhook_url : string) (dry_run : bool) (max_retries : Z)
    (retry_delay : float) : result t :=
  if negb (String.prefix WEBHOOK_PREFIX webhook_url) then Raise ValueError
  else Ok {| webhook_url := webhook_url; dry_run := dry_run;
             max_retries := max_retries; retry_delay := retry_delay |}.

(** One [requests.post]: a response with its status code and, for a 429, the
    [retry_after] of its JSON body if it has one; or a [RequestException]. *)
Inductive reply :=
  | Status (status_code : Z) (retry_after : option float)
  | RequestException.

(** The loop of [_post_with_retry]; [post k] is the reply to the request made
    after [k] earlier ones. *)
Fixpoint post_loop (post : nat -> reply) (max_retries : Z) (attempts : list Z)
    (k : nat) (delay : float) (log : list event) : bool * list event :=
  match attempts with
  | [] => (false, log)
  | attempt :: rest =>
      let log := log ++ [Call] in
      let failed :=
        if attempt <? max_retries
        then post_loop post max_retries rest (S k) (delay * 2)%float (log ++ [Sleep delay])
        else post_loop post max_retries rest (S k) delay log in
      match post k with
      | Status status_code retry_after =>
          if status_code =? 204 then (true, log)
          else if status_code =? 429 then
            post_loop post max_retries rest (S k) delay
              (log ++ [Sleep (default delay retry_after)])
          else failed
      | RequestException => failed
      end
  end.

Definition _post_with_retry (self : t) (post : nat -> reply) : bool * list event :=
  post_loop post (max_retries self) (range_from_1 (max_retries self)) 0
    (retry_delay self) [].

(** [send] and [send_text]: under [dry_run] the message is logged only. *)
Definition send (self : t) (post : nat -> reply) : bool * list event :=
  if dry_run self then (true, []) else _post_with_retry self post.

End DiscordNotifier.

(** ** bot.py *)

Module Bot.

(** [BotState]; the notifier is kept as the list of signals handed to its
    [send], the heartbeat as the number of times it was set. *)
Record BotState := mkState {
  buffers : gmap (string * string) CandleBuffer.t;
  indicator : IchimokuIndicator.t;
  detector : SignalDetector.t;
  notified : list SignalDetector.Signal;
  heartbeats : nat;
}.

Definition with_buffer (st : BotState) (key : string * string)
    (buffer : CandleBuffer.t) : BotState :=
  {| buffers := <[key := buffer]> (buffers st); indicator := indicator st;
     detector := detector st; notified := notified st; heartbeats := heartbeats st |}.

(** [process_candle]; [fetched] is what [fetch_latest(symbol, timeframe,
    count=3)] does on this tick.  Whatever is raised inside is caught by the
    function's own [try], which leaves the objects as they were when it was
    raised. *)
Definition process_candle (st : BotState) (symbol timeframe : string)
    (fetched : result DataFrame) : BotState :=
  let key := (symbol, timeframe) in
  match buffers st !! key with
  | None => st
  | Some buffer =>
      match fetched with
      | Raise _ => st
      | Ok [] => st
      | Ok new_candles =>
          match CandleBuffer.append buffer new_candles with
          | Raise _ => st
          | Ok buffer =>
              let st := with_buffer st key buffer in
              if negb (CandleBuffer.is_ready buffer) then st
              else
                match d ← CandleBuffer.data buffer;
                      IchimokuIndicator.latest_values (indicator st) d with
                | Raise _ => st
                | Ok ind =>
                    match CandleBuffer.latest_time buffer with
                    | None => st
                    | Some candle_time =>
                        let '(signals, det) :=
                          SignalDetector.check (detector st) symbol timeframe ind
                            candle_time in
                        {| buffers := buffers st; indicator := indicator st;
                           detector := det;
                           notified := notified st ++ signals;
                           heartbeats := S (heartbeats st) |}
                    end
                end
          end
      end
  end.

End Bot.

(** ** Objects and references

    The classes above are written in state-passing style: a method takes its
    object and returns the object it leaves.  Here the objects live in a store
    and are reached by reference, as in the source, so that what a call leaves
    behind in the objects that outlive it can be stated.  Frames, signals and
    configurations are values: [iloc], [_prepare] (which copies its argument),
    [tail] and [pd.concat] build new frames, and no function of the four
    classes writes to a frame, a configuration or a set it was given. *)

Module Store.

(** An object of one of the four classes, with its attributes. *)
Inductive object :=
  | Engine (o : BacktestEngine.t)
  | Buffer (o : CandleBuffer.t)
  | Indicator (o : IchimokuIndicator.t)
  | Detector (o : SignalDetector.t).

(** A reference is a position of the store; a constructor call puts the new
    object at the first free one. *)
Abbreviation store := (list object).

Definition new (o : object) (h : store) : nat * store := (length h, h ++ [o]).

(** The methods that write to their object, on a reference.  [None]: the
    reference is not to an object of the class. *)
Definition CandleBuffer_seed (self : nat) (df : DataFrame) (h : store) : option store :=
  match h !! self with
  | Some (Buffer b) => Some (<[self := Buffer (CandleBuffer.seed b df)]> h)
  | _ => None
  end.

Definition CandleBuffer_append (self : nat) (df : DataFrame) (h : store)
    : option (result unit * store) :=
  match h !! self with
  | Some (Buffer b) =>
      match CandleBuffer.append b df with
      | Ok b => Some (Ok tt, <[self := Buffer b]> h)
      | Raise e => Some (Raise e, h)
      end
  | _ => None
  end.

Definition SignalDetector_check (self : nat) (pair timeframe : string)
    (indicators : Indicators.t) (candle_time : Z) (h : store)
    : option (list SignalDetector.Signal * store) :=
  match h !! self with
  | Some (Detector d) =>
      let '(signals, d) := SignalDetector.check d pair timeframe indicators candle_time in
      Some (signals, <[self := Detector d]> h)
  | _ => None
  end.

(** The loop of [run], on the references of the three objects it works on. *)
Fixpoint replay (buffer indicator detector : nat) (symbol timeframe : string)
    (replay_candles : DataFrame) (all_signals : list SignalDetector.Signal) (h : store)
    : option (result (list SignalDetector.Signal) * store) :=
  match replay_candles with
  | [] => Some (Ok all_signals, h)
  | row :: rest =>
      let new_candle := [mkCandle (time row) (open row) (high row) (low row) (close row)] in
      match CandleBuffer_append buffer new_candle h with
      | None => None
      | Some (Raise e, h) => Some (Raise e, h)
      | Some (Ok _, h) =>
          match h !! buffer, h !! indicator with
          | Some (Buffer b), Some (Indicator i) =>
              if negb (CandleBuffer.is_ready b)
              then replay buffer indicator detector symbol timeframe rest all_signals h
              else
                match d ← CandleBuffer.data b; IchimokuIndicator.latest_values i d with
                | Raise _ =>
                    replay buffer indicator detector symbol timeframe rest all_signals h
                | Ok ind_values =>
                    match SignalDetector_check detector symbol timeframe ind_values
                            (time row) h with
                    | None => None
                    | Some (signals, h) =>
                        replay buffer indicator detector symbol timeframe rest
                          (all_signals ++ signals) h
                    end
                end
          | _, _ => None
          end
      end
  end.

(** [BacktestEngine.run] for the engine at [self]. *)
Definition run (self : nat) (symbol timeframe : string) (candles : DataFrame)
    (enabled_signals : option (gset string)) (h : store)
    : option (result (list SignalDetector.Signal) * store) :=
  match h !! self with
  | Some (Engine e) =>
      let cfg := BacktestEngine.cfg e in
      let total := Z.of_nat (length candles) in
      let warmup := BacktestEngine.warmup_candles cfg in
      if total <=? warmup then Some (Raise ValueError, h)
      else
        match CandleBuffer.init (BacktestEngine.buffer_size cfg) CandleBuffer.DEFAULT_MIN with
        | Raise e => Some (Raise e, h)
        | Ok b =>
            let '(buffer, h) := new (Buffer b) h in
            let '(indicator, h) :=
              new (Indicator (IchimokuIndicator.init (Some (BacktestEngine.ichimoku cfg)))) h in
            let '(detector, h) :=
              new (Detector (SignalDetector.init (Some (BacktestEngine.detector cfg))
                               enabled_signals)) h in
            match CandleBuffer_seed buffer (iloc_to warmup candles) h with
            | None => None
            | Some h =>
                replay buffer indicator detector symbol timeframe
                  (iloc_from warmup candles) [] h
            end
        end
  | _ => None
  end.

End Store.

(** ** Synthetic frames, in the shape the test-suite builds them *)

Definition hour : Z := 3600000000000.

(** Hourly candles from [t0]; closes start at [c] and move by [step]; high and
    low sit half a unit from the close. *)
Fixpoint make_ohlc_from (n : nat) (t0 : Z) (c step : float) : DataFrame :=
  match n with
  | O => []
  | S n' =>
      mkCandle t0 c (c + 0.5)%float (c - 0.5)%float c
      :: make_ohlc_from n' (t0 + hour) (c + step)%float step
  end.

Definition make_ohlc (n : nat) : DataFrame := make_ohlc_from n 0 100%float 1%float.

(** The snapshot of a 60-candle frame under the default 9/26/52 periods. *)
Definition snapshot_60 : Indicators.t := Eval vm_compute in
  match IchimokuIndicator.latest_values (IchimokuIndicator.init None) (make_ohlc 60) with
  | Ok ind => ind
  | Raise _ => IchimokuIndicator._nan_dict
  end.

(** The snapshot fields each rule of the detector reads, by rule name (the
    [ind[...]] lookups of the rule, and [indicators["close"]] for the price of
    the signal). *)
Definition referenced (signal_type : string) (ind : Indicators.t) : list float :=
  if String.eqb signal_type "tk_cross_up" then
    [ Indicators.prev_tenkan ind; Indicators.prev_kijun ind; Indicators.tenkan ind;
      Indicators.kijun ind; Indicators.close ind; Indicators.cloud_top ind ]
  else if String.eqb signal_type "tk_cross_down" then
    [ Indicators.prev_tenkan ind; Indicators.prev_kijun ind; Indicators.tenkan ind;
      Indicators.kijun ind; Indicators.close ind; Indicators.cloud_bottom ind ]
  else if String.eqb signal_type "kumo_breakout_up" then
    [ Indicators.prev_close ind; Indicators.prev_cloud_top ind;
      Indicators.close ind; Indicators.cloud_top ind ]
  else if String.eqb signal_type "kumo_breakout_down" then
    [ Indicators.prev_close ind; Indicators.prev_cloud_bottom ind;
      Indicators.close ind; Indicators.cloud_bottom ind ]
  else if String.eqb signal_type "chikou_cross_up" then
    [ Indicators.prev_chikou ind; Indicators.prev_close ind; Indicators.chikou ind;
      Indicators.close ind ]
  else if String.eqb signal_type "chikou_cross_down" then
    [ Indicators.prev_chikou ind; Indicators.prev_close ind; Indicators.chikou ind;
      Indicators.close ind ]
  else [].

(** ** What one call of [check] emits and records *)

Definition emits (self : SignalDetector.t) (pair timeframe : string)
    (ind : Indicators.t) (now : Z) (rule : string * SignalDetector.rule_fn) : bool :=
  bool_decide (rule.1 ∈ SignalDetector.enabled self)
  && (rule.2 self ind).1
  && negb (SignalDetector._on_cooldown self pair timeframe rule.1 now).

Definition signal_of (self : SignalDetector.t) (pair timeframe : string)
    (ind : Indicators.t) (now : Z) (rule : string * SignalDetector.rule_fn)
    : SignalDetector.Signal :=
  {| SignalDetector.pair := pair;
     SignalDetector.timeframe := timeframe;
     SignalDetector.signal_type := rule.1;
     SignalDetector.direction := if endswith rule.1 "_up" then "BUY" else "SELL";
     SignalDetector.timestamp := now;
     SignalDetector.price := Indicators.close ind;
     SignalDetector.details := (rule.2 self ind).2 |}.

Definition cfg_only (rule : string * SignalDetector.rule_fn) : Prop :=
  forall s s' ind, SignalDetector.cfg s = SignalDetector.cfg s' -> rule.2 s ind = rule.2 s' ind.

(** The detector after recording [now] for each name of a list. *)
Definition record_all (pair timeframe : string) (now : Z) (names : list string)
    (self : SignalDetector.t) : SignalDetector.t :=
  fold_left (fun s st => SignalDetector._record_signal s pair timeframe st now) names self.

(** The rules of a table that emit a signal when evaluated on [self]. *)
Definition emitting (self : SignalDetector.t) (pair timeframe : string)
    (ind : Indicators.t) (now : Z) (rs : list (string * SignalDetector.rule_fn))
    : list (string * SignalDetector.rule_fn) :=
  filter (fun r => emits self pair timeframe ind now r = true) rs.

(** [self] and [self0] cannot be told apart by the rules of [rs]. *)
Definition agree_on (pair timeframe : string)
    (rs : list (string * SignalDetector.rule_fn))
    (self self0 : SignalDetector.t) : Prop :=
  SignalDetector.cfg self = SignalDetector.cfg self0
  /\ SignalDetector.enabled self = SignalDetector.enabled self0
  /\ forall r, r ∈ rs ->
       SignalDetector._last_signal_time self !! (pair, timeframe, r.1)
       = SignalDetector._last_signal_time self0 !! (pair, timeframe, r.1).

(** Snapshots in the shape of the detector's unit tests: a neutral one on
    which no rule fires, and one on which tenkan crosses above kijun. *)
Definition base_indicators : Indicators.t :=
  {| Indicators.tenkan := 110.5; Indicators.kijun := 111;
     Indicators.senkou_a := 108; Indicators.senkou_b := 106;
     Indicators.chikou := 110; Indicators.close := 110;
     Indicators.cloud_top := 108; Indicators.cloud_bottom := 106;
     Indicators.prev_tenkan := 110.25; Indicators.prev_kijun := 111;
     Indicators.prev_senkou_a := 108; Indicators.prev_senkou_b := 106;
     Indicators.prev_chikou := 110; Indicators.prev_close := 109.5;
     Indicators.prev_cloud_top := 108; Indicators.prev_cloud_bottom := 106 |}.

Definition tk_cross_up_ind : Indicators.t :=
  {| Indicators.tenkan := 111; Indicators.kijun := 110.5;
     Indicators.senkou_a := 108; Indicators.senkou_b := 106;
     Indicators.chikou := 110; Indicators.close := 110;
     Indicators.cloud_top := 108; Indicators.cloud_bottom := 106;
     Indicators.prev_tenkan := 110; Indicators.prev_kijun := 110.5;
     Indicators.prev_senkou_a := 108; Indicators.prev_senkou_b := 106;
     Indicators.prev_chikou := 110; Indicators.prev_close := 109.5;
     Indicators.prev_cloud_top := 108; Indicators.prev_cloud_bottom := 106 |}.

(** A detector with a 30-minute cooldown as constructed, and as its first
    [check], at time 0 on the snapshot of a TK cross, leaves it. *)
Definition detector_30 : SignalDetector.t :=
  SignalDetector.init (Some (SignalDetector.mkConfig 30 false false)) None.

Definition detector_30_fired : SignalDetector.t :=
  (SignalDetector.check detector_30 "EURUSD" "H1" tk_cross_up_ind 0).2.

(** A detector with a 30-minute cooldown whose last [tk_cross_up] for
    EURUSD/H1 was registered at time 0. *)
Definition detector_fired_at_0 : SignalDetector.t :=
  SignalDetector._record_signal
    (SignalDetector.init (Some (SignalDetector.mkConfig 30 false false)) None)
    "EURUSD" "H1" "tk_cross_up" 0.

(** ** The window invariant and the batches that keep it *)

(** A candle at time [t] with all four prices equal to 1. *)
Definition flat (t : Z) : Candle := mkCandle t 1 1 1 1.

(** The window is strictly ascending by timestamp (sorted, no timestamp
    twice) and within capacity. *)
Definition window_ok (self : CandleBuffer.t) : Prop :=
  exists d, CandleBuffer._data self = Some d
            /\ StronglySorted Z.lt (index d)
            /\ Z.of_nat (length d) <= CandleBuffer._max_size self.

(** [df] has no repeated timestamp, and every row of it that [append] would
    add to the window [d] is newer than the whole window. *)
Definition newer_than_window (d df : DataFrame) : Prop :=
  NoDup (index df)
  /\ forall c, c ∈ df -> CandleBuffer.row_has_nan c = false -> time c ∉ index d ->
       forall t, t ∈ index d -> t < time c.

(** A sequence of [append] calls. *)
Fixpoint append_all (self : CandleBuffer.t) (batches : list DataFrame)
    : result CandleBuffer.t :=
  match batches with
  | [] => Ok self
  | df :: rest => self' ← CandleBuffer.append self df; append_all self' rest
  end.

(** Each batch of the sequence is newer than the window it is appended to. *)
Fixpoint admissible (self : CandleBuffer.t) (batches : list DataFrame) : Prop :=
  match batches with
  | [] => True
  | df :: rest =>
      (forall d, CandleBuffer._data self = Some d -> newer_than_window d df)
      /\ (forall self', CandleBuffer.append self df = Ok self' -> admissible self' rest)
  end.

Definition window_1_3 : CandleBuffer.t :=
  CandleBuffer.seed (CandleBuffer.mk 10 2 None) [flat 1; flat 3].

Definition window_1_2_3 : CandleBuffer.t :=
  CandleBuffer.seed (CandleBuffer.mk 3 3 None) [flat 1; flat 2; flat 3].

Definition seeded_100 : CandleBuffer.t :=
  CandleBuffer.seed (CandleBuffer.mk 300 78 None) (make_ohlc 100).

(** ** Replay prefixes and example configurations *)

(** The replay of [run] stopped after the first [k] replay candles: the state
    in which the candle at position [warmup + k - 1] has just been evaluated. *)
Definition replay_prefix (self : BacktestEngine.t) (symbol timeframe : string)
    (candles : DataFrame) (enabled_signals : option (gset string)) (k : nat)
    : result BacktestEngine.loop_state :=
  let warmup := BacktestEngine.warmup_candles (BacktestEngine.cfg self) in
  let indicator :=
    IchimokuIndicator.init (Some (BacktestEngine.ichimoku (BacktestEngine.cfg self))) in
  st0 ← BacktestEngine.start self candles enabled_signals;
  BacktestEngine.replay_loop indicator symbol timeframe
    (take k (iloc_from warmup candles)) st0.

(** The replay of [run] started from a given detector instead of a fresh one. *)
Definition replay_with_detector (self : BacktestEngine.t) (symbol timeframe : string)
    (candles : DataFrame) (enabled_signals : option (gset string))
    (used : SignalDetector.t) : result BacktestEngine.loop_state :=
  let warmup := BacktestEngine.warmup_candles (BacktestEngine.cfg self) in
  let indicator :=
    IchimokuIndicator.init (Some (BacktestEngine.ichimoku (BacktestEngine.cfg self))) in
  st0 ← BacktestEngine.start self candles enabled_signals;
  BacktestEngine.replay_loop indicator symbol timeframe (iloc_from warmup candles)
    (BacktestEngine.mkState (BacktestEngine.st_buffer st0) used []).

(** Test-style configurations: chikou unshifted so that a snapshot of the
    newest candle has no NaN, warm-up of 78 candles; no cooldown, or a
    ten-hour cooldown. *)
Definition fast_config : BacktestEngine.BacktestConfig :=
  BacktestEngine.mkConfig (IchimokuIndicator.mkConfig 9 26 52 26 0)
    (SignalDetector.mkConfig 0 false false) 78 300.

Definition slow_config : BacktestEngine.BacktestConfig :=
  BacktestEngine.mkConfig (IchimokuIndicator.mkConfig 9 26 52 26 0)
    (SignalDetector.mkConfig 600 false false) 78 300.

(** ** The window: what a batch adds *)

(** Rows that [append] adds to the window [d] from the batch [df]. *)
Definition new_rows (d df : DataFrame) : DataFrame :=
  CandleBuffer.not_isin (index d) (CandleBuffer._prepare df).

(** Every row of the window is free of NaN. *)
Definition nan_free (self : CandleBuffer.t) : Prop :=
  forall d, CandleBuffer._data self = Some d ->
    forall c, c ∈ d -> CandleBuffer.row_has_nan c = false.

(** ** Detector: successive snapshots, registry bounds, the cloud filter *)

(** [s2] is the snapshot one candle after [s1]: its previous values are the
    current values of [s1]. *)
Definition follows (s1 s2 : Indicators.t) : Prop :=
  Indicators.prev_tenkan s2 = Indicators.tenkan s1
  /\ Indicators.prev_kijun s2 = Indicators.kijun s1
  /\ Indicators.prev_close s2 = Indicators.close s1
  /\ Indicators.prev_cloud_top s2 = Indicators.cloud_top s1
  /\ Indicators.prev_cloud_bottom s2 = Indicators.cloud_bottom s1.



(** The snapshot one candle after [tk_cross_up_ind]. *)
Definition after_tk_cross_up : Indicators.t :=
  {| Indicators.tenkan := 111.5; Indicators.kijun := 110.75;
     Indicators.senkou_a := 108; Indicators.senkou_b := 106;
     Indicators.chikou := 110.5; Indicators.close := 110.5;
     Indicators.cloud_top := 108; Indicators.cloud_bottom := 106;
     Indicators.prev_tenkan := 111; Indicators.prev_kijun := 110.5;
     Indicators.prev_senkou_a := 108; Indicators.prev_senkou_b := 106;
     Indicators.prev_chikou := 110; Indicators.prev_close := 110;
     Indicators.prev_cloud_top := 108; Indicators.prev_cloud_bottom := 106 |}.

(** ** Engine: the signals of one candle, the spacing of signals *)

(** The signals one replay candle contributes. *)
Definition candle_group (symbol timeframe : string) (en : gset string)
    (row : Candle) (g : list SignalDetector.Signal) : Prop :=
  (forall sig, sig ∈ g ->
     SignalDetector.pair sig = symbol /\ SignalDetector.timeframe sig = timeframe
     /\ SignalDetector.timestamp sig = time row
     /\ SignalDetector.signal_type sig ∈ en)
  /\ NoDup (SignalDetector.signal_type <$> g)
  /\ (length g <= 6)%nat.

(** The timestamps of the signals of one type, in output order. *)
Definition times_of_type (ty : string) (sigs : list SignalDetector.Signal) : list Z :=
  SignalDetector.timestamp <$> filter (fun s => SignalDetector.signal_type s = ty) sigs.

(** Successive entries of a list of times are at least [c] apart. *)
Definition spaced (c : Z) (ts : list Z) : Prop :=
  forall i a b, ts !! i = Some a -> ts !! S i = Some b -> c <= b - a.

(** Three candles, the high of the second one infinite. *)
Definition spiked : DataFrame :=
  [flat 0; mkCandle hour 1 infinity 1 1; flat (2 * hour)].

(** Chikou unshifted, a two-hour cooldown. *)
Definition paced_config : BacktestEngine.BacktestConfig :=
  BacktestEngine.mkConfig (IchimokuIndicator.mkConfig 9 26 52 26 0)
    (SignalDetector.mkConfig 120 false false) 78 300.

(** Chikou unshifted, a warm-up of ten candles only. *)
Definition hasty_config : BacktestEngine.BacktestConfig :=
  BacktestEngine.mkConfig (IchimokuIndicator.mkConfig 9 26 52 26 0)
    (SignalDetector.mkConfig 0 false false) 10 300.

(** ** Report, retry loops and the live tick *)

(** The list registered under a key of the report, if the key was used. *)
Fixpoint results_at (key : string * string)
    (results : list ((string * string) * list SignalDetector.Signal))
    : option (list SignalDetector.Signal) :=
  match results with
  | [] => None
  | (k, v) :: rest => if decide (k = key) then Some v else results_at key rest
  end.

(** [j] attempts that failed and were each followed by a sleep, the delay
    doubling from one to the next. *)
Fixpoint failed_attempts (j : nat) (delay : float) : list event :=
  match j with
  | O => []
  | S j' => Call :: Sleep delay :: failed_attempts j' (delay * 2)%float
  end.

(** The event is a call of [fn], or a request. *)
Definition is_call (e : event) : bool :=
  match e with
  | Call => true
  | Sleep _ => false
  end.

(** The number of calls in a log. *)
Definition calls (log : list event) : nat :=
  length (filter (fun e => is_call e = true) log).






(** A live state in the shape [initialise] leaves: one buffer, seeded with a
    hundred hourly candles; chikou unshifted. *)
Definition live_state : Bot.BotState :=
  Bot.mkState {[ ("EURUSD", "H1") := seeded_100 ]}
    (IchimokuIndicator.init (Some (IchimokuIndicator.mkConfig 9 26 52 26 0)))
    (SignalDetector.init None None) [] 0.

(** The three newest candles once the hundred-and-first has closed. *)
Definition latest_3 : DataFrame := drop 98 (make_ohlc 101).

(** The hundred-and-first candle. *)
Definition candle_100 : Candle := mkCandle (100 * hour) 200 200.5 199.5 200.

(** * Properties *)

(** ** NaN in comparisons

    Every ordered comparison with a NaN operand is false; this is what makes
    [py_max] and [py_min] keep their first argument next to a NaN. *)

Section nan_facts.

Lemma isnan_spec x : isnan x = true -> Prim2SF x = S754_nan.
Proof.
  unfold isnan, is_nan. rewrite FloatAxioms.eqb_spec.
  destruct (Prim2SF x) as [s|s| |s m e]; try reflexivity;
    unfold SFeqb, SFcompare; try (destruct s; discriminate).
  rewrite Z.compare_refl.
  assert (Hm : Pos.compare_cont Eq m m = Eq) by apply Pos.compare_refl.
  rewrite Hm. destruct s; discriminate.
Qed.

Lemma ltb_nan_l x y : isnan x = true -> (x <? y)%float = false.
Proof. intros H. rewrite FloatAxioms.ltb_spec, (isnan_spec x H). reflexivity. Qed.

Lemma ltb_nan_r x y : isnan y = true -> (x <? y)%float = false.
Proof.
  intros H. rewrite FloatAxioms.ltb_spec, (isnan_spec y H).
  unfold SFltb, SFcompare. destruct (Prim2SF x); reflexivity.
Qed.

Lemma py_max_nan a b : isnan a = true \/ isnan b = true -> py_max a b = a.
Proof.
  intros [H|H]; unfold py_max; [rewrite ltb_nan_l | rewrite ltb_nan_r]; auto.
Qed.

Lemma py_min_nan a b : isnan a = true \/ isnan b = true -> py_min a b = a.
Proof.
  intros [H|H]; unfold py_min; [rewrite ltb_nan_r | rewrite ltb_nan_l]; auto.
Qed.

Lemma v_id x : IchimokuIndicator.v x = x.
Proof.
  unfold IchimokuIndicator.v. destruct (isnan x) eqn:E; [|reflexivity].
  apply isnan_spec in E. rewrite <- (SF2Prim_Prim2SF x), E. reflexivity.
Qed.

End nan_facts.

(** Steps through the binds of the [result] monad. *)
Ltac result_step :=
  cbn [mbind result_bind mret result_ret fmap result_fmap] in *.

Ltac result_case H :=
  match type of H with
  | context [mbind _ ?m] => destruct m eqn:?; result_step; [|discriminate H]
  end.

(** ** Indicator snapshot *)

Lemma latest_values_short self candles ind :
  (length candles < 2)%nat ->
  IchimokuIndicator.latest_values self candles = Ok ind ->
  ind = IchimokuIndicator._nan_dict.
Proof.
  intros Hlen. unfold IchimokuIndicator.latest_values.
  destruct (IchimokuIndicator.calculate self candles) as [ichi|e] eqn:Hc;
    result_step; [|discriminate].
  assert (Hl : length ichi = length candles).
  { unfold IchimokuIndicator.calculate in Hc.
    do 3 result_case Hc. injection Hc as <-.
    rewrite length_fmap, length_seq. reflexivity. }
  rewrite bool_decide_true by lia. congruence.
Qed.

Lemma midpoint_nonneg df period :
  0 <= period -> exists xs, IchimokuIndicator._midpoint df period = Ok xs.
Proof.
  intros Hp. unfold IchimokuIndicator._midpoint, IchimokuIndicator.rolling_max,
    IchimokuIndicator.rolling_min, IchimokuIndicator.rolling.
  destruct (period <? 0) eqn:E; [lia|]. cbn [mbind result_bind]. eauto.
Qed.

Lemma calculate_nonneg self candles :
  0 <= IchimokuIndicator.tenkan_period (IchimokuIndicator.cfg self) ->
  0 <= IchimokuIndicator.kijun_period (IchimokuIndicator.cfg self) ->
  0 <= IchimokuIndicator.senkou_b_period (IchimokuIndicator.cfg self) ->
  exists ichi, IchimokuIndicator.calculate self candles = Ok ichi.
Proof.
  intros H1 H2 H3. unfold IchimokuIndicator.calculate.
  destruct (midpoint_nonneg candles _ H1) as [a ->].
  destruct (midpoint_nonneg candles _ H2) as [b ->].
  destruct (midpoint_nonneg candles _ H3) as [c ->].
  cbn [mbind result_bind]. eauto.
Qed.

(** What the snapshot does next to a NaN senkou value: whenever either senkou
    value is NaN, the cloud top and the cloud bottom both equal [senkou_a], at
    the current and at the previous position, because builtin [max]/[min] keep
    their first argument when the comparison with NaN is false.  The cloud is
    therefore NaN when [senkou_a] is, and a number when only [senkou_b] is
    NaN. *)
Lemma cloud_follows_senkou_a_on_nan self candles ind :
  IchimokuIndicator.latest_values self candles = Ok ind ->
  (isnan (Indicators.senkou_a ind) = true \/ isnan (Indicators.senkou_b ind) = true ->
     Indicators.cloud_top ind = Indicators.senkou_a ind
     /\ Indicators.cloud_bottom ind = Indicators.senkou_a ind)
  /\ (isnan (Indicators.prev_senkou_a ind) = true
      \/ isnan (Indicators.prev_senkou_b ind) = true ->
     Indicators.prev_cloud_top ind = Indicators.prev_senkou_a ind
     /\ Indicators.prev_cloud_bottom ind = Indicators.prev_senkou_a ind)
  /\ (isnan (Indicators.senkou_a ind) = true ->
     isnan (Indicators.cloud_top ind) = true
     /\ isnan (Indicators.cloud_bottom ind) = true)
  /\ (isnan (Indicators.prev_senkou_a ind) = true ->
     isnan (Indicators.prev_cloud_top ind) = true
     /\ isnan (Indicators.prev_cloud_bottom ind) = true).
Proof.
  intros H.
  assert (Hcur : Indicators.cloud_top ind
                 = py_max (Indicators.senkou_a ind) (Indicators.senkou_b ind)
               /\ Indicators.cloud_bottom ind
                 = py_min (Indicators.senkou_a ind) (Indicators.senkou_b ind)
               /\ Indicators.prev_cloud_top ind
                 = py_max (Indicators.prev_senkou_a ind) (Indicators.prev_senkou_b ind)
               /\ Indicators.prev_cloud_bottom ind
                 = py_min (Indicators.prev_senkou_a ind) (Indicators.prev_senkou_b ind)).
  { unfold IchimokuIndicator.latest_values in H.
    result_case H. case_bool_decide.
    - injection H as <-. repeat split; reflexivity.
    - do 4 result_case H. injection H as <-. cbn.
      repeat split; reflexivity. }
  destruct Hcur as (Ht & Hb & Hpt & Hpb).
  assert (Hc : isnan (Indicators.senkou_a ind) = true
               \/ isnan (Indicators.senkou_b ind) = true ->
               Indicators.cloud_top ind = Indicators.senkou_a ind
               /\ Indicators.cloud_bottom ind = Indicators.senkou_a ind).
  { intros Hn. rewrite Ht, Hb, py_max_nan, py_min_nan; auto. }
  assert (Hp : isnan (Indicators.prev_senkou_a ind) = true
               \/ isnan (Indicators.prev_senkou_b ind) = true ->
               Indicators.prev_cloud_top ind = Indicators.prev_senkou_a ind
               /\ Indicators.prev_cloud_bottom ind = Indicators.prev_senkou_a ind).
  { intros Hn. rewrite Hpt, Hpb, py_max_nan, py_min_nan; auto. }
  repeat split.
  - apply Hc; auto.
  - apply Hc; auto.
  - apply Hp; auto.
  - apply Hp; auto.
  - destruct Hc as [-> _]; auto.
  - destruct Hc as [_ ->]; auto.
  - destruct Hp as [-> _]; auto.
  - destruct Hp as [_ ->]; auto.
Qed.

(** C4. The specification has the cloud top and bottom undefined whenever
    either senkou value is; on a 60-candle frame under the default periods
    [latest_values] returns a snapshot in which [senkou_b] is NaN at the
    current and at the previous position while the cloud top and the cloud
    bottom are numbers. *)
Lemma cloud_defined_with_undefined_senkou_b :
  IchimokuIndicator.latest_values (IchimokuIndicator.init None) (make_ohlc 60)
    = Ok snapshot_60
  /\ isnan (Indicators.senkou_b snapshot_60) = true
  /\ isnan (Indicators.cloud_top snapshot_60) = false
  /\ isnan (Indicators.cloud_bottom snapshot_60) = false
  /\ isnan (Indicators.prev_senkou_b snapshot_60) = true
  /\ isnan (Indicators.prev_cloud_top snapshot_60) = false
  /\ isnan (Indicators.prev_cloud_bottom snapshot_60) = false.
Proof. repeat split; vm_compute; reflexivity. Qed.

Example cloud_of_snapshot_60 :
  Indicators.cloud_top snapshot_60 = Indicators.senkou_a snapshot_60
  /\ Indicators.cloud_bottom snapshot_60 = Indicators.senkou_a snapshot_60.
Proof.
  assert (H : IchimokuIndicator.latest_values (IchimokuIndicator.init None) (make_ohlc 60)
              = Ok snapshot_60) by (vm_compute; reflexivity).
  destruct (cloud_follows_senkou_a_on_nan _ _ _ H) as (Hcur & _).
  apply Hcur. right. vm_compute. reflexivity.
Qed.

(** ** Signal detector: skipping on NaN *)

Lemma referenced_in_values signal_type ind x :
  x ∈ referenced signal_type ind -> x ∈ Indicators.values ind.
Proof.
  unfold referenced, Indicators.values.
  repeat (destruct (String.eqb signal_type _));
    rewrite ?elem_of_cons, ?elem_of_nil; intuition auto.
Qed.

Lemma has_nan_of_elem ind x :
  x ∈ Indicators.values ind -> isnan x = true -> SignalDetector._has_nan ind = true.
Proof.
  intros Hin Hx. unfold SignalDetector._has_nan.
  apply existsb_exists. exists x. split; [|exact Hx].
  apply list_elem_of_In. exact Hin.
Qed.

Lemma check_rules_has_nan rs self pair timeframe ind now :
  SignalDetector._has_nan ind = true ->
  SignalDetector.check_rules rs self pair timeframe ind now = ([], self).
Proof. intros H. unfold SignalDetector.check_rules. rewrite H. reflexivity. Qed.

(** C5. If a value read by any rule of the table (enabled or not) is NaN,
    [check] returns no signal and leaves the detector as it was, whatever the
    rule table is: no rule is evaluated.  A snapshot of a frame of fewer than
    two candles is the all-NaN dict, and [check] on it returns the empty
    list; with non-negative rolling periods such a snapshot is always
    produced. *)
Theorem check_skips_on_nan rs self pair timeframe ind now signal_type x
    indicator candles ind' :
  (x ∈ referenced signal_type ind -> isnan x = true ->
     SignalDetector.check_rules rs self pair timeframe ind now = ([], self)
     /\ SignalDetector.check self pair timeframe ind now = ([], self))
  /\ ((length candles < 2)%nat ->
      IchimokuIndicator.latest_values indicator candles = Ok ind' ->
      Forall (fun v => isnan v = true) (Indicators.values ind')
      /\ SignalDetector.check self pair timeframe ind' now = ([], self))
  /\ ((length candles < 2)%nat ->
      0 <= IchimokuIndicator.tenkan_period (IchimokuIndicator.cfg indicator) ->
      0 <= IchimokuIndicator.kijun_period (IchimokuIndicator.cfg indicator) ->
      0 <= IchimokuIndicator.senkou_b_period (IchimokuIndicator.cfg indicator) ->
      IchimokuIndicator.latest_values indicator candles
        = Ok IchimokuIndicator._nan_dict).
Proof.
  split; [|split].
  - intros Hin Hnan.
    pose proof (has_nan_of_elem _ _ (referenced_in_values _ _ _ Hin) Hnan) as Hh.
    split; [|unfold SignalDetector.check]; apply check_rules_has_nan; exact Hh.
  - intros Hlen Hlv. rewrite (latest_values_short _ _ _ Hlen Hlv). split.
    + repeat constructor.
    + reflexivity.
  - intros Hlen H1 H2 H3.
    destruct (calculate_nonneg indicator candles H1 H2 H3) as [ichi Hc].
    destruct (IchimokuIndicator.latest_values indicator candles) as [i|e] eqn:Hlv.
    + rewrite (latest_values_short _ _ _ Hlen Hlv). reflexivity.
    + unfold IchimokuIndicator.latest_values in Hlv. rewrite Hc in Hlv.
      result_step.
      assert (Hl : length ichi = length candles).
      { unfold IchimokuIndicator.calculate in Hc. do 3 result_case Hc.
        injection Hc as <-. rewrite length_fmap, length_seq. reflexivity. }
      rewrite bool_decide_true in Hlv by lia. discriminate.
Qed.

Lemma check_skips_on_nan_witness :
  Indicators.chikou snapshot_60 ∈ referenced "chikou_cross_up" snapshot_60
  /\ isnan (Indicators.chikou snapshot_60) = true
  /\ SignalDetector.check (SignalDetector.init None None) "EURUSD" "H1" snapshot_60 0
     = ([], SignalDetector.init None None)
  /\ (length (make_ohlc 1) < 2)%nat
  /\ IchimokuIndicator.latest_values (IchimokuIndicator.init None) (make_ohlc 1)
     = Ok IchimokuIndicator._nan_dict
  /\ SignalDetector.check (SignalDetector.init None None) "EURUSD" "H1"
       IchimokuIndicator._nan_dict 0
     = ([], SignalDetector.init None None).
Proof.
  pose proof (check_skips_on_nan SignalDetector.rules (SignalDetector.init None None)
                "EURUSD" "H1" snapshot_60 0 "chikou_cross_up"
                (Indicators.chikou snapshot_60)
                (IchimokuIndicator.init None) (make_ohlc 1)
                IchimokuIndicator._nan_dict) as (Ha & Hb & Hc).
  assert (Hin : Indicators.chikou snapshot_60 ∈ referenced "chikou_cross_up" snapshot_60).
  { unfold referenced. simpl. rewrite !elem_of_cons. auto. }
  assert (Hnan : isnan (Indicators.chikou snapshot_60) = true) by reflexivity.
  assert (Hlen : (length (make_ohlc 1) < 2)%nat) by (simpl; lia).
  assert (Hlv : IchimokuIndicator.latest_values (IchimokuIndicator.init None) (make_ohlc 1)
                = Ok IchimokuIndicator._nan_dict).
  { apply Hc; [exact Hlen| | |]; simpl; lia. }
  split; [exact Hin|]. split; [exact Hnan|].
  split; [exact (proj2 (Ha Hin Hnan))|].
  split; [exact Hlen|]. split; [exact Hlv|].
  exact (proj2 (Hb Hlen Hlv)).
Defined.

(** ** Signal detector: cooldown registry *)

Section detector.
Import SignalDetector.

Lemma check_rule_emits self pair timeframe ind now sigs rule :
  emits self pair timeframe ind now rule = true ->
  check_rule pair timeframe ind now (sigs, self) rule
  = (sigs ++ [signal_of self pair timeframe ind now rule],
     _record_signal self pair timeframe rule.1 now).
Proof.
  destruct rule as [st fn]. unfold emits, check_rule, signal_of. simpl.
  intros H. apply andb_prop in H as [H H3]. apply andb_prop in H as [H1 H2].
  rewrite H1. simpl. destruct (fn self ind) as [fired details]. simpl in *.
  rewrite H2. simpl. apply negb_true_iff in H3. rewrite H3. reflexivity.
Qed.

Lemma check_rule_silent self pair timeframe ind now sigs rule :
  emits self pair timeframe ind now rule = false ->
  check_rule pair timeframe ind now (sigs, self) rule = (sigs, self).
Proof.
  destruct rule as [st fn]. unfold emits, check_rule. simpl.
  destruct (bool_decide _); simpl; [|reflexivity].
  destruct (fn self ind) as [fired details]. simpl.
  destruct fired; simpl; [|reflexivity].
  intros H. apply negb_false_iff in H. rewrite H. reflexivity.
Qed.

Lemma emits_agree pair timeframe ind now rs self self0 r :
  agree_on pair timeframe rs self self0 -> r ∈ rs -> cfg_only r ->
  emits self pair timeframe ind now r = emits self0 pair timeframe ind now r
  /\ signal_of self pair timeframe ind now r = signal_of self0 pair timeframe ind now r.
Proof.
  intros (Hc & He & Hr) Hin Hco. unfold emits, signal_of, _on_cooldown.
  rewrite (Hr r Hin), He, Hc, (Hco self self0 ind Hc). split; reflexivity.
Qed.

Lemma fold_check_rule rs : forall self0 self pair timeframe ind now sigs,
  NoDup rs.*1 -> Forall cfg_only rs -> agree_on pair timeframe rs self self0 ->
  fold_left (check_rule pair timeframe ind now) rs (sigs, self)
  = (sigs ++ (signal_of self0 pair timeframe ind now
                <$> emitting self0 pair timeframe ind now rs),
     record_all pair timeframe now (emitting self0 pair timeframe ind now rs).*1 self).
Proof.
  induction rs as [|r rs IH]; intros self0 self pair timeframe ind now sigs Hnd Hcfg Hag.
  - simpl. rewrite app_nil_r. reflexivity.
  - simpl in Hnd. apply NoDup_cons in Hnd as [Hr Hnd].
    apply Forall_cons in Hcfg as [Hc Hcfg].
    destruct (emits_agree pair timeframe ind now (r :: rs) self self0 r Hag
                ltac:(apply elem_of_cons; auto) Hc) as [He Hs].
    cbn [fold_left]. unfold emitting. rewrite filter_cons.
    destruct (emits self0 pair timeframe ind now r) eqn:He0.
    + rewrite check_rule_emits by congruence.
      rewrite decide_True by reflexivity.
      rewrite (IH self0); [| assumption | assumption |].
      * rewrite Hs, fmap_cons, <- app_assoc. reflexivity.
      * destruct Hag as (H1 & H2 & H3). split; [exact H1|]. split; [exact H2|].
        intros r' Hin. unfold _record_signal. simpl.
        rewrite lookup_insert_ne.
        -- apply H3. apply elem_of_cons. auto.
        -- intros Heq. apply Hr. apply list_elem_of_fmap. exists r'.
           split; [congruence | exact Hin].
    + rewrite check_rule_silent by congruence.
      rewrite decide_False by discriminate.
      apply (IH self0); [assumption | assumption |].
      destruct Hag as (H1 & H2 & H3). split; [exact H1|]. split; [exact H2|].
      intros r' Hin. apply H3. apply elem_of_cons. auto.
Qed.

Lemma rules_NoDup : NoDup rules.*1.
Proof. apply NoDup_ListNoDup. vm_compute. repeat constructor; simpl; intuition discriminate. Qed.

Lemma rules_cfg_only : Forall cfg_only rules.
Proof.
  unfold rules. repeat constructor; intros s s' ind Hc; simpl;
    unfold _tk_cross_up, _tk_cross_down; rewrite ?Hc; reflexivity.
Qed.

Lemma record_all_cfg pair timeframe now names : forall self,
  cfg (record_all pair timeframe now names self) = cfg self
  /\ enabled (record_all pair timeframe now names self) = enabled self.
Proof.
  induction names as [|st names IH]; intros self; simpl; [auto|].
  destruct (IH (_record_signal self pair timeframe st now)) as [-> ->]. auto.
Qed.

Lemma record_all_hit pair timeframe now names : forall self st,
  st ∈ names ->
  _last_signal_time (record_all pair timeframe now names self) !! (pair, timeframe, st)
  = Some now.
Proof.
  induction names as [|st0 names IH]; intros self st Hin.
  - apply elem_of_nil in Hin as [].
  - simpl. destruct (decide (st ∈ names)) as [Hn|Hn]; [apply IH, Hn|].
    apply elem_of_cons in Hin as [->|Hin]; [|contradiction].
    clear IH. revert self Hn. induction names as [|st1 names IH]; intros self Hn.
    + simpl. apply lookup_insert_eq.
    + simpl. apply not_elem_of_cons in Hn as [Hne Hn].
      specialize (IH (_record_signal self pair timeframe st1 now) Hn).
      simpl in IH. rewrite <- IH. unfold record_all.
      f_equal. f_equal. f_equal. unfold _record_signal. simpl. f_equal.
      apply insert_insert_ne. congruence.
Qed.

Lemma record_all_miss pair timeframe now names : forall self key,
  (forall st, st ∈ names -> key <> (pair, timeframe, st)) ->
  _last_signal_time (record_all pair timeframe now names self) !! key
  = _last_signal_time self !! key.
Proof.
  induction names as [|st0 names IH]; intros self key Hk; simpl; [reflexivity|].
  rewrite IH by (intros st Hin; apply Hk, elem_of_cons; auto).
  unfold _record_signal. simpl. apply lookup_insert_ne.
  intros Heq. apply (Hk st0); [apply elem_of_cons; auto | congruence].
Qed.

Lemma NoDup_fst_functional {A B} (l : list (A * B)) x y1 y2 :
  NoDup l.*1 -> (x, y1) ∈ l -> (x, y2) ∈ l -> y1 = y2.
Proof.
  induction l as [|[a b] l IH]; intros Hnd H1 H2.
  - apply elem_of_nil in H1 as [].
  - simpl in Hnd. apply NoDup_cons in Hnd as [Ha Hnd].
    apply elem_of_cons in H1 as [H1|H1]; apply elem_of_cons in H2 as [H2|H2].
    + congruence.
    + exfalso. apply Ha. apply list_elem_of_fmap. exists (x, y2).
      split; [simpl; congruence | exact H2].
    + exfalso. apply Ha. apply list_elem_of_fmap. exists (x, y1).
      split; [simpl; congruence | exact H1].
    + auto.
Qed.

Lemma check_unfold self pair timeframe ind now :
  _has_nan ind = false ->
  check self pair timeframe ind now
  = (signal_of self pair timeframe ind now <$> emitting self pair timeframe ind now rules,
     record_all pair timeframe now (emitting self pair timeframe ind now rules).*1 self).
Proof.
  intros Hn. unfold check, check_rules. rewrite Hn.
  rewrite (fold_check_rule rules self self); auto using rules_NoDup, rules_cfg_only.
  repeat split.
Qed.

Lemma emitted_iff self pair timeframe ind now st fn :
  _has_nan ind = false -> (st, fn) ∈ rules ->
  (exists sig, sig ∈ (check self pair timeframe ind now).1 /\ signal_type sig = st)
  <-> emits self pair timeframe ind now (st, fn) = true.
Proof.
  intros Hn Hin. rewrite check_unfold by exact Hn. simpl. split.
  - intros (sig & Hs & Ht). apply list_elem_of_fmap in Hs as (r & -> & Hr).
    apply list_elem_of_filter in Hr as [He Hr]. simpl in Ht. destruct r as [st' fn'].
    simpl in Ht. subst st'.
    rewrite (NoDup_fst_functional rules st fn fn' rules_NoDup Hin Hr). exact He.
  - intros He. exists (signal_of self pair timeframe ind now (st, fn)). split; [|reflexivity].
    apply list_elem_of_fmap. exists (st, fn). split; [reflexivity|].
    apply list_elem_of_filter. auto.
Qed.

Lemma emits_true_iff self pair timeframe ind now st fn :
  emits self pair timeframe ind now (st, fn) = true
  <-> st ∈ enabled self /\ (fn self ind).1 = true
      /\ _on_cooldown self pair timeframe st now = false.
Proof.
  unfold emits. simpl. rewrite !andb_true_iff, bool_decide_eq_true, negb_true_iff.
  tauto.
Qed.

Lemma check_frame self pair timeframe ind now :
  cfg (check self pair timeframe ind now).2 = cfg self
  /\ enabled (check self pair timeframe ind now).2 = enabled self.
Proof.
  destruct (_has_nan ind) eqn:Hn.
  - unfold check. rewrite check_rules_has_nan by exact Hn. auto.
  - rewrite check_unfold by exact Hn. apply record_all_cfg.
Qed.

Lemma check_registry self pair timeframe ind now key :
  let sigs := (check self pair timeframe ind now).1 in
  let self' := (check self pair timeframe ind now).2 in
  (_last_signal_time self' !! key = Some now
   /\ exists sig, sig ∈ sigs /\ key = (SignalDetector.pair sig, SignalDetector.timeframe sig, signal_type sig))
  \/ (_last_signal_time self' !! key = _last_signal_time self !! key
      /\ forall sig, sig ∈ sigs ->
           key <> (SignalDetector.pair sig, SignalDetector.timeframe sig, signal_type sig)).
Proof.
  intros sigs self'. subst sigs self'.
  destruct (_has_nan ind) eqn:Hn.
  - unfold check. rewrite check_rules_has_nan by exact Hn. right. split; [reflexivity|].
    intros sig Hs. apply elem_of_nil in Hs as [].
  - rewrite check_unfold by exact Hn. simpl.
    set (em := emitting self pair timeframe ind now rules).
    destruct key as [[p tf] st].
    destruct (decide (p = pair /\ tf = timeframe /\ st ∈ em.*1)) as [(-> & -> & Hin)|Hno].
    + left. split; [apply record_all_hit, Hin|].
      apply list_elem_of_fmap in Hin as (r & -> & Hr).
      exists (signal_of self pair timeframe ind now r). split; [|reflexivity].
      apply list_elem_of_fmap. eauto.
    + right. split.
      * apply record_all_miss. intros st' Hin Heq. apply Hno.
        injection Heq as -> -> ->. auto.
      * intros sig Hs Heq. apply Hno.
        apply list_elem_of_fmap in Hs as (r & -> & Hr). simpl in Heq.
        injection Heq as -> -> ->. repeat split.
        apply list_elem_of_fmap. eauto.
Qed.

(** C6. With a cooldown in the range of [timedelta] and a snapshot free of
    NaN, a rule of the table emits a signal in a call of [check] exactly when
    it is enabled, its condition holds and its own (pair, timeframe,
    signal_type) timer is not running: so a firing strictly within
    [cooldown_minutes] of the last registered one emits nothing, a firing when
    exactly [cooldown_minutes] have elapsed emits a signal, and whether a type
    is emitted at an instant is the same for two detectors that differ only in
    the timers of other keys.  A signal that is emitted registers its key at
    the candle time; hence, in the detector the call leaves, the same rule
    firing again strictly within [cooldown_minutes] of that emission emits
    nothing, and firing when [cooldown_minutes] or more have elapsed emits. *)
Theorem cooldown_semantics self pair timeframe ind now st fn last :
  timedelta_in_range (cooldown_minutes (cfg self)) ->
  _has_nan ind = false ->
  (st, fn) ∈ rules ->
  let sigs := (check self pair timeframe ind now).1 in
  let self' := (check self pair timeframe ind now).2 in
  let cooldown := timedelta_minutes (cooldown_minutes (cfg self)) in
  ((exists sig, sig ∈ sigs /\ signal_type sig = st)
     <-> st ∈ enabled self /\ (fn self ind).1 = true
         /\ _on_cooldown self pair timeframe st now = false)
  /\ (_last_signal_time self !! (pair, timeframe, st) = Some last ->
      now - last < cooldown ->
      forall sig, sig ∈ sigs -> signal_type sig <> st)
  /\ (_last_signal_time self !! (pair, timeframe, st) = Some last ->
      now - last = cooldown ->
      st ∈ enabled self -> (fn self ind).1 = true ->
      exists sig, sig ∈ sigs /\ signal_type sig = st /\ timestamp sig = now)
  /\ (forall other,
      cfg other = cfg self -> enabled other = enabled self ->
      _last_signal_time other !! (pair, timeframe, st)
      = _last_signal_time self !! (pair, timeframe, st) ->
      ((exists sig, sig ∈ (check other pair timeframe ind now).1 /\ signal_type sig = st)
       <-> (exists sig, sig ∈ sigs /\ signal_type sig = st)))
  /\ ((exists sig, sig ∈ sigs /\ signal_type sig = st) ->
      _last_signal_time self' !! (pair, timeframe, st) = Some now
      /\ forall ind' later,
           (later - now < cooldown ->
            forall sig, sig ∈ (check self' pair timeframe ind' later).1 ->
                        signal_type sig <> st)
           /\ (cooldown <= later - now ->
               _has_nan ind' = false -> (fn self' ind').1 = true ->
               exists sig, sig ∈ (check self' pair timeframe ind' later).1
                           /\ signal_type sig = st /\ timestamp sig = later)).
Proof.
  intros _ Hn Hin sigs self' cooldown.
  pose proof (emitted_iff self pair timeframe ind now st fn Hn Hin) as Hiff.
  rewrite emits_true_iff in Hiff. fold sigs in Hiff.
  assert (Hts : forall sig, sig ∈ sigs ->
                  timestamp sig = now /\ SignalDetector.pair sig = pair
                  /\ SignalDetector.timeframe sig = timeframe).
  { intros sig Hs. subst sigs. rewrite check_unfold in Hs by exact Hn. simpl in Hs.
    apply list_elem_of_fmap in Hs as (r & -> & _). auto. }
  assert (Hemit : st ∈ enabled self -> (fn self ind).1 = true ->
                  _on_cooldown self pair timeframe st now = false ->
                  exists sig, sig ∈ sigs /\ signal_type sig = st /\ timestamp sig = now).
  { intros H1 H2 H3. destruct (proj2 Hiff (conj H1 (conj H2 H3))) as (sig & Hs & Ht).
    exists sig. split; [exact Hs|]. split; [exact Ht|]. apply Hts, Hs. }
  split; [exact Hiff|]. split; [|split; [|split]].
  - intros Hl Hd sig Hs Ht.
    destruct (proj1 Hiff (ex_intro _ sig (conj Hs Ht))) as (_ & _ & Hc).
    unfold _on_cooldown in Hc. rewrite Hl in Hc. fold cooldown in Hc. lia.
  - intros Hl Hd He Hf. apply Hemit; auto.
    unfold _on_cooldown. rewrite Hl. fold cooldown. lia.
  - intros other Hcfg Hen Hreg.
    pose proof rules_cfg_only as Hco. rewrite Forall_forall in Hco.
    assert (Hag : emits other pair timeframe ind now (st, fn)
                  = emits self pair timeframe ind now (st, fn)).
    { apply (emits_agree pair timeframe ind now [(st, fn)] other self (st, fn)).
      - split; [exact Hcfg|]. split; [exact Hen|].
        intros r Hr. apply list_elem_of_singleton in Hr as ->. exact Hreg.
      - apply list_elem_of_singleton. reflexivity.
      - apply Hco, Hin. }
    pose proof (emitted_iff other pair timeframe ind now st fn Hn Hin) as Ho.
    pose proof (emitted_iff self pair timeframe ind now st fn Hn Hin) as Hs.
    fold sigs in Hs. split; intros H.
    + apply Hs. apply Ho in H. exact (eq_trans (eq_sym Hag) H).
    + apply Ho. apply Hs in H. exact (eq_trans Hag H).
  - intros (sig & Hs & Ht).
    destruct (proj1 Hiff (ex_intro _ sig (conj Hs Ht))) as (Hen & _ & _).
    destruct (check_frame self pair timeframe ind now) as [Hcfg' Hen'].
    fold self' in Hcfg', Hen'.
    assert (Hreg : _last_signal_time self' !! (pair, timeframe, st) = Some now).
    { destruct (check_registry self pair timeframe ind now (pair, timeframe, st))
        as [[Hnow _]|[_ Hno]]; [exact Hnow|].
      exfalso. apply (Hno sig Hs). destruct (Hts sig Hs) as (_ & -> & ->).
      rewrite Ht. reflexivity. }
    split; [exact Hreg|]. intros ind' later. split.
    + intros Hd sig' Hs' Ht'.
      destruct (_has_nan ind') eqn:Hn'.
      { unfold check in Hs'. rewrite check_rules_has_nan in Hs' by exact Hn'.
        apply elem_of_nil in Hs' as []. }
      pose proof (emitted_iff self' pair timeframe ind' later st fn Hn' Hin) as Hiff'.
      rewrite emits_true_iff in Hiff'.
      destruct (proj1 Hiff' (ex_intro _ sig' (conj Hs' Ht'))) as (_ & _ & Hc).
      unfold _on_cooldown in Hc. rewrite Hreg, Hcfg' in Hc. fold cooldown in Hc. lia.
    + intros Hd Hn' Hf'.
      pose proof (emitted_iff self' pair timeframe ind' later st fn Hn' Hin) as Hiff'.
      rewrite emits_true_iff in Hiff'.
      destruct (proj2 Hiff') as (sig' & Hs' & Ht').
      { split; [rewrite Hen'; exact Hen|]. split; [exact Hf'|].
        unfold _on_cooldown. rewrite Hreg, Hcfg'. fold cooldown. lia. }
      exists sig'. split; [exact Hs'|]. split; [exact Ht'|].
      rewrite check_unfold in Hs' by exact Hn'. simpl in Hs'.
      apply list_elem_of_fmap in Hs' as (r & -> & _). reflexivity.
Qed.

(** C10. A rule whose condition holds while its key is within cooldown leaves
    the registry entry of that key as it was; an entry changes only for the
    key of a signal emitted in this call (and then to [now]), so keys of no
    emitted signal are untouched; and after a suppressed firing the next
    firing is measured from the last emitted one. *)
Theorem suppressed_firing_keeps_registry self pair timeframe ind now :
  let sigs := (check self pair timeframe ind now).1 in
  let self' := (check self pair timeframe ind now).2 in
  let cooldown := timedelta_minutes (cooldown_minutes (cfg self)) in
  (forall st fn, (st, fn) ∈ rules -> (fn self ind).1 = true ->
     _on_cooldown self pair timeframe st now = true ->
     _last_signal_time self' !! (pair, timeframe, st)
     = _last_signal_time self !! (pair, timeframe, st))
  /\ (forall key, _last_signal_time self' !! key <> _last_signal_time self !! key ->
      _last_signal_time self' !! key = Some now
      /\ exists sig, sig ∈ sigs
           /\ key = (SignalDetector.pair sig, SignalDetector.timeframe sig, signal_type sig))
  /\ (forall key,
      (forall sig, sig ∈ sigs ->
         key <> (SignalDetector.pair sig, SignalDetector.timeframe sig, signal_type sig)) ->
      _last_signal_time self' !! key = _last_signal_time self !! key)
  /\ (forall st fn last ind2 now2,
      (st, fn) ∈ rules ->
      _last_signal_time self !! (pair, timeframe, st) = Some last ->
      (fn self ind).1 = true -> now - last < cooldown ->
      _has_nan ind2 = false -> st ∈ enabled self -> (fn self ind2).1 = true ->
      cooldown <= now2 - last ->
      exists sig, sig ∈ (check self' pair timeframe ind2 now2).1
                  /\ signal_type sig = st /\ timestamp sig = now2).
Proof.
  intros sigs self' cooldown.
  assert (Hsup : forall st fn, (st, fn) ∈ rules ->
            _on_cooldown self pair timeframe st now = true ->
            _last_signal_time self' !! (pair, timeframe, st)
            = _last_signal_time self !! (pair, timeframe, st)).
  { intros st fn Hin Hc.
    destruct (check_registry self pair timeframe ind now (pair, timeframe, st))
      as [(_ & sig & Hs & Hk)|[Heq _]]; [|exact Heq].
    exfalso. destruct (_has_nan ind) eqn:Hn.
    - unfold check in Hs. rewrite check_rules_has_nan in Hs by exact Hn.
      apply elem_of_nil in Hs as [].
    - assert (He : exists sig, sig ∈ (check self pair timeframe ind now).1
                               /\ signal_type sig = st).
      { exists sig. split; [exact Hs | congruence]. }
      apply (emitted_iff self pair timeframe ind now st fn Hn Hin) in He.
      apply emits_true_iff in He as (_ & _ & He). congruence. }
  split; [|split; [|split]].
  - intros st fn Hin _ Hc. eapply Hsup; eauto.
  - intros key Hne.
    destruct (check_registry self pair timeframe ind now key) as [H|[Heq _]];
      [exact H | contradiction].
  - intros key Hall.
    destruct (check_registry self pair timeframe ind now key)
      as [(_ & sig' & Hs' & Hk)|[Heq _]]; [|exact Heq].
    exfalso. exact (Hall sig' Hs' Hk).
  - intros st fn last ind2 now2 Hin Hl Hf Hd Hn2 He Hf2 Hd2.
    assert (Hc : _on_cooldown self pair timeframe st now = true).
    { unfold _on_cooldown. rewrite Hl. fold cooldown. lia. }
    pose proof (Hsup st fn Hin Hc) as Hkeep.
    destruct (check_frame self pair timeframe ind now) as [Hcfg Hen].
    fold self' in Hcfg, Hen.
    assert (Hem : emits self' pair timeframe ind2 now2 (st, fn) = true).
    { apply emits_true_iff. split; [rewrite Hen; exact He|]. split.
      - pose proof rules_cfg_only as Hco. rewrite Forall_forall in Hco.
        pose proof (Hco (st, fn) Hin self' self ind2 Hcfg) as Hx.
        simpl in Hx. simpl. rewrite Hx. exact Hf2.
      - unfold _on_cooldown. rewrite Hkeep, Hl, Hcfg. fold cooldown. lia. }
    apply (emitted_iff self' pair timeframe ind2 now2 st fn Hn2 Hin) in Hem
      as (sig & Hs & Ht).
    exists sig. split; [exact Hs|]. split; [exact Ht|].
    rewrite check_unfold in Hs by exact Hn2. simpl in Hs.
    apply list_elem_of_fmap in Hs as (r & -> & _). reflexivity.
Qed.

End detector.

(** The unit-test snapshots behave as the tests expect: nothing fires on the
    neutral one, [tk_cross_up] alone fires on the other. *)
Example base_indicators_silent :
  (SignalDetector.check (SignalDetector.init None None) "EURUSD" "H1" base_indicators 0).1
  = [].
Proof. vm_compute. reflexivity. Qed.

Example tk_cross_up_fires :
  SignalDetector.signal_type
    <$> (SignalDetector.check (SignalDetector.init None None) "EURUSD" "H1"
           tk_cross_up_ind 0).1
  = ["tk_cross_up"].
Proof. vm_compute. reflexivity. Qed.

Lemma cooldown_semantics_witness :
  (exists sig,
     sig ∈ (SignalDetector.check detector_30 "EURUSD" "H1" tk_cross_up_ind 0).1
     /\ SignalDetector.signal_type sig = "tk_cross_up")
  /\ SignalDetector._last_signal_time detector_30_fired
       !! ("EURUSD", "H1", "tk_cross_up") = Some 0
  /\ (forall sig,
        sig ∈ (SignalDetector.check detector_30_fired "EURUSD" "H1" tk_cross_up_ind
                 (timedelta_minutes 15)).1 ->
        SignalDetector.signal_type sig <> "tk_cross_up")
  /\ (exists sig,
        sig ∈ (SignalDetector.check detector_30_fired "EURUSD" "H1" tk_cross_up_ind
                 (timedelta_minutes 30)).1
        /\ SignalDetector.signal_type sig = "tk_cross_up"
        /\ SignalDetector.timestamp sig = timedelta_minutes 30).
Proof.
  assert (Hr : timedelta_in_range
                 (SignalDetector.cooldown_minutes (SignalDetector.cfg detector_30))).
  { split; vm_compute; [discriminate|reflexivity]. }
  assert (Hn : SignalDetector._has_nan tk_cross_up_ind = false) by (vm_compute; reflexivity).
  assert (Hin : ("tk_cross_up", SignalDetector._tk_cross_up) ∈ SignalDetector.rules).
  { unfold SignalDetector.rules. apply elem_of_cons. left. reflexivity. }
  destruct (cooldown_semantics detector_30 "EURUSD" "H1" tk_cross_up_ind 0
              "tk_cross_up" SignalDetector._tk_cross_up 0 Hr Hn Hin)
    as (Hiff & _ & _ & _ & Htwo).
  assert (Hfirst : exists sig,
            sig ∈ (SignalDetector.check detector_30 "EURUSD" "H1" tk_cross_up_ind 0).1
            /\ SignalDetector.signal_type sig = "tk_cross_up").
  { apply Hiff. split; [vm_compute; reflexivity|]. split; vm_compute; reflexivity. }
  destruct (Htwo Hfirst) as [Hreg Hnext].
  split; [exact Hfirst|]. split; [exact Hreg|].
  destruct (Hnext tk_cross_up_ind (timedelta_minutes 15)) as [Hsup _].
  destruct (Hnext tk_cross_up_ind (timedelta_minutes 30)) as [_ Hem].
  split.
  - apply Hsup. vm_compute. reflexivity.
  - apply Hem; [vm_compute; discriminate|exact Hn|vm_compute; reflexivity].
Defined.

Lemma suppressed_firing_keeps_registry_witness :
  ("tk_cross_up", SignalDetector._tk_cross_up) ∈ SignalDetector.rules
  /\ (SignalDetector._tk_cross_up detector_fired_at_0 tk_cross_up_ind).1 = true
  /\ SignalDetector._on_cooldown detector_fired_at_0 "EURUSD" "H1" "tk_cross_up"
       (timedelta_minutes 15) = true
  /\ SignalDetector._last_signal_time
       (SignalDetector.check detector_fired_at_0 "EURUSD" "H1" tk_cross_up_ind
          (timedelta_minutes 15)).2 !! ("EURUSD", "H1", "tk_cross_up")
     = SignalDetector._last_signal_time detector_fired_at_0
         !! ("EURUSD", "H1", "tk_cross_up")
  /\ (exists sig,
        sig ∈ (SignalDetector.check
                 (SignalDetector.check detector_fired_at_0 "EURUSD" "H1" tk_cross_up_ind
                    (timedelta_minutes 15)).2
                 "EURUSD" "H1" tk_cross_up_ind (timedelta_minutes 30)).1
        /\ SignalDetector.signal_type sig = "tk_cross_up"
        /\ SignalDetector.timestamp sig = timedelta_minutes 30).
Proof.
  assert (Hin : ("tk_cross_up", SignalDetector._tk_cross_up) ∈ SignalDetector.rules).
  { unfold SignalDetector.rules. apply elem_of_cons. left. reflexivity. }
  assert (Hf : (SignalDetector._tk_cross_up detector_fired_at_0 tk_cross_up_ind).1 = true)
    by (vm_compute; reflexivity).
  assert (Hc : SignalDetector._on_cooldown detector_fired_at_0 "EURUSD" "H1" "tk_cross_up"
                 (timedelta_minutes 15) = true) by (vm_compute; reflexivity).
  destruct (suppressed_firing_keeps_registry detector_fired_at_0 "EURUSD" "H1"
              tk_cross_up_ind (timedelta_minutes 15)) as (Hkeep & _ & _ & Hnext).
  split; [exact Hin|]. split; [exact Hf|]. split; [exact Hc|]. split.
  - exact (Hkeep _ _ Hin Hf Hc).
  - apply (Hnext "tk_cross_up" SignalDetector._tk_cross_up 0); try exact Hin; try exact Hf;
      vm_compute; first [reflexivity | discriminate].
Defined.

(** ** Candle buffer: window invariant and repeated delivery *)

Section buffer.
Import CandleBuffer.

#[local] Instance time_le_total : Total time_le.
Proof. intros a b. unfold time_le. lia. Qed.

#[local] Instance time_le_trans : Transitive time_le.
Proof. intros a b c. unfold time_le. lia. Qed.

Lemma StronglySorted_filter {A} (R : relation A) (P : A -> Prop)
    `{forall x, Decision (P x)} (l : list A) :
  StronglySorted R l -> StronglySorted R (filter P l).
Proof.
  induction 1 as [|x l Hs IH Hall]; [constructor|].
  rewrite filter_cons. destruct (decide (P x)); [|exact IH].
  constructor; [exact IH|].
  rewrite Forall_forall in Hall |- *. intros y Hy.
  apply list_elem_of_filter in Hy as [_ Hy]. auto.
Qed.

Lemma StronglySorted_drop {A} (R : relation A) (l : list A) n :
  StronglySorted R l -> StronglySorted R (drop n l).
Proof.
  intros Hs. rewrite <- (take_drop n l) in Hs.
  apply StronglySorted_app in Hs. tauto.
Qed.

(** A frame whose index is ascending is sorted by time. *)
Lemma is_monotonic_sorted (df : DataFrame) :
  is_monotonic_increasing (index df) = true -> StronglySorted time_le df.
Proof.
  induction df as [|a df IH]; intros H; [constructor|].
  assert (Hrest : is_monotonic_increasing (index df) = true).
  { destruct df as [|b df]; [reflexivity|]. simpl in H.
    apply andb_true_iff in H as [_ H]. exact H. }
  specialize (IH Hrest). constructor; [exact IH|].
  destruct df as [|b df]; [constructor|]. simpl in H.
  apply andb_true_iff in H as [Hab _]. apply Z.leb_le in Hab.
  apply StronglySorted_inv in IH as [_ Hall]. constructor; [exact Hab|].
  eapply Forall_impl; [exact Hall|]. intros c Hc. unfold time_le in *. lia.
Qed.

(** [sort_index] permutes the rows and leaves them ascending by time. *)
Lemma sort_index_Permutation df : sort_index df ≡ₚ df.
Proof.
  unfold sort_index. destruct (is_monotonic_increasing (index df)); [reflexivity|].
  apply merge_sort_Permutation.
Qed.

Lemma sort_index_sorted df : StronglySorted time_le (sort_index df).
Proof.
  unfold sort_index. destruct (is_monotonic_increasing (index df)) eqn:E.
  - apply is_monotonic_sorted, E.
  - apply StronglySorted_merge_sort; apply _.
Qed.

Lemma prepare_elem df c :
  c ∈ _prepare df <-> c ∈ df /\ row_has_nan c = false.
Proof.
  unfold _prepare, dropna.
  rewrite sort_index_Permutation, list_elem_of_filter. tauto.
Qed.

Lemma prepare_sorted df : StronglySorted time_le (_prepare df).
Proof. apply sort_index_sorted. Qed.

Lemma prepare_NoDup df : NoDup (index df) -> NoDup (index (_prepare df)).
Proof.
  intros Hnd. unfold index, _prepare.
  rewrite sort_index_Permutation.
  apply (sublist_NoDup _ (time <$> df)); [exact Hnd|].
  apply fmap_sublist. unfold dropna. apply sublist_filter.
Qed.

Lemma index_strictly_sorted (l : DataFrame) :
  StronglySorted time_le l -> NoDup (index l) -> StronglySorted Z.lt (index l).
Proof.
  induction 1 as [|x l Hs IH Hall]; intros Hnd; [constructor|].
  unfold index in *. rewrite fmap_cons in *. apply NoDup_cons in Hnd as [Hx Hnd].
  constructor; [auto|].
  rewrite Forall_forall in Hall. apply Forall_forall. intros t Ht.
  apply list_elem_of_fmap in Ht as (c & -> & Hc).
  specialize (Hall c Hc). unfold time_le in Hall.
  assert (time c <> time x).
  { intros Heq. apply Hx. apply list_elem_of_fmap. exists c. auto. }
  lia.
Qed.

Lemma df_tail_drop {A} n (l : list A) : exists k, df_tail n l = drop k l.
Proof. unfold df_tail. destruct (n <? 0); eauto. Qed.

Lemma df_tail_length {A} n (l : list A) :
  0 <= n -> Z.of_nat (length (df_tail n l)) <= n.
Proof.
  intros Hn. unfold df_tail. destruct (n <? 0) eqn:E; [lia|].
  rewrite length_drop. lia.
Qed.

Lemma df_tail_fits {A} n (l : list A) :
  Z.of_nat (length l) <= n -> df_tail n l = l.
Proof.
  intros Hn. unfold df_tail. destruct (n <? 0) eqn:E; [lia|].
  replace (length l - Z.to_nat n)%nat with 0%nat by lia. reflexivity.
Qed.

Lemma df_tail_suffix {A} n (l : list A) :
  exists dropped, l = dropped ++ df_tail n l.
Proof.
  destruct (df_tail_drop n l) as [k ->]. exists (take k l).
  symmetry. apply take_drop.
Qed.

Lemma seed_ok self df :
  0 <= _max_size self -> NoDup (index df) -> window_ok (seed self df).
Proof.
  intros Hm Hnd. unfold window_ok, seed. simpl. eexists. split; [reflexivity|].
  split; [|apply df_tail_length, Hm].
  destruct (df_tail_drop (_max_size self) (_prepare df)) as [k ->].
  unfold index. rewrite fmap_drop. apply StronglySorted_drop.
  apply index_strictly_sorted; [apply prepare_sorted | apply prepare_NoDup, Hnd].
Qed.

Lemma append_ok self df d :
  0 <= _max_size self ->
  _data self = Some d ->
  StronglySorted Z.lt (index d) ->
  Z.of_nat (length d) <= _max_size self ->
  newer_than_window d df ->
  exists self' d' dropped,
    append self df = Ok self'
    /\ _max_size self' = _max_size self /\ _min self' = _min self
    /\ _data self' = Some d'
    /\ StronglySorted Z.lt (index d')
    /\ Z.of_nat (length d') <= _max_size self
    /\ d ++ not_isin (index d) (_prepare df) = dropped ++ d'
    /\ (forall x y, x ∈ dropped -> y ∈ d' -> time x < time y)
    /\ Z.of_nat (length d')
       = Z.min (Z.of_nat (length d + length (not_isin (index d) (_prepare df))))
           (_max_size self).
Proof.
  intros Hm Hd Hs Hl [Hnd Hnew]. unfold append. rewrite Hd.
  set (new := not_isin (index d) (_prepare df)).
  assert (Hsn : StronglySorted Z.lt (index d ++ index new)).
  { apply StronglySorted_app. split; [|split; [exact Hs|]].
    - intros t1 t2 H1 H2. apply list_elem_of_fmap in H2 as (c & -> & Hc).
      apply list_elem_of_filter in Hc as [Hni Hc].
      apply prepare_elem in Hc as [Hc Hnan]. eapply Hnew; eauto.
    - apply index_strictly_sorted.
      + apply StronglySorted_filter, prepare_sorted.
      + apply (sublist_NoDup _ (index (_prepare df))); [apply prepare_NoDup, Hnd|].
        apply fmap_sublist, sublist_filter. }
  destruct new as [|c new'] eqn:Hn.
  - exists self, d, []. rewrite Hd, app_nil_r. repeat split; auto.
    + intros x y Hx. apply elem_of_nil in Hx as [].
    + simpl. lia.
  - rewrite <- Hn in *. clear Hn.
    destruct (df_tail_suffix (_max_size self) (d ++ new)) as [dropped Hdr].
    eexists _, _, dropped. split; [reflexivity|]. simpl.
    split; [reflexivity|]. split; [reflexivity|]. split; [reflexivity|].
    unfold index in Hsn. rewrite <- fmap_app, Hdr, fmap_app in Hsn.
    apply StronglySorted_app in Hsn as (Hcross & _ & Hkeep).
    split; [exact Hkeep|]. split; [apply df_tail_length, Hm|].
    split; [exact Hdr|]. split.
    + intros x y Hx Hy. apply Hcross; apply list_elem_of_fmap; eauto.
    + unfold df_tail. destruct (_max_size self <? 0) eqn:E; [lia|].
      rewrite length_drop, length_app. lia.
Qed.

Lemma append_all_ok batches : forall self,
  0 <= _max_size self -> window_ok self -> admissible self batches ->
  exists self', append_all self batches = Ok self'
                /\ window_ok self' /\ _max_size self' = _max_size self.
Proof.
  induction batches as [|df rest IH]; intros self Hm Hok Hadm.
  - exists self. auto.
  - destruct Hok as (d & Hd & Hs & Hl). destruct Hadm as [Hnew Hrest].
    destruct (append_ok self df d Hm Hd Hs Hl (Hnew d Hd))
      as (self1 & d1 & dropped & Ha & Hmax & _ & Hd1 & Hs1 & Hl1 & _).
    cbn [append_all]. rewrite Ha. cbn [mbind result_bind].
    destruct (IH self1) as (self' & Hall & Hok' & Hmax').
    + rewrite Hmax. exact Hm.
    + exists d1. rewrite Hmax. auto.
    + apply Hrest, Ha.
    + exists self'. rewrite Hmax' , Hmax. auto.
Qed.

(** C2 (as the code has it). With a capacity that is not negative, a seed
    frame without repeated timestamps and, at every [append], a batch without
    repeated timestamps whose new rows are newer than the whole window: the
    seeded window and the window after every sequence of appends are strictly
    ascending by timestamp (sorted, no timestamp twice) and at most [max_size]
    long; each append takes the window followed by the new rows in time
    order and keeps the last [max_size] rows of that, all of it when it is
    shorter: what it drops comes first and is older than all it keeps. *)
Theorem window_invariant_for_newer_batches self df batches :
  0 <= _max_size self ->
  NoDup (index df) ->
  admissible (seed self df) batches ->
  window_ok (seed self df)
  /\ (exists self', append_all (seed self df) batches = Ok self' /\ window_ok self')
  /\ (forall w d b,
        0 <= _max_size w -> _data w = Some d -> window_ok w -> newer_than_window d b ->
        exists w' d' dropped,
          append w b = Ok w' /\ _data w' = Some d' /\ window_ok w'
          /\ StronglySorted time_le (not_isin (index d) (_prepare b))
          /\ d ++ not_isin (index d) (_prepare b) = dropped ++ d'
          /\ (forall x y, x ∈ dropped -> y ∈ d' -> time x < time y)
          /\ Z.of_nat (length d')
             = Z.min (Z.of_nat (length d + length (not_isin (index d) (_prepare b))))
                 (_max_size w)).
Proof.
  intros Hm Hnd Hadm.
  pose proof (seed_ok self df Hm Hnd) as Hseed.
  split; [exact Hseed|]. split.
  - destruct (append_all_ok batches (seed self df) Hm Hseed Hadm) as (self' & H1 & H2 & _).
    eauto.
  - intros w d b Hw Hd (d0 & Hd0 & Hs & Hl) Hnew.
    assert (d0 = d) as -> by congruence.
    destruct (append_ok w b d Hw Hd Hs Hl Hnew)
      as (w' & d' & dropped & Ha & Hmax & _ & Hd' & Hs' & Hl' & Hsplit & Hold & Hlen).
    exists w', d', dropped. split; [exact Ha|]. split; [exact Hd'|]. split.
    { exists d'. rewrite Hmax. auto. }
    split; [apply StronglySorted_filter, prepare_sorted|]. auto.
Qed.
End buffer.

(** C2 (as stated) fails: appending an older bar leaves the window unsorted,
    a seed frame with a repeated timestamp keeps both rows, and so does a
    batch that repeats a new timestamp. *)
Lemma unsorted_or_duplicated_window :
  CandleBuffer.init 10 2 = Ok (CandleBuffer.mk 10 2 None)
  /\ (exists self',
        CandleBuffer.append window_1_3 [flat 2] = Ok self'
        /\ index <$> CandleBuffer._data self' = Some [1; 3; 2]
        /\ ~ Sorted Z.le [1; 3; 2])
  /\ index <$> CandleBuffer._data
                 (CandleBuffer.seed (CandleBuffer.mk 10 2 None) [flat 1; flat 1])
     = Some [1; 1]
  /\ (exists self',
        CandleBuffer.append window_1_3 [flat 5; flat 5] = Ok self'
        /\ index <$> CandleBuffer._data self' = Some [1; 3; 5; 5]
        /\ ~ NoDup [1; 3; 5; 5]).
Proof.
  split; [reflexivity|]. split; [|split].
  - eexists. split; [vm_compute; reflexivity|]. split; [reflexivity|].
    intros H. inversion H as [|? ? H1 _]; subst. inversion H1 as [|? ? _ H2]; subst.
    inversion H2 as [|? ? H3]; subst. lia.
  - vm_compute. reflexivity.
  - eexists. split; [vm_compute; reflexivity|]. split; [reflexivity|].
    intros H. apply NoDup_cons in H as [_ H]. apply NoDup_cons in H as [_ H].
    apply NoDup_cons in H as [H _]. apply H. apply elem_of_cons. auto.
Qed.

Lemma window_invariant_for_newer_batches_witness :
  0 <= CandleBuffer._max_size (CandleBuffer.mk 3 2 None)
  /\ NoDup (index [flat 2; flat 1])
  /\ admissible (CandleBuffer.seed (CandleBuffer.mk 3 2 None) [flat 2; flat 1]) [[flat 3]]
  /\ window_ok (CandleBuffer.seed (CandleBuffer.mk 3 2 None) [flat 2; flat 1])
  /\ (exists self',
        append_all (CandleBuffer.seed (CandleBuffer.mk 3 2 None) [flat 2; flat 1]) [[flat 3]]
        = Ok self' /\ window_ok self')
  /\ (exists w' d',
        CandleBuffer.append window_1_2_3 [flat 5; flat 4] = Ok w'
        /\ CandleBuffer._data w' = Some d'
        /\ Z.of_nat (length d') = 3
        /\ [flat 1; flat 2; flat 3] ++ [flat 4; flat 5] = [flat 1; flat 2] ++ d').
Proof.
  assert (Hm : 0 <= CandleBuffer._max_size (CandleBuffer.mk 3 2 None)) by (simpl; lia).
  assert (Hnd : NoDup (index [flat 2; flat 1])).
  { unfold index. simpl.
    repeat (apply NoDup_cons; split; [rewrite ?elem_of_cons, elem_of_nil; lia|]).
    apply NoDup_nil_2. }
  assert (Hadm : admissible (CandleBuffer.seed (CandleBuffer.mk 3 2 None) [flat 2; flat 1])
                   [[flat 3]]).
  { simpl. split; [|auto]. intros d Hd. vm_compute in Hd. injection Hd as <-.
    split; [apply NoDup_singleton|].
    intros c Hc _ _ t Ht. apply list_elem_of_singleton in Hc as ->.
    change (t ∈ [1; 2]) in Ht. simpl.
    rewrite !elem_of_cons, elem_of_nil in Ht. lia. }
  destruct (window_invariant_for_newer_batches _ _ _ Hm Hnd Hadm) as (H1 & H2 & H3).
  split; [exact Hm|]. split; [exact Hnd|]. split; [exact Hadm|]. split; [exact H1|].
  split; [exact H2|].
  destruct (H3 window_1_2_3 [flat 1; flat 2; flat 3] [flat 5; flat 4])
    as (w' & d' & dropped & Ha & Hd' & _ & _ & Hsplit & _ & Hlen).
  - vm_compute. discriminate.
  - vm_compute. reflexivity.
  - exists [flat 1; flat 2; flat 3]. split; [vm_compute; reflexivity|].
    split; [|vm_compute; discriminate].
    apply (bool_decide_unpack _). vm_compute. exact I.
  - split; [apply (bool_decide_unpack _); vm_compute; exact I|].
    intros c Hc _ _ t Ht. change (t ∈ [1; 2; 3]) in Ht.
    rewrite !elem_of_cons, elem_of_nil in Ht.
    rewrite !elem_of_cons, elem_of_nil in Hc.
    destruct Hc as [->|[->|[]]]; simpl; lia.
  - exists w', d'. split; [exact Ha|]. split; [exact Hd'|].
    split; [rewrite Hlen; vm_compute; reflexivity|].
    vm_compute in Ha. injection Ha as <-. vm_compute in Hd'. injection Hd' as <-.
    reflexivity.
Defined.

Section idempotence.
Import CandleBuffer.
#[local] Existing Instance time_le_total.

Lemma filter_none {A} (P : A -> Prop) `{forall x, Decision (P x)} (l : list A) :
  (forall x, x ∈ l -> ~ P x) -> filter P l = [].
Proof.
  induction l as [|x l IH]; intros Hall; [reflexivity|].
  rewrite filter_cons, decide_False by (apply Hall, elem_of_cons; auto).
  apply IH. intros y Hy. apply Hall, elem_of_cons. auto.
Qed.

Lemma append_noop self df d :
  _data self = Some d ->
  (forall c, c ∈ df -> row_has_nan c = false -> time c ∈ index d) ->
  append self df = Ok self.
Proof.
  intros Hd Hall. unfold append. rewrite Hd. cbv zeta.
  unfold not_isin. rewrite filter_none; [reflexivity|].
  intros c Hc Hni. apply prepare_elem in Hc as [Hc Hnan]. apply Hni. auto.
Qed.

Lemma append_inv self df self1 :
  append self df = Ok self1 ->
  exists d, _data self = Some d
    /\ ((not_isin (index d) (_prepare df) = [] /\ self1 = self)
        \/ (not_isin (index d) (_prepare df) <> []
            /\ self1 = {| _max_size := _max_size self; _min := _min self;
                          _data := Some (df_tail (_max_size self)
                                           (d ++ not_isin (index d) (_prepare df))) |})).
Proof.
  unfold append. destruct (_data self) as [d|]; [|discriminate]. cbv zeta.
  intros H. exists d. split; [reflexivity|].
  destruct (not_isin (index d) (_prepare df)) as [|c new]; injection H as <-.
  - left. auto.
  - right. split; [discriminate | reflexivity].
Qed.

Lemma df_tail_keeps_last {A} n (l : list A) x :
  1 <= n -> x ∈ df_tail n (l ++ [x]).
Proof.
  intros Hn. unfold df_tail. destruct (n <? 0) eqn:E; [lia|].
  rewrite drop_app_le by (rewrite length_app; simpl; lia).
  apply elem_of_app. right. apply elem_of_cons. auto.
Qed.

Lemma prepare_singleton c :
  row_has_nan c = false -> _prepare [c] = [c].
Proof.
  intros Hn. unfold _prepare, dropna. rewrite filter_cons, decide_True by exact Hn.
  reflexivity.
Qed.

(** C3 (as the code has it). A second [append] of the same batch changes
    nothing whenever every valid row of the batch is in the window after the
    first one; that is the case when the first append trims nothing, and for
    every single-row batch when the capacity is at least 1.  A valid new bar
    appended twice to a 100-bar window of capacity at least 101 leaves 101
    bars. *)
Theorem append_twice_same_when_batch_kept self df self1 d1 :
  append self df = Ok self1 ->
  _data self1 = Some d1 ->
  ((forall c, c ∈ df -> row_has_nan c = false -> time c ∈ index d1) ->
     append self1 df = Ok self1)
  /\ (forall d, _data self = Some d ->
        Z.of_nat (length d + length (not_isin (index d) (_prepare df))) <= _max_size self ->
        append self1 df = Ok self1)
  /\ (forall c, df = [c] -> 1 <= _max_size self -> append self1 df = Ok self1)
  /\ (forall d c, _data self = Some d -> df = [c] ->
        length d = 100%nat -> 101 <= _max_size self ->
        row_has_nan c = false -> time c ∉ index d ->
        length d1 = 101%nat
        /\ size <$> (self2 ← append self1 df; Ok self2) = Ok 101).
Proof.
  intros Ha Hd1.
  assert (Hkept : (forall c, c ∈ df -> row_has_nan c = false -> time c ∈ index d1) ->
                  append self1 df = Ok self1).
  { intros Hall. apply (append_noop self1 df d1 Hd1 Hall). }
  destruct (append_inv self df self1 Ha) as (d & Hd & Hcase).
  split; [exact Hkept|]. split; [|split].
  - intros d' Hd' Hfit. assert (d' = d) as -> by congruence.
    apply Hkept. intros c Hc Hnan.
    destruct (decide (time c ∈ index d)) as [Hin|Hni].
    + destruct Hcase as [[_ ->]|[_ ->]].
      * assert (d1 = d) as -> by congruence. exact Hin.
      * simpl in Hd1. injection Hd1 as <-.
        rewrite df_tail_fits by (rewrite length_app; lia).
        unfold index. rewrite fmap_app. apply elem_of_app. auto.
    + assert (Hnew : c ∈ not_isin (index d) (_prepare df)).
      { apply list_elem_of_filter. split; [exact Hni|]. apply prepare_elem. auto. }
      destruct Hcase as [[He _]|[_ ->]].
      * rewrite He in Hnew. apply elem_of_nil in Hnew as [].
      * simpl in Hd1. injection Hd1 as <-.
        rewrite df_tail_fits by (rewrite length_app; lia).
        unfold index. rewrite fmap_app. apply elem_of_app. right.
        apply list_elem_of_fmap. eauto.
  - intros c -> Hm. apply Hkept. intros c' Hc' Hnan.
    apply list_elem_of_singleton in Hc' as ->.
    destruct (decide (time c ∈ index d)) as [Hin|Hni].
    + destruct Hcase as [[_ ->]|[Hne _]].
      * assert (d1 = d) as -> by congruence. exact Hin.
      * exfalso. apply Hne. unfold not_isin. rewrite prepare_singleton by exact Hnan.
        rewrite filter_cons, decide_False by auto. reflexivity.
    + assert (Hnew : not_isin (index d) (_prepare [c]) = [c]).
      { unfold not_isin. rewrite prepare_singleton by exact Hnan.
        rewrite filter_cons, decide_True by exact Hni. reflexivity. }
      rewrite Hnew in Hcase. destruct Hcase as [[He _]|[_ ->]]; [discriminate|].
      simpl in Hd1. injection Hd1 as <-. apply list_elem_of_fmap. exists c.
      split; [reflexivity|]. apply df_tail_keeps_last, Hm.
  - intros d' c Hd' -> Hlen Hm Hnan Hni. assert (d' = d) as -> by congruence.
    assert (Hnew : not_isin (index d) (_prepare [c]) = [c]).
    { unfold not_isin. rewrite prepare_singleton by exact Hnan.
      rewrite filter_cons, decide_True by exact Hni. reflexivity. }
    rewrite Hnew in Hcase. destruct Hcase as [[He _]|[_ Hs1]]; [discriminate|].
    rewrite Hs1 in Hd1. simpl in Hd1. injection Hd1 as Hd1.
    rewrite df_tail_fits in Hd1 by (rewrite length_app; simpl; lia).
    assert (Hl1 : length d1 = 101%nat) by (subst d1; rewrite length_app; simpl; lia).
    split; [exact Hl1|].
    rewrite Hkept.
    + cbn [mbind result_bind fmap result_fmap]. unfold size. rewrite Hs1. simpl.
      rewrite df_tail_fits by (rewrite length_app; simpl; lia).
      rewrite length_app. simpl. f_equal. lia.
    + intros c' Hc' _. apply list_elem_of_singleton in Hc' as ->.
      subst d1. unfold index. rewrite fmap_app. apply elem_of_app. right.
      apply elem_of_cons. auto.
Qed.

End idempotence.

(** C3 (as stated) fails: on a full window of capacity 3 holding the bars of
    times 1, 2, 3, the batch of times 1 and 4 gives 2, 3, 4 when appended once
    and 3, 4, 1 when appended twice: the bar of time 1, trimmed by the first
    append, is new again for the second. *)
Lemma append_twice_differs :
  CandleBuffer.init 3 3 = Ok (CandleBuffer.mk 3 3 None)
  /\ exists once twice,
       CandleBuffer.append window_1_2_3 [flat 1; flat 4] = Ok once
       /\ CandleBuffer.append once [flat 1; flat 4] = Ok twice
       /\ index <$> CandleBuffer._data once = Some [2; 3; 4]
       /\ index <$> CandleBuffer._data twice = Some [3; 4; 1]
       /\ once <> twice.
Proof.
  split; [reflexivity|]. eexists _, _.
  split; [vm_compute; reflexivity|]. split; [vm_compute; reflexivity|].
  split; [reflexivity|]. split; [reflexivity|]. discriminate.
Qed.

Lemma append_twice_same_when_batch_kept_witness :
  (exists once,
     CandleBuffer.append window_1_3 [flat 3; flat 4] = Ok once
     /\ CandleBuffer._data once = Some [flat 1; flat 3; flat 4]
     /\ CandleBuffer.append once [flat 3; flat 4] = Ok once)
  /\ (exists once,
       CandleBuffer.append seeded_100 [flat (100 * hour)] = Ok once
       /\ CandleBuffer.size
            <$> (twice ← CandleBuffer.append once [flat (100 * hour)]; Ok twice)
          = Ok 101).
Proof.
  split.
  - eexists.
    assert (Ha : CandleBuffer.append window_1_3 [flat 3; flat 4]
                 = Ok (CandleBuffer.mk 10 2 (Some [flat 1; flat 3; flat 4])))
      by (vm_compute; reflexivity).
    split; [exact Ha|]. split; [reflexivity|].
    destruct (append_twice_same_when_batch_kept _ _ _ _ Ha eq_refl) as (Hkept & _).
    apply Hkept. intros c Hc _.
    rewrite !elem_of_cons, elem_of_nil in Hc.
    destruct Hc as [->|[->|[]]]; simpl; rewrite !elem_of_cons; auto.
  - destruct (CandleBuffer.append seeded_100 [flat (100 * hour)]) as [once|] eqn:Ha;
      [|vm_compute in Ha; discriminate].
    exists once. split; [reflexivity|].
    destruct (CandleBuffer._data once) as [d1|] eqn:Hd1;
      [|apply append_inv in Ha as (d & _ & [[_ ->]|[_ ->]]); discriminate].
    destruct (append_twice_same_when_batch_kept _ _ _ _ Ha Hd1) as (_ & _ & _ & Hsc).
    apply (Hsc (make_ohlc 100) (flat (100 * hour))).
    + vm_compute. reflexivity.
    + reflexivity.
    + reflexivity.
    + simpl. lia.
    + reflexivity.
    + intros Hin. apply (bool_decide_pack _) in Hin. vm_compute in Hin. exact Hin.
Defined.

(** ** Backtest engine: replay *)

Section engine.
Import BacktestEngine.

Lemma append_data self df self' :
  CandleBuffer.append self df = Ok self' ->
  CandleBuffer._max_size self' = CandleBuffer._max_size self
  /\ CandleBuffer._min self' = CandleBuffer._min self
  /\ exists d d', CandleBuffer._data self = Some d
       /\ CandleBuffer._data self' = Some d'
       /\ (forall c, c ∈ d' -> c ∈ d \/ c ∈ df)
       /\ (0 <= CandleBuffer._max_size self ->
           Z.of_nat (length d) <= CandleBuffer._max_size self ->
           Z.of_nat (length d') <= CandleBuffer._max_size self).
Proof.
  intros Ha. apply append_inv in Ha as (d & Hd & [[_ ->]|[_ ->]]).
  - split; [reflexivity|]. split; [reflexivity|]. exists d, d. auto.
  - simpl. split; [reflexivity|]. split; [reflexivity|].
    eexists d, _. split; [exact Hd|]. split; [reflexivity|]. split.
    + intros c Hc. destruct (df_tail_drop (CandleBuffer._max_size self)
                               (d ++ CandleBuffer.not_isin (index d) (CandleBuffer._prepare df)))
        as [k Hk].
      rewrite Hk in Hc. apply subseteq_drop in Hc. apply elem_of_app in Hc as [Hc|Hc]; [auto|].
      right. apply list_elem_of_filter in Hc as [_ Hc].
      apply prepare_elem in Hc. tauto.
    + intros Hm _. apply df_tail_length, Hm.
Qed.

Lemma append_seeded self df d :
  CandleBuffer._data self = Some d -> exists self', CandleBuffer.append self df = Ok self'.
Proof.
  intros Hd. unfold CandleBuffer.append. rewrite Hd. cbv zeta.
  destruct (CandleBuffer.not_isin _ _); eauto.
Qed.

Lemma check_timestamps det symbol timeframe ind now sig :
  sig ∈ (SignalDetector.check det symbol timeframe ind now).1 ->
  SignalDetector.timestamp sig = now.
Proof.
  destruct (SignalDetector._has_nan ind) eqn:Hn.
  - unfold SignalDetector.check. rewrite check_rules_has_nan by exact Hn.
    intros H. apply elem_of_nil in H as [].
  - rewrite check_unfold by exact Hn. simpl. intros H.
    apply list_elem_of_fmap in H as (r & -> & _). reflexivity.
Qed.

(** What one replay step does to the loop state. *)
Lemma replay_step_spec indicator symbol timeframe st row st' :
  replay_step indicator symbol timeframe st row = Ok st' ->
  CandleBuffer.append (st_buffer st) [row] = Ok (st_buffer st')
  /\ (forall sig, sig ∈ all_signals st' ->
        sig ∈ all_signals st \/ SignalDetector.timestamp sig = time row).
Proof.
  unfold replay_step. destruct row as [t o h l c]. simpl.
  destruct (CandleBuffer.append (st_buffer st) _) as [buffer|e] eqn:Ha;
    result_step; [|discriminate].
  destruct (negb (CandleBuffer.is_ready buffer)).
  - intros H. injection H as <-. simpl. auto.
  - destruct (mbind _ _) as [ind|e].
    + destruct (SignalDetector.check (st_detector st) symbol timeframe ind t)
        as [signals det] eqn:Hc.
      intros H. injection H as <-. simpl. split; [reflexivity|].
      intros sig Hs. apply elem_of_app in Hs as [Hs|Hs]; [auto|]. right.
      apply (check_timestamps (st_detector st) symbol timeframe ind t).
      rewrite Hc. exact Hs.
    + intros H. injection H as <-. simpl. auto.
Qed.

Lemma replay_step_total indicator symbol timeframe st row d :
  CandleBuffer._data (st_buffer st) = Some d ->
  exists st', replay_step indicator symbol timeframe st row = Ok st'.
Proof.
  intros Hd. unfold replay_step.
  destruct (append_seeded (st_buffer st)
              [mkCandle (time row) (open row) (high row) (low row) (close row)] d Hd)
    as [buffer ->].
  result_step. destruct (negb _); [eauto|].
  destruct (mbind _ _); [|eauto].
  destruct (SignalDetector.check _ _ _ _ _). eauto.
Qed.

Lemma replay_loop_spec indicator symbol timeframe rows : forall st st',
  replay_loop indicator symbol timeframe rows st = Ok st' ->
  CandleBuffer._max_size (st_buffer st') = CandleBuffer._max_size (st_buffer st)
  /\ (forall d, CandleBuffer._data (st_buffer st) = Some d ->
      exists d', CandleBuffer._data (st_buffer st') = Some d'
        /\ (forall c, c ∈ d' -> c ∈ d \/ c ∈ rows)
        /\ (0 <= CandleBuffer._max_size (st_buffer st) ->
            Z.of_nat (length d) <= CandleBuffer._max_size (st_buffer st) ->
            Z.of_nat (length d') <= CandleBuffer._max_size (st_buffer st)))
  /\ (forall sig, sig ∈ all_signals st' ->
        sig ∈ all_signals st
        \/ exists row, row ∈ rows /\ SignalDetector.timestamp sig = time row).
Proof.
  induction rows as [|row rows IH]; intros st st' H.
  - simpl in H. injection H as <-. split; [reflexivity|]. split; [eauto|auto].
  - cbn [replay_loop] in H.
    destruct (replay_step indicator symbol timeframe st row) as [st1|e] eqn:Hs;
      result_step; [|discriminate].
    apply replay_step_spec in Hs as [Ha Hsig].
    apply append_data in Ha as (Hmax & _ & d0 & d1 & Hd0 & Hd1 & Hsub & Hlen).
    destruct (IH st1 st' H) as (Hmax' & Hdata & Hsigs).
    split; [congruence|]. split.
    + intros d Hd. assert (d0 = d) as -> by congruence.
      destruct (Hdata d1 Hd1) as (d' & Hd' & Hsub' & Hlen').
      exists d'. split; [exact Hd'|]. split.
      * intros c Hc. destruct (Hsub' c Hc) as [Hc1|Hc1].
        -- destruct (Hsub c Hc1) as [?|Hr]; [auto|].
           right. apply list_elem_of_singleton in Hr as ->. apply elem_of_cons. auto.
        -- right. apply elem_of_cons. auto.
      * intros Hm Hl. rewrite Hmax in Hlen'. apply Hlen'; [exact Hm|]. apply Hlen; auto.
    + intros sig Hin. destruct (Hsigs sig Hin) as [H1|(r & Hr & Ht)].
      * destruct (Hsig sig H1) as [?|Ht]; [auto|].
        right. exists row. split; [apply elem_of_cons; auto | exact Ht].
      * right. exists r. split; [apply elem_of_cons; auto | exact Ht].
Qed.

Lemma replay_loop_total indicator symbol timeframe rows : forall st d,
  CandleBuffer._data (st_buffer st) = Some d ->
  exists st', replay_loop indicator symbol timeframe rows st = Ok st'.
Proof.
  induction rows as [|row rows IH]; intros st d Hd; [simpl; eauto|].
  cbn [replay_loop].
  destruct (replay_step_total indicator symbol timeframe st row d Hd) as [st1 Hs].
  rewrite Hs. result_step.
  apply replay_step_spec in Hs as [Ha _].
  apply append_data in Ha as (_ & _ & _ & d1 & _ & Hd1 & _).
  apply (IH st1 d1 Hd1).
Qed.

Lemma start_spec self candles enabled_signals st0 :
  start self candles enabled_signals = Ok st0 ->
  CandleBuffer.DEFAULT_MIN <= buffer_size (cfg self)
  /\ CandleBuffer._max_size (st_buffer st0) = buffer_size (cfg self)
  /\ all_signals st0 = []
  /\ SignalDetector._last_signal_time (st_detector st0) = ∅
  /\ exists d, CandleBuffer._data (st_buffer st0) = Some d
       /\ (forall c, c ∈ d -> c ∈ iloc_to (warmup_candles (cfg self)) candles)
       /\ Z.of_nat (length d) <= buffer_size (cfg self).
Proof.
  unfold start, CandleBuffer.init.
  destruct (buffer_size (cfg self) <? CandleBuffer.DEFAULT_MIN) eqn:E;
    result_step; [discriminate|].
  intros H. injection H as <-. simpl.
  assert (Hmin : CandleBuffer.DEFAULT_MIN <= buffer_size (cfg self)) by lia.
  split; [exact Hmin|]. split; [reflexivity|]. split; [reflexivity|].
  split; [reflexivity|]. eexists. split; [reflexivity|]. split.
  - intros c Hc.
    destruct (df_tail_drop (buffer_size (cfg self))
                (CandleBuffer._prepare (iloc_to (warmup_candles (cfg self)) candles)))
      as [k Hk].
    rewrite Hk in Hc. apply subseteq_drop in Hc. apply prepare_elem in Hc. tauto.
  - apply df_tail_length. unfold CandleBuffer.DEFAULT_MIN in Hmin. lia.
Qed.

Lemma start_total self candles enabled_signals :
  CandleBuffer.DEFAULT_MIN <= buffer_size (cfg self) ->
  exists st0, start self candles enabled_signals = Ok st0.
Proof.
  intros Hm. unfold start, CandleBuffer.init.
  destruct (buffer_size (cfg self) <? CandleBuffer.DEFAULT_MIN) eqn:E; [lia|].
  result_step. eauto.
Qed.

End engine.

Section engine_theorems.
Import BacktestEngine.

Lemma run_unfold self symbol timeframe candles enabled_signals :
  warmup_candles (cfg self) < Z.of_nat (length candles) ->
  run self symbol timeframe candles enabled_signals
  = (st ← replay_prefix self symbol timeframe candles enabled_signals (length candles);
     Ok (all_signals st)).
Proof.
  intros Hw. unfold run, replay_prefix.
  destruct (Z.of_nat (length candles) <=? warmup_candles (cfg self)) eqn:E; [lia|].
  rewrite (take_ge (iloc_from _ _)) by (unfold iloc_from; rewrite length_drop; lia).
  destruct (start self candles enabled_signals); reflexivity.
Qed.

Lemma run_total self symbol timeframe candles enabled_signals :
  warmup_candles (cfg self) < Z.of_nat (length candles) ->
  CandleBuffer.DEFAULT_MIN <= buffer_size (cfg self) ->
  exists sigs, run self symbol timeframe candles enabled_signals = Ok sigs.
Proof.
  intros Hw Hm. unfold run.
  destruct (Z.of_nat (length candles) <=? warmup_candles (cfg self)) eqn:E; [lia|].
  destruct (start_total self candles enabled_signals Hm) as [st0 Hs].
  rewrite Hs. result_step.
  apply start_spec in Hs as (_ & _ & _ & _ & d & Hd & _).
  destruct (replay_loop_total
              (IchimokuIndicator.init (Some (ichimoku (cfg self)))) symbol timeframe
              (iloc_from (warmup_candles (cfg self)) candles) st0 d Hd) as [st ->].
  result_step. eauto.
Qed.


Lemma sorted_from_warmup (candles : DataFrame) w b0 row :
  StronglySorted Z.le (index candles) ->
  candles !! w = Some b0 -> row ∈ drop w candles -> time b0 <= time row.
Proof.
  intros Hs Hb Hr.
  rewrite <- (take_drop w candles) in Hs. unfold index in Hs. rewrite fmap_app in Hs.
  apply StronglySorted_app in Hs as (_ & _ & Hs).
  assert (Hd : drop w candles = b0 :: drop (S w) candles).
  { apply drop_S. exact Hb. }
  rewrite Hd in Hs, Hr. rewrite fmap_cons in Hs.
  apply StronglySorted_cons in Hs as [Hall _].
  apply elem_of_cons in Hr as [->|Hr]; [lia|].
  rewrite Forall_forall in Hall. apply Hall. apply list_elem_of_fmap. eauto.
Qed.

(** C1. With [0 <= warmup_candles < len(candles)]: when the candle at
    position [warmup + k - 1] has been appended and is evaluated, every row of
    the window is one of the first [warmup + k] candles and the window is
    within capacity; that state does not depend on any later candle; [run]
    is the last of these prefixes and returns a list (for a buffer size of at
    least 78 and a cooldown in the range of [timedelta]); and over a
    time-ordered frame no signal of [run] is stamped earlier than the candle
    at position [warmup_candles]. *)
Theorem replay_has_no_look_ahead self symbol timeframe candles enabled_signals :
  let warmup := warmup_candles (cfg self) in
  0 <= warmup -> warmup < Z.of_nat (length candles) ->
  (forall k stk d,
     replay_prefix self symbol timeframe candles enabled_signals k = Ok stk ->
     CandleBuffer._data (st_buffer stk) = Some d ->
     (forall c, c ∈ d -> c ∈ take (Z.to_nat warmup + k) candles)
     /\ Z.of_nat (length d) <= buffer_size (cfg self))
  /\ (forall k candles',
      take (Z.to_nat warmup + k) candles' = take (Z.to_nat warmup + k) candles ->
      replay_prefix self symbol timeframe candles' enabled_signals k
      = replay_prefix self symbol timeframe candles enabled_signals k)
  /\ run self symbol timeframe candles enabled_signals
     = (st ← replay_prefix self symbol timeframe candles enabled_signals (length candles);
        Ok (all_signals st))
  /\ (CandleBuffer.DEFAULT_MIN <= buffer_size (cfg self) ->
      timedelta_in_range (SignalDetector.cooldown_minutes (detector (cfg self))) ->
      exists sigs, run self symbol timeframe candles enabled_signals = Ok sigs)
  /\ (forall b0 sigs,
      StronglySorted Z.le (index candles) ->
      candles !! Z.to_nat warmup = Some b0 ->
      run self symbol timeframe candles enabled_signals = Ok sigs ->
      forall sig, sig ∈ sigs -> time b0 <= SignalDetector.timestamp sig).
Proof.
  intros warmup Hw0 Hw.
  assert (Hto : forall l : DataFrame, iloc_to warmup l = take (Z.to_nat warmup) l).
  { intros l. unfold iloc_to, slice_bound. destruct (warmup <? 0) eqn:E; [lia|reflexivity]. }
  assert (Hfrom : forall l : DataFrame, iloc_from warmup l = drop (Z.to_nat warmup) l).
  { intros l. unfold iloc_from, slice_bound. destruct (warmup <? 0) eqn:E; [lia|reflexivity]. }
  split; [|split; [|split; [|split]]].
  - intros k stk d Hp Hd. unfold replay_prefix in Hp. fold warmup in Hp.
    destruct (start self candles enabled_signals) as [st0|] eqn:Hs; result_step; [|discriminate].
    apply start_spec in Hs as (Hmin & Hmax & _ & _ & d0 & Hd0 & Hsub0 & Hlen0).
    apply replay_loop_spec in Hp as (Hmax' & Hdata & _).
    destruct (Hdata d0 Hd0) as (d' & Hd' & Hsub & Hlen).
    assert (d' = d) as -> by congruence. split.
    + intros c Hc. rewrite <- take_take_drop. apply elem_of_app.
      destruct (Hsub c Hc) as [Hc0|Hc0].
      * left. rewrite <- Hto. apply Hsub0, Hc0.
      * right. rewrite <- Hfrom. exact Hc0.
    + rewrite Hmax in Hlen. apply Hlen; [|exact Hlen0].
      unfold CandleBuffer.DEFAULT_MIN in Hmin. lia.
  - intros k candles' Heq. unfold replay_prefix, start. fold warmup.
    rewrite !Hto, !Hfrom, !take_drop_commute, Heq.
    assert (Ht : take (Z.to_nat warmup) candles' = take (Z.to_nat warmup) candles).
    { assert (Hmin : (Z.to_nat warmup `min` (Z.to_nat warmup + k) = Z.to_nat warmup)%nat)
        by lia.
      rewrite <- Hmin at 1 2. rewrite <- !take_take, Heq. reflexivity. }
    rewrite Ht. reflexivity.
  - apply run_unfold. exact Hw.
  - intros Hm _. apply run_total; assumption.
  - intros b0 sigs Hsorted Hb Hrun sig Hsig.
    unfold run in Hrun. fold warmup in Hrun.
    destruct (Z.of_nat (length candles) <=? warmup) eqn:E; [discriminate|].
    destruct (start self candles enabled_signals) as [st0|] eqn:Hs; result_step; [|discriminate].
    apply start_spec in Hs as (_ & _ & Hnil & _).
    destruct (replay_loop _ _ _ _ st0) as [st|] eqn:Hl; result_step; [|discriminate].
    injection Hrun as <-.
    apply replay_loop_spec in Hl as (_ & _ & Hsigs).
    destruct (Hsigs sig Hsig) as [Hin|(row & Hrow & ->)].
    + rewrite Hnil in Hin. apply elem_of_nil in Hin as [].
    + rewrite Hfrom in Hrow. eapply sorted_from_warmup; eauto.
Qed.

End engine_theorems.



Lemma replay_has_no_look_ahead_witness :
  exists b0 sigs,
    make_ohlc 80 !! 78%nat = Some b0
    /\ BacktestEngine.run (BacktestEngine.mk fast_config) "EURUSD" "H1" (make_ohlc 80) None
       = Ok sigs
    /\ length sigs = 2%nat
    /\ forall sig, sig ∈ sigs -> time b0 <= SignalDetector.timestamp sig.
Proof.
  destruct (replay_has_no_look_ahead (BacktestEngine.mk fast_config) "EURUSD" "H1"
              (make_ohlc 80) None) as (_ & _ & _ & _ & Hev).
  - vm_compute. discriminate.
  - vm_compute. reflexivity.
  - destruct (make_ohlc 80 !! 78%nat) as [b0|] eqn:Hb; [|vm_compute in Hb; discriminate].
    destruct (BacktestEngine.run (BacktestEngine.mk fast_config) "EURUSD" "H1"
                (make_ohlc 80) None) as [sigs|] eqn:Hr; [|vm_compute in Hr; discriminate].
    exists b0, sigs. split; [reflexivity|]. split; [reflexivity|]. split.
    + vm_compute in Hr. injection Hr as <-. reflexivity.
    + apply (Hev b0 sigs); [| exact Hb | reflexivity].
      apply (bool_decide_unpack _). vm_compute. exact I.
Defined.

(** ** Backtest engine: independent runs *)

Section store.
Import BacktestEngine.

Lemma lookup_new_0 {A} (h : list A) x l : (h ++ x :: l) !! length h = Some x.
Proof. rewrite lookup_app_r by lia. rewrite Nat.sub_diag. reflexivity. Qed.

Lemma lookup_new_1 {A} (h : list A) x y l : (h ++ x :: y :: l) !! S (length h) = Some y.
Proof.
  rewrite lookup_app_r by lia.
  replace (S (length h) - length h)%nat with 1%nat by lia. reflexivity.
Qed.

Lemma lookup_new_2 {A} (h : list A) x y z l :
  (h ++ x :: y :: z :: l) !! S (S (length h)) = Some z.
Proof.
  rewrite lookup_app_r by lia.
  replace (S (S (length h)) - length h)%nat with 2%nat by lia. reflexivity.
Qed.

Lemma insert_new_0 {A} (h : list A) x l x' :
  <[length h := x']> (h ++ x :: l) = h ++ x' :: l.
Proof.
  rewrite <- (Nat.add_0_r (length h)) at 1. rewrite insert_app_r. reflexivity.
Qed.

Lemma insert_new_2 {A} (h : list A) x y z l z' :
  <[S (S (length h)) := z']> (h ++ x :: y :: z :: l) = h ++ x :: y :: z' :: l.
Proof.
  replace (S (S (length h))) with (length h + 2)%nat by lia.
  rewrite insert_app_r. reflexivity.
Qed.

(** The loop on the store does to the three objects of the run what
    [replay_loop] does to its state, and touches nothing else. *)
Lemma replay_store ind symbol timeframe rows : forall h b d sigs,
  exists news,
    Store.replay (length h) (S (length h)) (S (S (length h))) symbol timeframe rows sigs
      (h ++ [Store.Buffer b; Store.Indicator ind; Store.Detector d])
    = Some (st ← replay_loop ind symbol timeframe rows (mkState b d sigs);
            Ok (all_signals st), h ++ news)
    /\ forall st, replay_loop ind symbol timeframe rows (mkState b d sigs) = Ok st ->
         news = [Store.Buffer (st_buffer st); Store.Indicator ind;
                 Store.Detector (st_detector st)].
Proof.
  induction rows as [|row rows IH]; intros h b d sigs.
  - eexists. split; [reflexivity|]. intros st [= <-]. reflexivity.
  - cbn [Store.replay replay_loop]. unfold Store.CandleBuffer_append, replay_step.
    rewrite lookup_new_0. cbn [st_buffer st_detector all_signals].
    destruct (CandleBuffer.append b _) as [b'|e] eqn:Ha.
    2:{ eexists. split; [reflexivity|]. intros st Hst. discriminate Hst. }
    rewrite insert_new_0, lookup_new_0, lookup_new_1.
    change (Ok b' ≫= ?k) with (k b'). cbv beta.
    destruct (negb (CandleBuffer.is_ready b')) eqn:Hr.
    { change (Ok ?s ≫= ?k) with (k s). apply IH. }
    destruct (d0 ← CandleBuffer.data b'; IchimokuIndicator.latest_values ind d0)
      as [ind_values|e] eqn:Hi.
    2:{ change (Ok ?s ≫= ?k) with (k s). apply IH. }
    unfold Store.SignalDetector_check. rewrite lookup_new_2.
    destruct (SignalDetector.check d symbol timeframe ind_values (time row))
      as [signals d'] eqn:Hc.
    rewrite insert_new_2. change (Ok ?s ≫= ?k) with (k s). apply IH.
Qed.

Lemma run_from_fresh_detector self symbol timeframe candles enabled_signals :
  warmup_candles (cfg self) < Z.of_nat (length candles) ->
  run self symbol timeframe candles enabled_signals
  = (st ← replay_with_detector self symbol timeframe candles enabled_signals
             (SignalDetector.init (Some (detector (cfg self))) enabled_signals);
     Ok (all_signals st)).
Proof.
  intros Hw. unfold run, replay_with_detector, start.
  destruct (Z.of_nat (length candles) <=? warmup_candles (cfg self)) eqn:E; [lia|].
  destruct (CandleBuffer.init _ _); reflexivity.
Qed.

(** [run] on the store: what it returns is what [BacktestEngine.run] gives for
    the engine's configuration, and the store it leaves is the one it found
    followed by the objects it built. *)
Lemma run_store h self e symbol timeframe candles enabled_signals :
  h !! self = Some (Store.Engine e) ->
  exists news,
    Store.run self symbol timeframe candles enabled_signals h
    = Some (run e symbol timeframe candles enabled_signals, h ++ news)
    /\ (warmup_candles (cfg e) < Z.of_nat (length candles) ->
        forall st,
          replay_with_detector e symbol timeframe candles enabled_signals
            (SignalDetector.init (Some (detector (cfg e))) enabled_signals) = Ok st ->
          news = [Store.Buffer (st_buffer st);
                  Store.Indicator (IchimokuIndicator.init (Some (ichimoku (cfg e))));
                  Store.Detector (st_detector st)]).
Proof.
  intros He. unfold Store.run, run, replay_with_detector, start. rewrite He.
  destruct (Z.of_nat (length candles) <=? warmup_candles (cfg e)) eqn:E.
  { exists []. rewrite app_nil_r. split; [reflexivity|]. lia. }
  destruct (CandleBuffer.init (buffer_size (cfg e)) CandleBuffer.DEFAULT_MIN)
    as [b|err] eqn:Hb.
  2:{ exists []. rewrite app_nil_r. split; [reflexivity|]. intros _ st Hst. discriminate Hst. }
  unfold Store.new. rewrite !length_app. cbn [length].
  replace (length h + 1)%nat with (S (length h)) by lia.
  replace (S (length h) + 1)%nat with (S (S (length h))) by lia.
  rewrite <- !app_assoc. cbn [app].
  unfold Store.CandleBuffer_seed. rewrite lookup_new_0, insert_new_0.
  change (Ok b ≫= ?k) with (k b). cbv beta. change (Ok ?s ≫= ?k) with (k s). cbv beta.
  cbn [st_buffer].
  destruct (replay_store (IchimokuIndicator.init (Some (ichimoku (cfg e)))) symbol timeframe
              (iloc_from (warmup_candles (cfg e)) candles) h
              (CandleBuffer.seed b (iloc_to (warmup_candles (cfg e)) candles))
              (SignalDetector.init (Some (detector (cfg e))) enabled_signals) [])
    as (news & Hrun & Hnews).
  exists news. split; [exact Hrun|]. intros _ st Hst. apply Hnews, Hst.
Qed.

(** C8. [run] on a store of objects, for an engine at [self] whose cooldown
    is in the range of [timedelta].  The run returns what [BacktestEngine.run] gives for the engine's configuration and
    the arguments, whatever else the store holds, and it leaves every object
    that existed before as it was, the engine included, followed by the
    objects it has built.  The detector of [SignalDetector.__init__] has an
    empty registry; a run that gets past the bar-count check is the replay
    from that detector, and the buffer, the indicator and the detector it
    leaves are new objects of the store.  Hence a second run over the same
    input in the store the first has left, by the same engine or by another
    with the same configuration, returns the same result. *)
Theorem replay_runs_start_fresh h self e symbol timeframe candles enabled_signals :
  h !! self = Some (Store.Engine e) ->
  timedelta_in_range (SignalDetector.cooldown_minutes (detector (cfg e))) ->
  let fresh := SignalDetector.init (Some (detector (cfg e))) enabled_signals in
  exists result news,
    Store.run self symbol timeframe candles enabled_signals h = Some (result, h ++ news)
    /\ result = run e symbol timeframe candles enabled_signals
    /\ SignalDetector._last_signal_time fresh = ∅
    /\ (warmup_candles (cfg e) < Z.of_nat (length candles) ->
        result = (st ← replay_with_detector e symbol timeframe candles enabled_signals fresh;
                  Ok (all_signals st))
        /\ forall st,
             replay_with_detector e symbol timeframe candles enabled_signals fresh = Ok st ->
             news = [Store.Buffer (st_buffer st);
                     Store.Indicator (IchimokuIndicator.init (Some (ichimoku (cfg e))));
                     Store.Detector (st_detector st)])
    /\ (forall self' e',
          (h ++ news) !! self' = Some (Store.Engine e') -> cfg e' = cfg e ->
          exists news',
            Store.run self' symbol timeframe candles enabled_signals (h ++ news)
            = Some (result, (h ++ news) ++ news')).
Proof.
  intros He _ fresh.
  destruct (run_store h self e symbol timeframe candles enabled_signals He)
    as (news & Hrun & Hnews).
  exists (run e symbol timeframe candles enabled_signals), news.
  split; [exact Hrun|]. split; [reflexivity|]. split; [reflexivity|]. split.
  - intros Hw. split; [apply run_from_fresh_detector, Hw|]. apply Hnews, Hw.
  - intros self' e' He' Hcfg.
    assert (e' = e) as -> by (destruct e', e; simpl in Hcfg; congruence).
    destruct (run_store (h ++ news) self' e symbol timeframe candles enabled_signals He')
      as (news' & Hrun' & _).
    exists news'. exact Hrun'.
Qed.

End store.

Lemma replay_runs_start_fresh_witness :
  exists sigs news news',
    Store.run 0 "EURUSD" "H1" (make_ohlc 80) None
      [Store.Engine (BacktestEngine.mk slow_config)]
    = Some (Ok sigs, [Store.Engine (BacktestEngine.mk slow_config)] ++ news)
    /\ length sigs = 1%nat
    /\ length news = 3%nat
    /\ Store.run 0 "EURUSD" "H1" (make_ohlc 80) None
         ([Store.Engine (BacktestEngine.mk slow_config)] ++ news)
       = Some (Ok sigs, ([Store.Engine (BacktestEngine.mk slow_config)] ++ news) ++ news').
Proof.
  assert (Hr0 : timedelta_in_range
                  (SignalDetector.cooldown_minutes (BacktestEngine.detector slow_config))).
  { split; vm_compute; [discriminate|reflexivity]. }
  destruct (replay_runs_start_fresh [Store.Engine (BacktestEngine.mk slow_config)] 0
              (BacktestEngine.mk slow_config) "EURUSD" "H1" (make_ohlc 80) None eq_refl Hr0)
    as (result & news & Hrun & Hres & _ & Hstart & Hagain).
  destruct (Hstart ltac:(vm_compute; reflexivity)) as [_ Hnews].
  destruct (Hagain 0%nat (BacktestEngine.mk slow_config) eq_refl eq_refl) as [news' Hrun'].
  destruct (BacktestEngine.run (BacktestEngine.mk slow_config) "EURUSD" "H1"
              (make_ohlc 80) None) as [sigs|] eqn:Hr; [|vm_compute in Hr; discriminate].
  destruct (replay_with_detector (BacktestEngine.mk slow_config) "EURUSD" "H1"
              (make_ohlc 80) None
              (SignalDetector.init (Some (BacktestEngine.detector
                                            (BacktestEngine.cfg (BacktestEngine.mk slow_config))))
                 None)) as [st|] eqn:Hst; [|vm_compute in Hst; discriminate].
  subst result. exists sigs, news, news'.
  split; [exact Hrun|]. split; [|split; [|exact Hrun']].
  - vm_compute in Hr. injection Hr as <-. reflexivity.
  - rewrite (Hnews st eq_refl). reflexivity.
Defined.

(** Freshness matters: replayed with the detector a first run has left
    behind, the same input gives a different list. *)
Example used_detector_changes_replay :
  exists st1 st2,
    replay_with_detector (BacktestEngine.mk slow_config) "EURUSD" "H1" (make_ohlc 80) None
      (SignalDetector.init (Some (BacktestEngine.detector slow_config)) None) = Ok st1
    /\ replay_with_detector (BacktestEngine.mk slow_config) "EURUSD" "H1" (make_ohlc 80) None
         (BacktestEngine.st_detector st1) = Ok st2
    /\ length (BacktestEngine.all_signals st1) = 1%nat
    /\ BacktestEngine.all_signals st2 = [].
Proof.
  eexists _, _. split; [vm_compute; reflexivity|].
  split; [vm_compute; reflexivity|]. split; reflexivity.
Qed.

(** The same on the store: the loop of [run] over the objects a first run has
    left behind, instead of new ones, returns another list. *)
Example kept_objects_change_replay :
  exists sigs news h,
    Store.run 0 "EURUSD" "H1" (make_ohlc 80) None
      [Store.Engine (BacktestEngine.mk slow_config)]
    = Some (Ok sigs, [Store.Engine (BacktestEngine.mk slow_config)] ++ news)
    /\ length sigs = 1%nat
    /\ Store.replay 1 2 3 "EURUSD" "H1" (iloc_from 78 (make_ohlc 80)) []
         ([Store.Engine (BacktestEngine.mk slow_config)] ++ news)
       = Some (Ok [], h).
Proof.
  eexists _, _, _. split; [vm_compute; reflexivity|].
  split; [reflexivity|]. vm_compute. reflexivity.
Qed.

(** ** Indicator configuration *)

Section indicator_config.
Import IchimokuIndicator.

Lemma midpoint_negative df period :
  period < 0 -> _midpoint df period = Raise ValueError.
Proof.
  intros Hp. unfold _midpoint, rolling_max, rolling.
  destruct (period <? 0) eqn:E; [reflexivity | lia].
Qed.

Lemma calculate_negative self candles :
  tenkan_period (cfg self) < 0 \/ kijun_period (cfg self) < 0
  \/ senkou_b_period (cfg self) < 0 ->
  calculate self candles = Raise ValueError.
Proof.
  intros H. unfold calculate.
  destruct (Z_lt_le_dec (tenkan_period (cfg self)) 0) as [H1|H1];
    [rewrite (midpoint_negative candles (tenkan_period (cfg self))) by exact H1; reflexivity|].
  destruct (midpoint_nonneg candles _ H1) as [a ->]. result_step.
  destruct (Z_lt_le_dec (kijun_period (cfg self)) 0) as [H2|H2];
    [rewrite (midpoint_negative candles (kijun_period (cfg self))) by exact H2; reflexivity|].
  destruct (midpoint_nonneg candles _ H2) as [b ->]. result_step.
  rewrite midpoint_negative by lia. reflexivity.
Qed.

Lemma calculate_length self candles ichi :
  calculate self candles = Ok ichi -> length ichi = length candles.
Proof.
  intros Hc. unfold calculate in Hc. do 3 result_case Hc.
  injection Hc as <-. rewrite length_fmap, length_seq. reflexivity.
Qed.

Lemma iloc_last_two {A} (l : list A) :
  (2 <= length l)%nat -> exists x y, iloc l (-1) = Ok x /\ iloc l (-2) = Ok y.
Proof.
  intros Hl. unfold iloc. simpl.
  destruct (Z.of_nat (length l) + -1 <? 0) eqn:E1; [lia|].
  destruct (Z.of_nat (length l) + -2 <? 0) eqn:E2; [lia|].
  destruct (lookup_lt_is_Some_2 l (Z.to_nat (Z.of_nat (length l) + -1))) as [x ->]; [lia|].
  destruct (lookup_lt_is_Some_2 l (Z.to_nat (Z.of_nat (length l) + -2))) as [y ->]; [lia|].
  eauto.
Qed.

Lemma latest_values_total self candles :
  0 <= tenkan_period (cfg self) -> 0 <= kijun_period (cfg self) ->
  0 <= senkou_b_period (cfg self) ->
  exists ind, latest_values self candles = Ok ind.
Proof.
  intros H1 H2 H3. unfold latest_values.
  destruct (calculate_nonneg self candles H1 H2 H3) as [ichi Hc]. rewrite Hc.
  result_step. case_bool_decide as Hlen; [eauto|].
  pose proof (calculate_length _ _ _ Hc) as Hl.
  destruct (iloc_last_two ichi) as (cur & prev & -> & ->); [lia|].
  destruct (iloc_last_two candles) as (c & pc & -> & ->); [lia|].
  result_step. eauto.
Qed.

(** C9 (as the code has it). Constructing the indicator never fails and
    keeps the configuration as given.  Running it raises (the [ValueError] of
    a negative rolling window) when [tenkan_period], [kijun_period] or
    [senkou_b_period] is negative; with these three non-negative it returns
    its frame and its snapshot, whatever [displacement] and [chikou_shift]
    are (zero and negative shifts included). *)
Theorem indicator_rejects_only_negative_windows config candles :
  let self := init (Some config) in
  cfg self = config
  /\ (tenkan_period config < 0 \/ kijun_period config < 0 \/ senkou_b_period config < 0 ->
      calculate self candles = Raise ValueError
      /\ latest_values self candles = Raise ValueError)
  /\ (0 <= tenkan_period config -> 0 <= kijun_period config ->
      0 <= senkou_b_period config ->
      (exists ichi, calculate self candles = Ok ichi)
      /\ (exists ind, latest_values self candles = Ok ind)).
Proof.
  intros self. split; [reflexivity|]. split.
  - intros H. pose proof (calculate_negative self candles H) as Hc.
    split; [exact Hc|]. unfold latest_values. rewrite Hc. reflexivity.
  - intros H1 H2 H3. split.
    + apply calculate_nonneg; assumption.
    + apply latest_values_total; assumption.
Qed.

End indicator_config.

(** C9 (as stated) fails: an indicator with [displacement = 0] and
    [chikou_shift = 0], and one with all three rolling periods 0 and both
    shifts negative, are constructed and return a snapshot. *)
Lemma nonpositive_periods_accepted :
  (exists ind,
     IchimokuIndicator.latest_values
       (IchimokuIndicator.init (Some (IchimokuIndicator.mkConfig 9 26 52 0 0)))
       (make_ohlc 60) = Ok ind)
  /\ (exists ind,
       IchimokuIndicator.latest_values
         (IchimokuIndicator.init (Some (IchimokuIndicator.mkConfig 0 0 0 (-1) (-1))))
         (make_ohlc 60) = Ok ind).
Proof. split; eexists; vm_compute; reflexivity. Qed.

Lemma indicator_rejects_only_negative_windows_witness :
  IchimokuIndicator.latest_values
    (IchimokuIndicator.init (Some (IchimokuIndicator.mkConfig (-9) 26 52 26 26)))
    (make_ohlc 60) = Raise ValueError
  /\ (exists ind,
       IchimokuIndicator.latest_values
         (IchimokuIndicator.init (Some (IchimokuIndicator.mkConfig 9 26 52 0 (-26))))
         (make_ohlc 60) = Ok ind).
Proof.
  split.
  - destruct (indicator_rejects_only_negative_windows
                (IchimokuIndicator.mkConfig (-9) 26 52 26 26) (make_ohlc 60))
      as (_ & Hneg & _).
    apply Hneg. left. simpl. lia.
  - destruct (indicator_rejects_only_negative_windows
                (IchimokuIndicator.mkConfig 9 26 52 0 (-26)) (make_ohlc 60))
      as (_ & _ & Hok).
    apply Hok; simpl; lia.
Defined.

(** * Further properties of the code *)

(** ** Candle buffer: seeding, sizes, timestamps *)

Section buffer_more.
Import CandleBuffer.

#[local] Instance time_le_total' : Total time_le.
Proof. intros a b. unfold time_le. lia. Qed.
#[local] Instance time_le_trans' : Transitive time_le.
Proof. intros a b c. unfold time_le. lia. Qed.

(** The constructor refuses a capacity below the minimum; a buffer that was
    not seeded is empty and not ready, and its [data] and [append] raise. *)
Lemma buffer_unusable_before_seed max_size min_candles :
  (max_size < min_candles -> init max_size min_candles = Raise ValueError)
  /\ (min_candles <= max_size ->
      exists b, init max_size min_candles = Ok b
        /\ size b = 0 /\ is_ready b = false /\ latest_time b = None
        /\ data b = Raise RuntimeError
        /\ (forall df, append b df = Raise RuntimeError)
        /\ (forall df, exists d, data (seed b df) = Ok d
                                 /\ size (seed b df) = Z.of_nat (length d))).
Proof.
  split; intros H; unfold init.
  - destruct (max_size <? min_candles) eqn:E; [reflexivity | lia].
  - destruct (max_size <? min_candles) eqn:E; [lia|].
    eexists. split; [reflexivity|]. repeat split. intros df. eexists. split; reflexivity.
Qed.

(** The length of [df.tail(n)]. *)
Lemma df_tail_exact {A} n (l : list A) :
  0 <= n -> Z.of_nat (length (df_tail n l)) = Z.min (Z.of_nat (length l)) n.
Proof.
  intros Hn. unfold df_tail. destruct (n <? 0) eqn:E; [lia|].
  rewrite length_drop. lia.
Qed.

(** [df.tail(n)] keeps the last row when it keeps any. *)
Lemma df_tail_last {A} n (l : list A) : 1 <= n -> last (df_tail n l) = last l.
Proof.
  intros Hn. unfold df_tail. destruct (n <? 0) eqn:E; [lia|].
  destruct (decide (length l = 0)%nat) as [H0|H0].
  - destruct l; [reflexivity | discriminate].
  - rewrite !last_lookup, length_drop, lookup_drop. f_equal. lia.
Qed.

(** X1. With a capacity of at least zero, [seed] keeps the newest rows of the
    frame once its NaN rows are dropped and the rest is sorted by time: the
    window is the tail of the prepared frame, sorted, made of valid rows of the
    frame, no dropped row is newer than a kept one, its size is the smaller of
    the number of valid rows and the capacity, and its latest time is not before
    the time of any valid row when the capacity is at least one. *)
Theorem seed_keeps_newest_valid_rows self df :
  0 <= _max_size self ->
  exists d dropped,
    _data (seed self df) = Some d
    /\ _prepare df = dropped ++ d
    /\ _prepare df ≡ₚ dropna df
    /\ StronglySorted time_le d
    /\ (forall c, c ∈ d -> c ∈ df /\ row_has_nan c = false)
    /\ (forall x y, x ∈ dropped -> y ∈ d -> time x <= time y)
    /\ size (seed self df) = Z.min (Z.of_nat (length (dropna df))) (_max_size self)
    /\ (1 <= _max_size self -> forall c, c ∈ df -> row_has_nan c = false ->
          exists t, latest_time (seed self df) = Some t /\ time c <= t).
Proof.
  intros Hm. destruct (df_tail_suffix (_max_size self) (_prepare df)) as [dropped Hd].
  exists (df_tail (_max_size self) (_prepare df)), dropped.
  pose proof (prepare_sorted df) as Hs. rewrite Hd in Hs.
  apply StronglySorted_app in Hs as (Hcross & _ & Hkeep).
  split; [reflexivity|]. split; [exact Hd|].
  split; [apply sort_index_Permutation|]. split; [exact Hkeep|].
  split; [|split; [exact Hcross|split]].
  - intros c Hc. apply prepare_elem. rewrite Hd. apply elem_of_app. auto.
  - unfold size, seed. simpl. rewrite df_tail_exact by exact Hm.
    unfold _prepare. rewrite sort_index_Permutation. reflexivity.
  - intros H1 c Hc Hnan. unfold latest_time, seed. simpl.
    assert (Hin : c ∈ _prepare df) by (apply prepare_elem; auto).
    unfold index. rewrite fmap_last, df_tail_last by exact H1.
    destruct (last (_prepare df)) as [z|] eqn:Hl.
    + exists (time z). split; [reflexivity|].
      pose proof (prepare_sorted df) as Hs'.
      apply last_Some in Hl as [l' Hl]. rewrite Hl in Hs', Hin.
      apply elem_of_app in Hin as [Hin|Hin].
      * apply StronglySorted_app in Hs' as (Hc' & _). apply (Hc' c z Hin).
        apply elem_of_cons. auto.
      * apply list_elem_of_singleton in Hin as ->. lia.
    + apply last_None in Hl. rewrite Hl in Hin. apply elem_of_nil in Hin as [].
Qed.

(** The two outcomes of [append] on a seeded buffer: nothing new and the buffer
    as it was, or the tail of the window followed by the new rows. *)
Lemma append_result self df d :
  _data self = Some d ->
  exists self', append self df = Ok self'
    /\ _max_size self' = _max_size self /\ _min self' = _min self
    /\ ((new_rows d df = [] /\ self' = self)
        \/ (new_rows d df <> []
            /\ _data self' = Some (df_tail (_max_size self) (d ++ new_rows d df)))).
Proof.
  intros Hd. destruct (append_seeded self df d Hd) as [self' Ha].
  exists self'. split; [exact Ha|].
  apply append_inv in Ha as (d0 & Hd0 & Hcase).
  assert (d0 = d) as -> by congruence. fold (new_rows d df) in Hcase.
  destruct Hcase as [[Hn ->]|[Hn ->]]; simpl; auto.
Qed.

(** X2. [append] on a seeded buffer within its capacity succeeds, and the new
    size is the old size plus the number of rows that are new to the window,
    capped at the capacity; the size never shrinks. *)
Theorem append_size self df d :
  0 <= _max_size self ->
  _data self = Some d ->
  Z.of_nat (length d) <= _max_size self ->
  exists self', append self df = Ok self'
    /\ size self' = Z.min (size self + Z.of_nat (length (new_rows d df))) (_max_size self)
    /\ size self <= size self' <= _max_size self.
Proof.
  intros Hm Hd Hl. destruct (append_result self df d Hd) as (self' & Ha & _ & _ & Hcase).
  exists self'. split; [exact Ha|].
  assert (Hs : size self = Z.of_nat (length d)) by (unfold size; rewrite Hd; reflexivity).
  assert (Hs' : size self'
                = Z.min (size self + Z.of_nat (length (new_rows d df))) (_max_size self)).
  { destruct Hcase as [[Hn ->]|[Hn Hd']].
    - rewrite Hn, Hs. simpl. lia.
    - unfold size at 1. rewrite Hd', df_tail_exact, length_app, Hs by exact Hm. lia. }
  split; [exact Hs'|]. lia.
Qed.

(** X3. When the capacity is at least the minimum, a buffer that is ready stays
    ready after an [append]. *)
Theorem ready_stays_ready self df self' :
  _min self <= _max_size self ->
  is_ready self = true ->
  append self df = Ok self' ->
  is_ready self' = true.
Proof.
  intros Hmm Hr Ha. unfold is_ready in Hr.
  destruct (_data self) as [d|] eqn:Hd; [|discriminate].
  apply bool_decide_eq_true in Hr.
  destruct (append_result self df d Hd) as (s & Ha' & Hmax & Hmin & Hcase).
  assert (s = self') as -> by congruence.
  destruct Hcase as [[_ ->]|[_ Hd']].
  - unfold is_ready. rewrite Hd. apply bool_decide_eq_true. exact Hr.
  - unfold is_ready. rewrite Hd', Hmin. apply bool_decide_eq_true.
    destruct (Z_lt_le_dec (_max_size self) 0) as [Hneg|Hpos]; [lia|].
    rewrite df_tail_exact, length_app by exact Hpos. lia.
Qed.

(** A sequence of appends to a seeded, NaN-free window succeeds and keeps it
    NaN-free. *)
Lemma append_all_seeded batches : forall self d,
  _data self = Some d ->
  exists self' d', append_all self batches = Ok self' /\ _data self' = Some d'
    /\ _max_size self' = _max_size self /\ _min self' = _min self
    /\ (forall c, c ∈ d' -> c ∈ d \/ exists df, df ∈ batches /\ c ∈ df
                                           /\ row_has_nan c = false).
Proof.
  induction batches as [|df rest IH]; intros self d Hd.
  - exists self, d. simpl. repeat split; auto.
  - destruct (append_result self df d Hd) as (s1 & Ha & Hmax & Hmin & Hcase).
    cbn [append_all]. rewrite Ha. result_step.
    assert (Hd1 : exists d1, _data s1 = Some d1
                  /\ forall c, c ∈ d1 -> c ∈ d \/ (c ∈ df /\ row_has_nan c = false)).
    { destruct Hcase as [[_ ->]|[_ Hd1]]; [eauto|].
      eexists. split; [exact Hd1|]. intros c Hc.
      destruct (df_tail_drop (_max_size self) (d ++ new_rows d df)) as [k Hk].
      rewrite Hk in Hc. apply subseteq_drop in Hc.
      apply elem_of_app in Hc as [Hc|Hc]; [auto|]. right.
      apply list_elem_of_filter in Hc as [_ Hc]. apply prepare_elem in Hc. exact Hc. }
    destruct Hd1 as (d1 & Hd1 & Hsub).
    destruct (IH s1 d1 Hd1) as (self' & d' & Hall & Hd' & Hmax' & Hmin' & Hsub').
    exists self', d'. split; [exact Hall|]. split; [exact Hd'|].
    split; [congruence|]. split; [congruence|].
    intros c Hc. destruct (Hsub' c Hc) as [Hc1|(df' & Hdf' & Hc1)].
    + destruct (Hsub c Hc1) as [?|[? ?]]; [auto|].
      right. exists df. split; [apply elem_of_cons; auto | auto].
    + right. exists df'. split; [apply elem_of_cons; auto | auto].
Qed.

(** X4. After [seed], every sequence of [append] calls succeeds, keeps capacity
    and minimum, and leaves a window free of NaN whose rows all come from the
    seed frame or from one of the batches. *)
Theorem seeded_window_holds_valid_rows self df batches :
  exists self' d',
    append_all (seed self df) batches = Ok self'
    /\ _data self' = Some d'
    /\ _max_size self' = _max_size self /\ _min self' = _min self
    /\ nan_free self'
    /\ (forall c, c ∈ d' -> c ∈ df \/ exists b, b ∈ batches /\ c ∈ b).
Proof.
  destruct (append_all_seeded batches (seed self df) _ eq_refl)
    as (self' & d' & Hall & Hd' & Hmax & Hmin & Hsub).
  assert (Hseed : forall c, c ∈ df_tail (_max_size self) (_prepare df) ->
                    c ∈ df /\ row_has_nan c = false).
  { intros c Hc. destruct (df_tail_drop (_max_size self) (_prepare df)) as [k Hk].
    rewrite Hk in Hc. apply subseteq_drop in Hc. apply prepare_elem in Hc. exact Hc. }
  exists self', d'. split; [exact Hall|]. split; [exact Hd'|].
  split; [exact Hmax|]. split; [exact Hmin|]. split.
  - intros d0 Hd0 c Hc. assert (d0 = d') as -> by congruence.
    destruct (Hsub c Hc) as [Hc0|(b & _ & _ & Hn)]; [apply Hseed, Hc0 | exact Hn].
  - intros c Hc. destruct (Hsub c Hc) as [Hc0|(b & Hb & Hcb & _)];
      [left; apply Hseed, Hc0 | right; eauto].
Qed.

Lemma NoDup_drop {A} (l : list A) n : NoDup l -> NoDup (drop n l).
Proof. intros H. apply (sublist_NoDup _ l); [exact H | apply sublist_drop]. Qed.

(** X5. When the timestamps of the window are distinct and those of the batch
    are distinct, [append] leaves a window with distinct timestamps, whatever
    the order of the batch; the rows it adds have timestamps the window did not
    hold. *)
Theorem append_keeps_timestamps_distinct self df d :
  _data self = Some d ->
  NoDup (index d) -> NoDup (index df) ->
  exists self' d', append self df = Ok self' /\ _data self' = Some d'
    /\ NoDup (index d')
    /\ (forall c, c ∈ new_rows d df -> time c ∉ index d).
Proof.
  intros Hd Hnd Hndf. destruct (append_result self df d Hd) as (self' & Ha & _ & _ & Hcase).
  assert (Hnew : forall c, c ∈ new_rows d df -> time c ∉ index d).
  { intros c Hc. apply list_elem_of_filter in Hc as [Hni _]. exact Hni. }
  destruct Hcase as [[_ ->]|[_ Hd']].
  - exists self, d. auto.
  - exists self'. eexists. split; [exact Ha|]. split; [exact Hd'|]. split; [|exact Hnew].
    destruct (df_tail_drop (_max_size self) (d ++ new_rows d df)) as [k ->].
    unfold index. rewrite fmap_drop. apply NoDup_drop. rewrite fmap_app.
    apply NoDup_app. split; [exact Hnd|]. split.
    + intros t Ht Ht'. apply list_elem_of_fmap in Ht' as (c & -> & Hc).
      exact (Hnew c Hc Ht).
    + apply (sublist_NoDup _ (index (_prepare df))); [apply prepare_NoDup, Hndf|].
      apply fmap_sublist. unfold new_rows, not_isin. apply sublist_filter.
Qed.

(** X6. With a capacity of at least one, [latest_time] after [append] is the
    time of the last row of the old window followed by the new rows: unchanged
    when nothing is new, else a time no new row exceeds. *)
Theorem append_latest_time self df d self' :
  1 <= _max_size self ->
  _data self = Some d ->
  append self df = Ok self' ->
  latest_time self' = last (index (d ++ new_rows d df))
  /\ (new_rows d df = [] -> latest_time self' = latest_time self)
  /\ (new_rows d df <> [] ->
      exists t, latest_time self' = Some t
        /\ forall c, c ∈ new_rows d df -> time c <= t).
Proof.
  intros Hm Hd Ha. destruct (append_result self df d Hd) as (s & Ha' & _ & _ & Hcase).
  assert (s = self') as -> by congruence.
  assert (Hlt : latest_time self' = last (index (d ++ new_rows d df))).
  { destruct Hcase as [[Hn ->]|[_ Hd']]; unfold latest_time.
    - rewrite Hd, Hn, app_nil_r. reflexivity.
    - rewrite Hd'. unfold index. rewrite !fmap_last, df_tail_last by exact Hm. reflexivity. }
  split; [exact Hlt|]. split.
  - intros Hn. rewrite Hlt, Hn, app_nil_r. unfold latest_time. rewrite Hd. reflexivity.
  - intros Hn. rewrite Hlt.
    assert (Hs : StronglySorted time_le (new_rows d df)).
    { apply StronglySorted_filter, prepare_sorted. }
    destruct (new_rows d df) as [|x l] eqn:Hnew using rev_ind; [congruence|]. clear IHl.
    unfold index. rewrite app_assoc, fmap_last, last_snoc. simpl.
    exists (time x). split; [reflexivity|].
    intros c Hc. apply elem_of_app in Hc as [Hc|Hc].
    + apply StronglySorted_app in Hs as (Hcross & _). apply (Hcross c x Hc).
      apply elem_of_cons. auto.
    + apply list_elem_of_singleton in Hc as ->. lia.
Qed.
End buffer_more.

Lemma seed_keeps_newest_valid_rows_witness :
  CandleBuffer.size
    (CandleBuffer.seed (CandleBuffer.mk 2 1 None)
       [flat 3; mkCandle 4 nan 1 1 1; flat 1; flat 2]) = 2
  /\ CandleBuffer.latest_time
       (CandleBuffer.seed (CandleBuffer.mk 2 1 None)
          [flat 3; mkCandle 4 nan 1 1 1; flat 1; flat 2]) = Some 3.
Proof.
  destruct (seed_keeps_newest_valid_rows (CandleBuffer.mk 2 1 None)
              [flat 3; mkCandle 4 nan 1 1 1; flat 1; flat 2])
    as (d & dropped & _ & _ & _ & _ & _ & _ & Hsize & _).
  - vm_compute. discriminate.
  - split; [rewrite Hsize|]; vm_compute; reflexivity.
Defined.

Lemma append_size_witness :
  exists self',
    CandleBuffer.append window_1_3 [flat 2; flat 3; flat 4] = Ok self'
    /\ CandleBuffer.size self' = 4.
Proof.
  destruct (append_size window_1_3 [flat 2; flat 3; flat 4] [flat 1; flat 3])
    as (self' & Ha & Hsize & _).
  - vm_compute. discriminate.
  - vm_compute. reflexivity.
  - vm_compute. discriminate.
  - exists self'. split; [exact Ha|]. rewrite Hsize. vm_compute. reflexivity.
Defined.

Lemma ready_stays_ready_witness :
  exists self',
    CandleBuffer.append window_1_2_3 [flat 4] = Ok self'
    /\ CandleBuffer.is_ready self' = true.
Proof.
  destruct (CandleBuffer.append window_1_2_3 [flat 4]) as [self'|] eqn:Ha;
    [|vm_compute in Ha; discriminate].
  exists self'. split; [reflexivity|].
  apply (ready_stays_ready window_1_2_3 [flat 4] self').
  - vm_compute. discriminate.
  - vm_compute. reflexivity.
  - exact Ha.
Defined.

Lemma append_keeps_timestamps_distinct_witness :
  exists self' d',
    CandleBuffer.append window_1_3 [flat 5; flat 2; flat 3] = Ok self'
    /\ CandleBuffer._data self' = Some d'
    /\ NoDup (index d').
Proof.
  destruct (append_keeps_timestamps_distinct window_1_3 [flat 5; flat 2; flat 3]
              [flat 1; flat 3]) as (self' & d' & Ha & Hd & Hnd & _).
  - vm_compute. reflexivity.
  - apply (bool_decide_unpack _). vm_compute. exact I.
  - apply (bool_decide_unpack _). vm_compute. exact I.
  - exists self', d'. auto.
Defined.

Lemma append_latest_time_witness :
  exists self',
    CandleBuffer.append window_1_3 [flat 5; flat 2] = Ok self'
    /\ CandleBuffer.latest_time self' = Some 5.
Proof.
  destruct (CandleBuffer.append window_1_3 [flat 5; flat 2]) as [self'|] eqn:Ha;
    [|vm_compute in Ha; discriminate].
  exists self'. split; [reflexivity|].
  destruct (append_latest_time window_1_3 [flat 5; flat 2] [flat 1; flat 3] self')
    as (Hl & _).
  - vm_compute. discriminate.
  - vm_compute. reflexivity.
  - exact Ha.
  - rewrite Hl. vm_compute. reflexivity.
Defined.

(** ** Order of floats *)

(** Comparing in the other order gives the opposite result. *)
Lemma SFcompare_swap x y :
  SFcompare y x = CompOpp <$> SFcompare x y.
Proof.
  destruct x as [sx|sx| |sx mx ex], y as [sy|sy| |sy my ey]; simpl;
    try reflexivity; try (destruct sx; reflexivity); try (destruct sy; reflexivity);
    try (destruct sx, sy; reflexivity).
  destruct sx, sy; simpl; try reflexivity;
    rewrite ?Pos.compare_cont_spec; simpl;
    destruct (Z.compare_spec ex ey), (Z.compare_spec ey ex); try lia; try reflexivity;
    destruct (Pos.compare_spec mx my), (Pos.compare_spec my mx);
    simpl; try lia; try reflexivity.
Qed.

Lemma ltb_asym x y : (x <? y)%float = true -> (y <? x)%float = false.
Proof.
  rewrite !FloatAxioms.ltb_spec. unfold SFltb. rewrite (SFcompare_swap (Prim2SF x)).
  destruct (SFcompare (Prim2SF x) (Prim2SF y)) as [[]|]; simpl; congruence.
Qed.

Lemma ltb_leb_false x y : (x <? y)%float = true -> (y <=? x)%float = false.
Proof.
  rewrite FloatAxioms.ltb_spec, FloatAxioms.leb_spec. unfold SFltb, SFleb.
  rewrite (SFcompare_swap (Prim2SF x)).
  destruct (SFcompare (Prim2SF x) (Prim2SF y)) as [[]|]; simpl; congruence.
Qed.

Lemma ltb_irrefl x : (x <? x)%float = false.
Proof. destruct (x <? x)%float eqn:E; [|reflexivity]. rewrite <- E. apply ltb_asym, E. Qed.

Lemma SFcompare_Lt_trans x y z :
  SFcompare x y = Some Lt -> SFcompare y z = Some Lt -> SFcompare x z = Some Lt.
Proof.
  destruct x as [sx|sx| |sx mx ex], y as [sy|sy| |sy my ey], z as [sz|sz| |sz mz ez];
    simpl; try discriminate; try (destruct sx; discriminate);
    try (destruct sx, sy; discriminate); try (destruct sx, sy, sz; congruence);
    try (destruct sx, sz; congruence); try (destruct sy, sz; congruence);
    try (destruct sy; congruence); try (destruct sz; congruence).
  destruct sx, sy, sz; try congruence;
    rewrite ?Pos.compare_cont_spec; simpl;
    destruct (Z.compare_spec ex ey), (Z.compare_spec ey ez), (Z.compare_spec ex ez);
    try lia; try congruence; subst;
    destruct (Pos.compare_spec mx my), (Pos.compare_spec my mz), (Pos.compare_spec mx mz);
    simpl; try lia; try congruence.
Qed.

(** [<] on floats is transitive. *)
Lemma ltb_trans x y z :
  (x <? y)%float = true -> (y <? z)%float = true -> (x <? z)%float = true.
Proof.
  rewrite !FloatAxioms.ltb_spec. unfold SFltb.
  destruct (SFcompare (Prim2SF x) (Prim2SF y)) as [[]|] eqn:E1; try discriminate.
  destruct (SFcompare (Prim2SF y) (Prim2SF z)) as [[]|] eqn:E2; try discriminate.
  rewrite (SFcompare_Lt_trans _ _ _ E1 E2). reflexivity.
Qed.

Lemma SFcompare_Eq_Lt_trans x y z :
  SFcompare x y = Some Eq -> SFcompare y z = Some Lt -> SFcompare x z = Some Lt.
Proof.
  destruct x as [sx|sx| |sx mx ex], y as [sy|sy| |sy my ey], z as [sz|sz| |sz mz ez];
    simpl; try discriminate; try (destruct sx; discriminate);
    try (destruct sx, sy; discriminate); try (destruct sx, sy, sz; congruence);
    try (destruct sx, sz; congruence); try (destruct sy, sz; congruence);
    try (destruct sy; congruence); try (destruct sz; congruence).
  destruct sx, sy, sz; try congruence;
    rewrite ?Pos.compare_cont_spec; simpl;
    destruct (Z.compare_spec ex ey), (Z.compare_spec ey ez), (Z.compare_spec ex ez);
    try lia; try congruence; subst;
    destruct (Pos.compare_spec mx my), (Pos.compare_spec my mz), (Pos.compare_spec mx mz);
    simpl; try lia; try congruence.
Qed.

Lemma SFcompare_total x y :
  x <> S754_nan -> y <> S754_nan -> exists c, SFcompare x y = Some c.
Proof.
  intros Hx Hy. destruct x, y; try congruence; simpl; eauto.
Qed.

Lemma isnan_false_spec x : isnan x = false -> Prim2SF x <> S754_nan.
Proof.
  intros H E. unfold isnan, is_nan in H. rewrite FloatAxioms.eqb_spec, E in H. discriminate.
Qed.

Lemma ltb_true_not_nan x y :
  (x <? y)%float = true -> isnan x = false /\ isnan y = false.
Proof.
  intros H. split.
  - destruct (isnan x) eqn:E; [|reflexivity]. rewrite ltb_nan_l in H by exact E. discriminate.
  - destruct (isnan y) eqn:E; [|reflexivity]. rewrite ltb_nan_r in H by exact E. discriminate.
Qed.

(** For a [b] that is not NaN, [a < c] forces [a < b] or [b < c]. *)
Lemma ltb_neg_trans a b c :
  isnan b = false -> (a <? c)%float = true ->
  (a <? b)%float = true \/ (b <? c)%float = true.
Proof.
  intros Hb Hac. destruct (ltb_true_not_nan _ _ Hac) as [Ha Hc].
  apply isnan_false_spec in Ha, Hb, Hc.
  rewrite !FloatAxioms.ltb_spec in *. unfold SFltb in *.
  destruct (SFcompare (Prim2SF a) (Prim2SF c)) as [[]|] eqn:Eac; try discriminate.
  destruct (SFcompare_total _ _ Ha Hb) as [c1 E1]. rewrite E1.
  destruct c1; [|auto|].
  - right. pose proof (SFcompare_swap (Prim2SF a) (Prim2SF b)) as Hs.
    rewrite E1 in Hs. simpl in Hs.
    rewrite (SFcompare_Eq_Lt_trans _ _ _ Hs Eac). reflexivity.
  - right. pose proof (SFcompare_swap (Prim2SF a) (Prim2SF b)) as Hs.
    rewrite E1 in Hs. simpl in Hs.
    rewrite (SFcompare_Lt_trans _ _ _ Hs Eac). reflexivity.
Qed.

(** ** Indicator: the five lines, row by row *)

Section nan_arith.

Lemma isnan_intro x : Prim2SF x = S754_nan -> x = nan.
Proof. intros H. rewrite <- (SF2Prim_Prim2SF x), H. reflexivity. Qed.

Lemma isnan_eq x : isnan x = true -> x = nan.
Proof. intros H. apply isnan_intro, isnan_spec, H. Qed.

Lemma add_nan_l y : (nan + y)%float = nan.
Proof. apply isnan_intro. rewrite add_spec. reflexivity. Qed.

Lemma add_nan_r x : (x + nan)%float = nan.
Proof. apply isnan_intro. rewrite add_spec. destruct (Prim2SF x); reflexivity. Qed.

Lemma div_nan_l y : (nan / y)%float = nan.
Proof. apply isnan_intro. rewrite div_spec. reflexivity. Qed.

Lemma leb_nan_l x y : isnan x = true -> (x <=? y)%float = false.
Proof. intros H. rewrite FloatAxioms.leb_spec, (isnan_spec x H). reflexivity. Qed.

Lemma leb_nan_r x y : isnan y = true -> (x <=? y)%float = false.
Proof.
  intros H. rewrite FloatAxioms.leb_spec, (isnan_spec y H).
  unfold SFleb, SFcompare. destruct (Prim2SF x); reflexivity.
Qed.

End nan_arith.

Section indicator_more.
Import IchimokuIndicator.

Lemma rolling_length pick period xs ys :
  rolling pick period xs = Ok ys -> length ys = length xs.
Proof.
  unfold rolling. destruct (period <? 0); [discriminate|].
  intros H. injection H as <-. rewrite length_fmap, length_seq. reflexivity.
Qed.

(** The value of a rolling aggregate at one row. *)
Lemma rolling_lookup pick period xs ys i :
  rolling pick period xs = Ok ys -> (i < length xs)%nat ->
  ys !! i = Some (let w := window_at period (_prep_values xs) i in
                  let nobs := length (filter (fun x => isnan x = false) w) in
                  if bool_decide (Z.of_nat nobs < period) then nan
                  else aggregate pick w).
Proof.
  unfold rolling. destruct (period <? 0); [discriminate|].
  intros H Hi. injection H as <-. rewrite list_lookup_fmap, lookup_seq_lt by exact Hi.
  reflexivity.
Qed.

Lemma window_at_length period xs i :
  (i < length xs)%nat ->
  length (window_at period xs i) = Nat.min (S i) (Z.to_nat period).
Proof.
  intros Hi. unfold window_at. rewrite length_drop, length_take. lia.
Qed.

(** A rolling aggregate is NaN until the window is full. *)
Lemma rolling_warmup pick period xs ys i :
  rolling pick period xs = Ok ys -> (i < length xs)%nat ->
  Z.of_nat i + 1 < period -> ys !! i = Some nan.
Proof.
  intros H Hi Hp. rewrite (rolling_lookup _ _ _ _ _ H Hi). cbv zeta.
  rewrite bool_decide_true; [reflexivity|].
  pose proof (length_filter (fun x => isnan x = false)
                (window_at period (_prep_values xs) i)) as Hf.
  rewrite window_at_length in Hf by (unfold _prep_values; rewrite length_fmap; exact Hi).
  lia.
Qed.

(** The window of a column seen through a function. *)
Lemma window_at_fmap (f : float -> float) period xs i :
  window_at period (f <$> xs) i = f <$> window_at period xs i.
Proof. unfold window_at. rewrite fmap_drop, fmap_take. reflexivity. Qed.

(** [_prep_values] leaves a window of finite values as it is, and puts a NaN
    into a window that holds a NaN or an infinity. *)
Lemma prep_window_finite period xs i :
  Forall (fun x => isnan x = false /\ isinf x = false) (window_at period xs i) ->
  window_at period (_prep_values xs) i = window_at period xs i.
Proof.
  intros H. unfold _prep_values. rewrite window_at_fmap.
  induction H as [|x w [_ Hx] _ IH]; [reflexivity|].
  rewrite fmap_cons, Hx, IH. reflexivity.
Qed.

Lemma prep_window_nan period xs i :
  Exists (fun x => isnan x = true \/ isinf x = true) (window_at period xs i) ->
  Exists (fun x => isnan x = true) (window_at period (_prep_values xs) i).
Proof.
  intros H. unfold _prep_values. rewrite window_at_fmap.
  induction H as [x w Hx|x w _ IH]; rewrite fmap_cons.
  - apply Exists_cons_hd. destruct (isinf x) eqn:E; [reflexivity|].
    destruct Hx as [Hx|Hx]; [exact Hx|discriminate].
  - apply Exists_cons_tl, IH.
Qed.

Lemma filter_drops {A} (P : A -> Prop) `{forall x, Decision (P x)} (l : list A) :
  Exists (fun x => ~ P x) l -> (length (filter P l) < length l)%nat.
Proof.
  induction 1 as [x l Hx|x l _ IH].
  - rewrite filter_cons, decide_False by exact Hx.
    pose proof (length_filter P l). simpl. lia.
  - rewrite filter_cons. destruct (decide (P x)); simpl; [lia|].
    pose proof (length_filter P l). lia.
Qed.

(** A rolling aggregate is NaN on a window that holds a NaN or an infinity. *)
Lemma rolling_nan pick period xs ys i :
  rolling pick period xs = Ok ys -> (i < length xs)%nat -> 1 <= period ->
  Exists (fun x => isnan x = true \/ isinf x = true) (window_at period xs i) ->
  ys !! i = Some nan.
Proof.
  intros H Hi Hp Hbad. rewrite (rolling_lookup _ _ _ _ _ H Hi). cbv zeta.
  rewrite bool_decide_true; [reflexivity|].
  assert (Hlt : (length (filter (fun x => isnan x = false)
                           (window_at period (_prep_values xs) i))
                 < length (window_at period (_prep_values xs) i))%nat).
  { apply filter_drops. eapply Exists_impl; [apply prep_window_nan, Hbad|].
    intros x Hx. simpl in Hx. congruence. }
  rewrite window_at_length in Hlt by (unfold _prep_values; rewrite length_fmap; exact Hi).
  lia.
Qed.

Lemma midpoint_length df period xs :
  _midpoint df period = Ok xs -> length xs = length df.
Proof.
  unfold _midpoint. intros H.
  destruct (rolling_max period (high <$> df)) as [hi|] eqn:Hh; result_step; [|discriminate].
  destruct (rolling_min period (low <$> df)) as [lo|] eqn:Hl; result_step; [|discriminate].
  injection H as <-. apply rolling_length in Hh, Hl.
  rewrite length_zip_with, Hh, Hl, !length_fmap. lia.
Qed.

(** [_midpoint] row by row: half the sum of the rolling maximum of the highs and
    the rolling minimum of the lows. *)
Lemma midpoint_lookup df period xs i :
  _midpoint df period = Ok xs -> (i < length df)%nat ->
  exists hi lo h l,
    rolling_max period (high <$> df) = Ok hi /\ rolling_min period (low <$> df) = Ok lo
    /\ hi !! i = Some h /\ lo !! i = Some l
    /\ xs !! i = Some ((h + l) / 2)%float.
Proof.
  unfold _midpoint. intros H Hi.
  destruct (rolling_max period (high <$> df)) as [hi|] eqn:Hh; result_step; [|discriminate].
  destruct (rolling_min period (low <$> df)) as [lo|] eqn:Hl; result_step; [|discriminate].
  injection H as <-.
  pose proof (rolling_length _ _ _ _ Hh) as Lh. pose proof (rolling_length _ _ _ _ Hl) as Ll.
  rewrite length_fmap in Lh, Ll.
  destruct (lookup_lt_is_Some_2 hi i) as [h Hhi]; [lia|].
  destruct (lookup_lt_is_Some_2 lo i) as [l Hlo]; [lia|].
  exists hi, lo, h, l. repeat split; auto.
  rewrite lookup_zip_with, Hhi, Hlo. reflexivity.
Qed.

Lemma midpoint_warmup df period xs i :
  _midpoint df period = Ok xs -> (i < length df)%nat ->
  Z.of_nat i + 1 < period -> xs !! i = Some nan.
Proof.
  intros H Hi Hp.
  destruct (midpoint_lookup df period xs i H Hi) as (hi & lo & h & l & Hh & Hl & Hhi & Hlo & ->).
  unfold rolling_max in Hh.
  rewrite (rolling_warmup _ _ _ _ i Hh) in Hhi by (rewrite ?length_fmap; auto).
  injection Hhi as <-. rewrite add_nan_l, div_nan_l. reflexivity.
Qed.

(** [s.shift(n)] row by row: the value [n] rows earlier, NaN when there is none. *)
Lemma shift_lookup n xs i :
  (i < length xs)%nat ->
  shift n xs !! i
  = Some (if Z.of_nat i - n <? 0 then nan
          else default nan (xs !! Z.to_nat (Z.of_nat i - n))).
Proof.
  intros Hi. unfold shift. rewrite list_lookup_fmap, lookup_seq_lt by exact Hi. reflexivity.
Qed.

Lemma shift_length n xs : length (shift n xs) = length xs.
Proof. unfold shift. rewrite length_fmap, length_seq. reflexivity. Qed.

(** The columns [calculate] zips into its rows. *)
Lemma calculate_rows self candles rows :
  calculate self candles = Ok rows ->
  exists tk kj sb,
    _midpoint candles (tenkan_period (cfg self)) = Ok tk
    /\ _midpoint candles (kijun_period (cfg self)) = Ok kj
    /\ _midpoint candles (senkou_b_period (cfg self)) = Ok sb
    /\ length rows = length candles
    /\ forall i, (i < length candles)%nat ->
         rows !! i
         = Some (mkRow (default nan (tk !! i)) (default nan (kj !! i))
                   (default nan (shift (displacement (cfg self))
                                   (zip_with (fun t k => ((t + k) / 2)%float) tk kj) !! i))
                   (default nan (shift (displacement (cfg self)) sb !! i))
                   (default nan (shift (- chikou_shift (cfg self)) (close <$> candles) !! i))).
Proof.
  unfold calculate. intros H.
  destruct (_midpoint candles (tenkan_period _)) as [tk|] eqn:H1; result_step; [|discriminate].
  destruct (_midpoint candles (kijun_period _)) as [kj|] eqn:H2; result_step; [|discriminate].
  destruct (_midpoint candles (senkou_b_period _)) as [sb|] eqn:H3; result_step; [|discriminate].
  injection H as <-. exists tk, kj, sb. repeat split; auto.
  - rewrite length_fmap, length_seq. reflexivity.
  - intros i Hi. rewrite list_lookup_fmap, lookup_seq_lt by exact Hi. reflexivity.
Qed.

(** Chikou at a row is the close [chikou_shift] rows later, NaN when there is
    none. *)
Lemma chikou_lookup self candles rows i row :
  calculate self candles = Ok rows ->
  rows !! i = Some row ->
  let j := Z.of_nat i + chikou_shift (cfg self) in
  (forall c, 0 <= j -> candles !! Z.to_nat j = Some c -> r_chikou row = close c)
  /\ (j < 0 \/ Z.of_nat (length candles) <= j -> r_chikou row = nan).
Proof.
  intros Hc Hrow j.
  destruct (calculate_rows _ _ _ Hc) as (tk & kj & sb & _ & _ & _ & Hlen & Hrows).
  assert (Hi : (i < length candles)%nat).
  { rewrite <- Hlen. apply lookup_lt_is_Some. eauto. }
  rewrite (Hrows i Hi) in Hrow. injection Hrow as <-. simpl.
  rewrite shift_lookup by (rewrite length_fmap; exact Hi). simpl.
  replace (Z.of_nat i - - chikou_shift (cfg self)) with j by (unfold j; lia).
  split.
  - intros c Hj Hcj. destruct (j <? 0) eqn:E; [lia|].
    rewrite list_lookup_fmap, Hcj. reflexivity.
  - intros [Hj|Hj]; destruct (j <? 0) eqn:E; try reflexivity; try lia.
    rewrite list_lookup_fmap, lookup_ge_None_2 by lia. reflexivity.
Qed.

(** X7. In the frame [calculate] returns, chikou at row [i] is the close of the
    candle [chikou_shift] rows later, and NaN when there is no such candle. *)
Theorem chikou_is_the_later_close self candles rows i row :
  calculate self candles = Ok rows ->
  rows !! i = Some row ->
  let j := Z.of_nat i + chikou_shift (cfg self) in
  (forall c, 0 <= j -> candles !! Z.to_nat j = Some c -> r_chikou row = close c)
  /\ (j < 0 \/ Z.of_nat (length candles) <= j -> r_chikou row = nan).
Proof. apply chikou_lookup. Qed.

(** The senkou lines at a row are the values [displacement] rows earlier, NaN
    when there are none. *)
Lemma senkou_lookup self candles rows i row :
  calculate self candles = Ok rows ->
  rows !! i = Some row ->
  let j := Z.of_nat i - displacement (cfg self) in
  length rows = length candles
  /\ (forall src, 0 <= j -> rows !! Z.to_nat j = Some src ->
        r_senkou_a row = ((r_tenkan src + r_kijun src) / 2)%float)
  /\ (forall sb x, 0 <= j ->
        _midpoint candles (senkou_b_period (cfg self)) = Ok sb ->
        sb !! Z.to_nat j = Some x -> r_senkou_b row = x)
  /\ (j < 0 \/ Z.of_nat (length candles) <= j ->
      r_senkou_a row = nan /\ r_senkou_b row = nan).
Proof.
  intros Hc Hrow j.
  destruct (calculate_rows _ _ _ Hc) as (tk & kj & sb & Htk & Hkj & Hsb & Hlen & Hrows).
  assert (Hi : (i < length candles)%nat).
  { rewrite <- Hlen. apply lookup_lt_is_Some. eauto. }
  pose proof (midpoint_length _ _ _ Htk) as Ltk.
  pose proof (midpoint_length _ _ _ Hkj) as Lkj.
  pose proof (midpoint_length _ _ _ Hsb) as Lsb.
  rewrite (Hrows i Hi) in Hrow. injection Hrow as <-. simpl.
  rewrite !shift_lookup by (rewrite ?length_zip_with; lia). simpl. fold j.
  split; [exact Hlen|]. split; [|split].
  - intros src Hj Hsrc. destruct (j <? 0) eqn:E; [lia|].
    assert (Hjn : (Z.to_nat j < length candles)%nat).
    { rewrite <- Hlen. apply lookup_lt_is_Some. eauto. }
    rewrite (Hrows _ Hjn) in Hsrc. injection Hsrc as <-. simpl.
    destruct (lookup_lt_is_Some_2 tk (Z.to_nat j)) as [t Ht]; [lia|].
    destruct (lookup_lt_is_Some_2 kj (Z.to_nat j)) as [k Hk]; [lia|].
    rewrite lookup_zip_with, Ht, Hk. reflexivity.
  - intros sb' x Hj Hsb' Hx. assert (sb' = sb) as -> by congruence.
    destruct (j <? 0) eqn:E; [lia|]. rewrite Hx. reflexivity.
  - intros [Hj|Hj]; destruct (j <? 0) eqn:E; try lia; try (split; reflexivity).
    rewrite !lookup_ge_None_2 by (rewrite ?length_zip_with; lia). split; reflexivity.
Qed.

(** X8. [calculate] returns one row per candle; senkou A at row [i] is the mean
    of tenkan and kijun of the row [displacement] rows earlier, senkou B the
    midpoint over [senkou_b_period] taken there, and both are NaN when there is
    no such row. *)
Theorem senkou_is_the_displaced_midpoint self candles rows i row :
  calculate self candles = Ok rows ->
  rows !! i = Some row ->
  let j := Z.of_nat i - displacement (cfg self) in
  length rows = length candles
  /\ (forall src, 0 <= j -> rows !! Z.to_nat j = Some src ->
        r_senkou_a row = ((r_tenkan src + r_kijun src) / 2)%float)
  /\ (forall sb x, 0 <= j ->
        _midpoint candles (senkou_b_period (cfg self)) = Ok sb ->
        sb !! Z.to_nat j = Some x -> r_senkou_b row = x)
  /\ (j < 0 \/ Z.of_nat (length candles) <= j ->
      r_senkou_a row = nan /\ r_senkou_b row = nan).
Proof. apply senkou_lookup. Qed.

(** Folding [max] over NaN-free values gives one of them that none exceeds. *)
Lemma fold_py_max_spec w : forall acc,
  isnan acc = false -> Forall (fun x => isnan x = false) w ->
  let m := fold_left py_max w acc in
  (m = acc \/ m ∈ w) /\ (m <? acc)%float = false
  /\ forall x, x ∈ w -> (m <? x)%float = false.
Proof.
  induction w as [|x w IH]; intros acc Ha Hw; simpl.
  - split; [auto|]. split; [apply ltb_irrefl|]. intros x Hx. apply elem_of_nil in Hx as [].
  - apply Forall_cons in Hw as [Hx Hw].
    assert (Hacc' : isnan (py_max acc x) = false) by (unfold py_max; destruct (_ <? _)%float; auto).
    destruct (IH (py_max acc x) Hacc' Hw) as (Hm & Hlt & Hall).
    set (m := fold_left py_max w (py_max acc x)) in *.
    assert (Hmacc : (m <? acc)%float = false /\ (m <? x)%float = false).
    { unfold py_max in Hlt. destruct (acc <? x)%float eqn:E.
      - split; [|exact Hlt]. destruct (m <? acc)%float eqn:E'; [|reflexivity].
        rewrite (ltb_trans _ _ _ E' E) in Hlt. discriminate.
      - split; [exact Hlt|]. destruct (m <? x)%float eqn:E'; [|reflexivity].
        destruct (ltb_neg_trans m acc x Ha E') as [H|H]; congruence. }
    split; [|split; [tauto|]].
    + destruct Hm as [Hm|Hm]; [|right; apply elem_of_cons; auto].
      unfold py_max in Hm. destruct (acc <? x)%float; [right|left]; [|exact Hm].
      apply elem_of_cons. auto.
    + intros y Hy. apply elem_of_cons in Hy as [->|Hy]; [tauto | auto].
Qed.

(** Folding [min] over NaN-free values gives one of them that is above none. *)
Lemma fold_py_min_spec w : forall acc,
  isnan acc = false -> Forall (fun x => isnan x = false) w ->
  let m := fold_left py_min w acc in
  (m = acc \/ m ∈ w) /\ (acc <? m)%float = false
  /\ forall x, x ∈ w -> (x <? m)%float = false.
Proof.
  induction w as [|x w IH]; intros acc Ha Hw; simpl.
  - split; [auto|]. split; [apply ltb_irrefl|]. intros x Hx. apply elem_of_nil in Hx as [].
  - apply Forall_cons in Hw as [Hx Hw].
    assert (Hacc' : isnan (py_min acc x) = false) by (unfold py_min; destruct (_ <? _)%float; auto).
    destruct (IH (py_min acc x) Hacc' Hw) as (Hm & Hlt & Hall).
    set (m := fold_left py_min w (py_min acc x)) in *.
    assert (Hmacc : (acc <? m)%float = false /\ (x <? m)%float = false).
    { unfold py_min in Hlt. destruct (x <? acc)%float eqn:E.
      - split; [|exact Hlt]. destruct (acc <? m)%float eqn:E'; [|reflexivity].
        rewrite (ltb_trans _ _ _ E E') in Hlt. discriminate.
      - split; [exact Hlt|]. destruct (x <? m)%float eqn:E'; [|reflexivity].
        destruct (ltb_neg_trans x acc m Ha E') as [H|H]; congruence. }
    split; [|split; [tauto|]].
    + destruct Hm as [Hm|Hm]; [|right; apply elem_of_cons; auto].
      unfold py_min in Hm. destruct (x <? acc)%float; [right|left]; [|exact Hm].
      apply elem_of_cons. auto.
    + intros y Hy. apply elem_of_cons in Hy as [->|Hy]; [tauto | auto].
Qed.

Lemma aggregate_max_spec w :
  w <> [] -> Forall (fun x => isnan x = false) w ->
  aggregate py_max w ∈ w /\ forall x, x ∈ w -> (aggregate py_max w <? x)%float = false.
Proof.
  destruct w as [|a w]; [congruence|]. intros _ Hw. apply Forall_cons in Hw as [Ha Hw].
  simpl. destruct (fold_py_max_spec w a Ha Hw) as (Hm & Hlt & Hall). split.
  - apply elem_of_cons. destruct Hm; auto.
  - intros x Hx. apply elem_of_cons in Hx as [->|Hx]; auto.
Qed.

Lemma aggregate_min_spec w :
  w <> [] -> Forall (fun x => isnan x = false) w ->
  aggregate py_min w ∈ w /\ forall x, x ∈ w -> (x <? aggregate py_min w)%float = false.
Proof.
  destruct w as [|a w]; [congruence|]. intros _ Hw. apply Forall_cons in Hw as [Ha Hw].
  simpl. destruct (fold_py_min_spec w a Ha Hw) as (Hm & Hlt & Hall). split.
  - apply elem_of_cons. destruct Hm; auto.
  - intros x Hx. apply elem_of_cons in Hx as [->|Hx]; auto.
Qed.

Lemma filter_all {A} (P : A -> Prop) `{forall x, Decision (P x)} (l : list A) :
  Forall P l -> filter P l = l.
Proof.
  induction 1 as [|x l Hx _ IH]; [reflexivity|].
  rewrite filter_cons, decide_True by exact Hx. f_equal. exact IH.
Qed.

(** X9. [_midpoint] has one value per row; it is NaN while fewer than [period]
    rows are available; from then on, over a window of finite highs and lows,
    it is [(hi + lo) / 2] for the greatest high [hi] and the least low [lo] of
    the [period] rows that end at the row; and it is NaN when a high or a low
    of the window is NaN or infinite. *)
Theorem midpoint_of_trailing_window df period xs i :
  _midpoint df period = Ok xs ->
  (i < length df)%nat ->
  length xs = length df
  /\ (Z.of_nat i + 1 < period -> xs !! i = Some nan)
  /\ (1 <= period <= Z.of_nat i + 1 ->
      Forall (fun x => isnan x = false /\ isinf x = false)
        (window_at period (high <$> df) i) ->
      Forall (fun x => isnan x = false /\ isinf x = false)
        (window_at period (low <$> df) i) ->
      exists hi lo,
        xs !! i = Some ((hi + lo) / 2)%float
        /\ hi ∈ window_at period (high <$> df) i
        /\ (forall h, h ∈ window_at period (high <$> df) i -> (hi <? h)%float = false)
        /\ lo ∈ window_at period (low <$> df) i
        /\ (forall l, l ∈ window_at period (low <$> df) i -> (l <? lo)%float = false)
        /\ window_at period (high <$> df) i
           = high <$> take (Z.to_nat period) (drop (S i - Z.to_nat period) df)
        /\ window_at period (low <$> df) i
           = low <$> take (Z.to_nat period) (drop (S i - Z.to_nat period) df))
  /\ (1 <= period ->
      Exists (fun x => isnan x = true \/ isinf x = true)
        (window_at period (high <$> df) i)
      \/ Exists (fun x => isnan x = true \/ isinf x = true)
           (window_at period (low <$> df) i) ->
      xs !! i = Some nan).
Proof.
  intros H Hi. split; [apply (midpoint_length _ _ _ H)|]. split; [|split].
  - intros Hp. apply (midpoint_warmup df period xs i H Hi Hp).
  - intros Hp Hhigh Hlow.
    destruct (midpoint_lookup df period xs i H Hi)
      as (his & los & h & l & Hh & Hl & Hhi & Hlo & Hx).
    unfold rolling_max in Hh. unfold rolling_min in Hl.
    rewrite (rolling_lookup _ _ _ _ i Hh) in Hhi by (rewrite length_fmap; exact Hi).
    rewrite (rolling_lookup _ _ _ _ i Hl) in Hlo by (rewrite length_fmap; exact Hi).
    cbv zeta in Hhi, Hlo.
    rewrite (prep_window_finite _ _ _ Hhigh) in Hhi.
    rewrite (prep_window_finite _ _ _ Hlow) in Hlo.
    assert (Hhigh' : Forall (fun x => isnan x = false) (window_at period (high <$> df) i)).
    { eapply Forall_impl; [exact Hhigh|]. intros x [Hx' _]. exact Hx'. }
    assert (Hlow' : Forall (fun x => isnan x = false) (window_at period (low <$> df) i)).
    { eapply Forall_impl; [exact Hlow|]. intros x [Hx' _]. exact Hx'. }
    rewrite filter_all in Hhi by exact Hhigh'. rewrite filter_all in Hlo by exact Hlow'.
    rewrite window_at_length in Hhi, Hlo by (rewrite length_fmap; exact Hi).
    assert (Hfull : ~ Z.of_nat (S i `min` Z.to_nat period) < period).
    { destruct (Nat.min_spec (S i) (Z.to_nat period)) as [[? ->]|[? ->]]; lia. }
    rewrite (bool_decide_false _ Hfull) in Hhi, Hlo.
    injection Hhi as <-. injection Hlo as <-.
    assert (Hne : forall ys : list float, (i < length ys)%nat -> window_at period ys i <> []).
    { intros ys Hy E. apply (f_equal length) in E.
      rewrite window_at_length in E by exact Hy.
      change (length (@nil float)) with 0%nat in E. lia. }
    assert (Lh : (i < length (high <$> df))%nat) by (rewrite length_fmap; exact Hi).
    assert (Ll : (i < length (low <$> df))%nat) by (rewrite length_fmap; exact Hi).
    destruct (aggregate_max_spec _ (Hne _ Lh) Hhigh') as [M1 M2].
    destruct (aggregate_min_spec _ (Hne _ Ll) Hlow') as [m1 m2].
    eexists _, _. split; [exact Hx|]. repeat split; auto.
    + unfold window_at. rewrite <- fmap_take, <- fmap_drop. f_equal.
      rewrite take_drop_commute. f_equal. f_equal. lia.
    + unfold window_at. rewrite <- fmap_take, <- fmap_drop. f_equal.
      rewrite take_drop_commute. f_equal. f_equal. lia.
  - intros Hp Hbad.
    destruct (midpoint_lookup df period xs i H Hi)
      as (his & los & h & l & Hh & Hl & Hhi & Hlo & Hx).
    unfold rolling_max in Hh. unfold rolling_min in Hl.
    assert (Lh : (i < length (high <$> df))%nat) by (rewrite length_fmap; exact Hi).
    assert (Ll : (i < length (low <$> df))%nat) by (rewrite length_fmap; exact Hi).
    rewrite Hx. destruct Hbad as [Hbad|Hbad].
    + rewrite (rolling_nan _ _ _ _ i Hh Lh Hp Hbad) in Hhi. injection Hhi as <-.
      rewrite add_nan_l, div_nan_l. reflexivity.
    + rewrite (rolling_nan _ _ _ _ i Hl Ll Hp Hbad) in Hlo. injection Hlo as <-.
      rewrite add_nan_r, div_nan_l. reflexivity.
Qed.

End indicator_more.

Lemma chikou_is_the_later_close_witness :
  exists rows row c,
    IchimokuIndicator.calculate (IchimokuIndicator.init None) (make_ohlc 60) = Ok rows
    /\ rows !! 10%nat = Some row
    /\ make_ohlc 60 !! 36%nat = Some c
    /\ IchimokuIndicator.r_chikou row = close c.
Proof.
  destruct (IchimokuIndicator.calculate (IchimokuIndicator.init None) (make_ohlc 60))
    as [rows|] eqn:Hc; [|vm_compute in Hc; discriminate].
  destruct (rows !! 10%nat) as [row|] eqn:Hr;
    [|vm_compute in Hc; injection Hc as <-; vm_compute in Hr; discriminate].
  destruct (make_ohlc 60 !! 36%nat) as [c|] eqn:Hk; [|vm_compute in Hk; discriminate].
  exists rows, row, c. split; [reflexivity|]. split; [exact Hr|]. split; [reflexivity|].
  destruct (chikou_is_the_later_close (IchimokuIndicator.init None) (make_ohlc 60)
              rows 10 row Hc Hr) as [Hin _].
  apply Hin; [vm_compute; discriminate|exact Hk].
Defined.

Lemma senkou_is_the_displaced_midpoint_witness :
  exists rows row src,
    IchimokuIndicator.calculate (IchimokuIndicator.init None) (make_ohlc 60) = Ok rows
    /\ rows !! 59%nat = Some row
    /\ rows !! 33%nat = Some src
    /\ IchimokuIndicator.r_senkou_a row
       = ((IchimokuIndicator.r_tenkan src + IchimokuIndicator.r_kijun src) / 2)%float.
Proof.
  destruct (IchimokuIndicator.calculate (IchimokuIndicator.init None) (make_ohlc 60))
    as [rows|] eqn:Hc; [|vm_compute in Hc; discriminate].
  destruct (rows !! 59%nat) as [row|] eqn:Hr;
    [|vm_compute in Hc; injection Hc as <-; vm_compute in Hr; discriminate].
  destruct (rows !! 33%nat) as [src|] eqn:Hs;
    [|vm_compute in Hc; injection Hc as <-; vm_compute in Hs; discriminate].
  exists rows, row, src. split; [reflexivity|]. split; [exact Hr|]. split; [exact Hs|].
  destruct (senkou_is_the_displaced_midpoint (IchimokuIndicator.init None) (make_ohlc 60)
              rows 59 row Hc Hr) as (_ & Ha & _).
  apply Ha; [vm_compute; discriminate|exact Hs].
Defined.

Lemma midpoint_of_trailing_window_witness :
  (exists xs,
     IchimokuIndicator._midpoint (make_ohlc 12) 9 = Ok xs
     /\ xs !! 3%nat = Some nan
     /\ exists hi lo, xs !! 10%nat = Some ((hi + lo) / 2)%float
          /\ hi ∈ IchimokuIndicator.window_at 9 (high <$> make_ohlc 12) 10
          /\ lo ∈ IchimokuIndicator.window_at 9 (low <$> make_ohlc 12) 10)
  /\ (exists ys,
        IchimokuIndicator._midpoint spiked 2 = Ok ys /\ ys !! 2%nat = Some nan).
Proof.
  split.
  - destruct (IchimokuIndicator._midpoint (make_ohlc 12) 9) as [xs|] eqn:Hm;
      [|vm_compute in Hm; discriminate].
    exists xs. split; [reflexivity|]. split.
    + destruct (midpoint_of_trailing_window (make_ohlc 12) 9 xs 3 Hm) as (_ & Hnan & _).
      * vm_compute. lia.
      * apply Hnan. vm_compute. reflexivity.
    + destruct (midpoint_of_trailing_window (make_ohlc 12) 9 xs 10 Hm)
        as (_ & _ & Hval & _).
      * vm_compute. lia.
      * destruct Hval as (hi & lo & Hx & Hhi & _ & Hlo & _).
        -- vm_compute. split; discriminate.
        -- apply (bool_decide_unpack _). vm_compute. exact I.
        -- apply (bool_decide_unpack _). vm_compute. exact I.
        -- exists hi, lo. auto.
  - destruct (IchimokuIndicator._midpoint spiked 2) as [ys|] eqn:Hm;
      [|vm_compute in Hm; discriminate].
    exists ys. split; [reflexivity|].
    destruct (midpoint_of_trailing_window spiked 2 ys 2 Hm) as (_ & _ & _ & Hinf).
    + vm_compute. lia.
    + apply Hinf; [lia|]. left. apply Exists_cons_hd. right. vm_compute. reflexivity.
Defined.

(** ** Indicator: the snapshot of a short or shifted history *)

Section snapshot_more.
Import IchimokuIndicator.

(** [df.iloc[-k]] is the row [k] from the end. *)
Lemma iloc_neg_lookup {A} (l : list A) (k : nat) x :
  iloc l (- Z.of_nat (S k)) = Ok x -> l !! (length l - S k)%nat = Some x /\ (S k <= length l)%nat.
Proof.
  unfold iloc. cbv zeta. destruct (Z.ltb_spec (- Z.of_nat (S k)) 0) as [_|E]; [|exfalso; lia].
  destruct (Z.ltb_spec (Z.of_nat (length l) + - Z.of_nat (S k)) 0) as [E2|E2]; [discriminate|].
  replace (Z.to_nat (Z.of_nat (length l) + - Z.of_nat (S k))) with (length l - S k)%nat by lia.
  destruct (l !! (length l - S k)%nat) eqn:Hl; [|discriminate].
  intros H. injection H as <-. split; [reflexivity | lia].
Qed.

(** The snapshot of a frame of at least two candles, read off the last two
    rows of [calculate] and the last two closes. *)
Lemma latest_values_rows self candles ind :
  latest_values self candles = Ok ind ->
  (2 <= length candles)%nat ->
  exists rows cur prev c pc,
    calculate self candles = Ok rows
    /\ rows !! (length candles - 1)%nat = Some cur
    /\ rows !! (length candles - 2)%nat = Some prev
    /\ candles !! (length candles - 1)%nat = Some c
    /\ candles !! (length candles - 2)%nat = Some pc
    /\ Indicators.tenkan ind = r_tenkan cur /\ Indicators.kijun ind = r_kijun cur
    /\ Indicators.senkou_a ind = r_senkou_a cur /\ Indicators.senkou_b ind = r_senkou_b cur
    /\ Indicators.chikou ind = r_chikou cur /\ Indicators.close ind = close c
    /\ Indicators.prev_tenkan ind = r_tenkan prev /\ Indicators.prev_kijun ind = r_kijun prev
    /\ Indicators.prev_senkou_a ind = r_senkou_a prev
    /\ Indicators.prev_senkou_b ind = r_senkou_b prev
    /\ Indicators.prev_chikou ind = r_chikou prev /\ Indicators.prev_close ind = close pc.
Proof.
  intros H Hn. unfold latest_values in H.
  destruct (calculate self candles) as [rows|] eqn:Hc; result_step; [|discriminate].
  pose proof (calculate_length _ _ _ Hc) as Hl.
  rewrite bool_decide_false in H by lia.
  destruct (iloc rows (-1)) as [cur|] eqn:H1; result_step; [|discriminate].
  destruct (iloc rows (-2)) as [prev|] eqn:H2; result_step; [|discriminate].
  destruct (iloc candles (-1)) as [c|] eqn:H3; result_step; [|discriminate].
  destruct (iloc candles (-2)) as [pc|] eqn:H4; result_step; [|discriminate].
  injection H as <-.
  apply (iloc_neg_lookup rows 0) in H1 as [H1 _]. apply (iloc_neg_lookup rows 1) in H2 as [H2 _].
  apply (iloc_neg_lookup candles 0) in H3 as [H3 _].
  apply (iloc_neg_lookup candles 1) in H4 as [H4 _].
  rewrite Hl in H1, H2.
  exists rows, cur, prev, c, pc. simpl. rewrite !v_id. repeat split; auto.
Qed.

(** With a chikou shift of at least one the snapshot has a NaN chikou, and
    [check] returns nothing on it. *)
Lemma snapshot_chikou_nan self candles ind :
  1 <= chikou_shift (cfg self) ->
  latest_values self candles = Ok ind ->
  isnan (Indicators.chikou ind) = true
  /\ SignalDetector._has_nan ind = true
  /\ forall det pair timeframe now,
       SignalDetector.check det pair timeframe ind now = ([], det).
Proof.
  intros Hcs H.
  assert (Hnan : isnan (Indicators.chikou ind) = true).
  { destruct (decide (length candles < 2)%nat) as [Hs|Hs].
    - rewrite (latest_values_short _ _ _ Hs H). reflexivity.
    - destruct (latest_values_rows _ _ _ H ltac:(lia))
        as (rows & cur & prev & c & pc & Hc & Hcur & _ & _ & _ & _ & _ & _ & _ & -> & _).
      destruct (chikou_lookup _ _ _ _ _ Hc Hcur) as [_ Hout].
      rewrite Hout by lia. reflexivity. }
  assert (Hh : SignalDetector._has_nan ind = true).
  { apply (has_nan_of_elem ind (Indicators.chikou ind)); [|exact Hnan].
    unfold Indicators.values. rewrite !elem_of_cons. auto 10. }
  split; [exact Hnan|]. split; [exact Hh|].
  intros det pair timeframe now. unfold SignalDetector.check.
  apply check_rules_has_nan, Hh.
Qed.

(** X10. With a chikou shift of at least one, every snapshot of [latest_values]
    has a NaN chikou, so [check] returns no signal on it and leaves the detector
    as it is. *)
Theorem snapshot_chikou_is_nan self candles ind :
  1 <= chikou_shift (cfg self) ->
  latest_values self candles = Ok ind ->
  isnan (Indicators.chikou ind) = true
  /\ SignalDetector._has_nan ind = true
  /\ forall det pair timeframe now,
       SignalDetector.check det pair timeframe ind now = ([], det).
Proof. apply snapshot_chikou_nan. Qed.

(** On fewer candles than [senkou_b_period + displacement] the snapshot has a
    NaN senkou B, and [check] returns nothing on it. *)
Lemma short_history_nan self candles ind :
  1 <= senkou_b_period (cfg self) -> 0 <= displacement (cfg self) ->
  Z.of_nat (length candles) < senkou_b_period (cfg self) + displacement (cfg self) ->
  latest_values self candles = Ok ind ->
  isnan (Indicators.senkou_b ind) = true
  /\ forall det pair timeframe now,
       SignalDetector.check det pair timeframe ind now = ([], det).
Proof.
  intros Hp Hd Hlen H.
  assert (Hnan : isnan (Indicators.senkou_b ind) = true).
  { destruct (decide (length candles < 2)%nat) as [Hs|Hs].
    - rewrite (latest_values_short _ _ _ Hs H). reflexivity.
    - destruct (latest_values_rows _ _ _ H ltac:(lia))
        as (rows & cur & prev & c & pc & Hc & Hcur & _ & _ & _ & _ & _ & _ & -> & _).
      destruct (senkou_lookup _ _ _ _ _ Hc Hcur) as (_ & _ & Hsb & Hout).
      destruct (Z_lt_le_dec (Z.of_nat (length candles - 1) - displacement (cfg self)) 0)
        as [Hneg|Hpos].
      + destruct Hout as [_ ->]; [left; exact Hneg | reflexivity].
      + destruct (calculate_rows _ _ _ Hc) as (_ & _ & sb & _ & _ & Hmsb & _).
        set (j := Z.to_nat (Z.of_nat (length candles - 1) - displacement (cfg self))).
        assert (Hj : (j < length candles)%nat) by (unfold j; lia).
        rewrite (Hsb sb nan Hpos Hmsb); [reflexivity|].
        apply (midpoint_warmup candles _ sb j Hmsb Hj). unfold j. lia. }
  split; [exact Hnan|].
  intros det pair timeframe now. unfold SignalDetector.check.
  apply check_rules_has_nan.
  apply (has_nan_of_elem ind (Indicators.senkou_b ind)); [|exact Hnan].
  unfold Indicators.values. rewrite !elem_of_cons. auto 10.
Qed.

(** X11. On fewer candles than [senkou_b_period + displacement], the snapshot of
    [latest_values] has a NaN senkou B, and [check] returns no signal on it. *)
Theorem short_history_gives_no_signal self candles ind :
  1 <= senkou_b_period (cfg self) -> 0 <= displacement (cfg self) ->
  Z.of_nat (length candles) < senkou_b_period (cfg self) + displacement (cfg self) ->
  latest_values self candles = Ok ind ->
  isnan (Indicators.senkou_b ind) = true
  /\ forall det pair timeframe now,
       SignalDetector.check det pair timeframe ind now = ([], det).
Proof. apply short_history_nan. Qed.

End snapshot_more.

Lemma snapshot_chikou_is_nan_witness :
  exists ind,
    IchimokuIndicator.latest_values (IchimokuIndicator.init None) (make_ohlc 100) = Ok ind
    /\ SignalDetector._has_nan ind = true
    /\ SignalDetector.check (SignalDetector.init None None) "EURUSD" "H1" ind (99 * hour)
       = ([], SignalDetector.init None None).
Proof.
  destruct (IchimokuIndicator.latest_values (IchimokuIndicator.init None) (make_ohlc 100))
    as [ind|] eqn:Hl; [|vm_compute in Hl; discriminate].
  exists ind. split; [reflexivity|].
  destruct (snapshot_chikou_is_nan (IchimokuIndicator.init None) (make_ohlc 100) ind)
    as (_ & Hn & Hck).
  - vm_compute. discriminate.
  - exact Hl.
  - split; [exact Hn|apply Hck].
Defined.

Lemma short_history_gives_no_signal_witness :
  exists ind,
    IchimokuIndicator.latest_values
      (IchimokuIndicator.init (Some (IchimokuIndicator.mkConfig 9 26 52 26 0)))
      (make_ohlc 77) = Ok ind
    /\ isnan (Indicators.senkou_b ind) = true
    /\ isnan (Indicators.chikou ind) = false.
Proof.
  destruct (IchimokuIndicator.latest_values
              (IchimokuIndicator.init (Some (IchimokuIndicator.mkConfig 9 26 52 26 0)))
              (make_ohlc 77)) as [ind|] eqn:Hl; [|vm_compute in Hl; discriminate].
  exists ind. split; [reflexivity|].
  destruct (short_history_gives_no_signal
              (IchimokuIndicator.init (Some (IchimokuIndicator.mkConfig 9 26 52 26 0)))
              (make_ohlc 77) ind) as (Hn & _).
  - vm_compute. discriminate.
  - vm_compute. discriminate.
  - vm_compute. reflexivity.
  - exact Hl.
  - split; [exact Hn|]. vm_compute in Hl. injection Hl as <-. vm_compute. reflexivity.
Defined.

(** ** Detector: the signals of one check *)

Section detector_more.
Import SignalDetector.

(** The signals of [check] are those of the emitting rules, or none on a
    snapshot with NaN. *)
Lemma check_signals self pair timeframe ind now :
  (check self pair timeframe ind now).1
  = if _has_nan ind then []
    else signal_of self pair timeframe ind now <$> emitting self pair timeframe ind now rules.
Proof.
  destruct (_has_nan ind) eqn:Hn.
  - unfold check. rewrite check_rules_has_nan by exact Hn. reflexivity.
  - rewrite check_unfold by exact Hn. reflexivity.
Qed.

Lemma emitting_sublist self pair timeframe ind now rs :
  emitting self pair timeframe ind now rs `sublist_of` rs.
Proof. apply sublist_filter. Qed.

(** A rule of the table gives a signal exactly when it is enabled, fires and is
    not on cooldown. *)
Lemma emitted_when self pair timeframe ind now st fn :
  _has_nan ind = false -> (st, fn) ∈ rules ->
  (exists sig, sig ∈ (check self pair timeframe ind now).1 /\ signal_type sig = st)
  <-> st ∈ enabled self /\ (fn self ind).1 = true
      /\ _on_cooldown self pair timeframe st now = false.
Proof.
  intros Hn Hin. rewrite (emitted_iff self pair timeframe ind now st fn Hn Hin).
  apply emits_true_iff.
Qed.

(** The fields, types and number of the signals of one [check]. *)
Lemma check_fields self pair timeframe ind now :
  let sigs := (check self pair timeframe ind now).1 in
  (forall sig, sig ∈ sigs ->
     SignalDetector.pair sig = pair /\ SignalDetector.timeframe sig = timeframe
     /\ timestamp sig = now /\ price sig = Indicators.close ind
     /\ signal_type sig ∈ enabled self
     /\ signal_type sig ∈ rules.*1
     /\ direction sig = (if endswith (signal_type sig) "_up" then "BUY" else "SELL")
     /\ (direction sig = "BUY" <->
         signal_type sig ∈ ["tk_cross_up"; "kumo_breakout_up"; "chikou_cross_up"])
     /\ (direction sig = "SELL" <->
         signal_type sig ∈ ["tk_cross_down"; "kumo_breakout_down"; "chikou_cross_down"]))
  /\ NoDup (signal_type <$> sigs)
  /\ (signal_type <$> sigs) `sublist_of` rules.*1
  /\ (length sigs <= 6)%nat.
Proof.
  intros sigs. subst sigs. rewrite check_signals.
  destruct (_has_nan ind).
  { split; [intros sig H; apply elem_of_nil in H as []|].
    split; [constructor|]. split; [apply sublist_nil_l | simpl; lia]. }
  set (em := emitting self pair timeframe ind now rules).
  assert (Hty : signal_type <$> (signal_of self pair timeframe ind now <$> em) = em.*1).
  { rewrite <- list_fmap_compose. reflexivity. }
  assert (Hsub : em.*1 `sublist_of` rules.*1) by (apply fmap_sublist, emitting_sublist).
  split; [|split; [|split]].
  - intros sig Hs. apply list_elem_of_fmap in Hs as (r & -> & Hr).
    apply list_elem_of_filter in Hr as [He Hr]. simpl.
    unfold emits in He. apply andb_prop in He as [He _]. apply andb_prop in He as [He _].
    apply bool_decide_eq_true in He.
    assert (Hin : r.1 ∈ rules.*1) by (apply list_elem_of_fmap; eauto).
    repeat (split; [first [reflexivity | assumption]|]).
    unfold rules in Hin. simpl in Hin. rewrite !elem_of_cons, elem_of_nil in Hin.
    rewrite !elem_of_cons, !elem_of_nil.
    destruct Hin as [->|[->|[->|[->|[->|[->|[]]]]]]]; simpl;
      split; split; intros H; try discriminate; try reflexivity; auto 10;
      repeat (destruct H as [H|H]; try discriminate); try contradiction.
  - rewrite Hty. apply (sublist_NoDup _ (rules.*1)); [apply rules_NoDup | exact Hsub].
  - rewrite Hty. exact Hsub.
  - rewrite length_fmap. apply sublist_length in Hsub.
    rewrite !length_fmap in Hsub. exact Hsub.
Qed.

(** X12. Every signal [check] returns carries the pair, the timeframe and the
    candle time it was called with and the close of the snapshot as price; its
    type is enabled and is one of the six rules; its direction is BUY for the
    three [_up] types and SELL for the three [_down] types; no type occurs
    twice, the types come in the order of the rule table, and there are at most
    six signals. *)
Theorem check_signal_fields self pair timeframe ind now :
  let sigs := (check self pair timeframe ind now).1 in
  (forall sig, sig ∈ sigs ->
     SignalDetector.pair sig = pair /\ SignalDetector.timeframe sig = timeframe
     /\ timestamp sig = now /\ price sig = Indicators.close ind
     /\ signal_type sig ∈ enabled self
     /\ signal_type sig ∈ rules.*1
     /\ direction sig = (if endswith (signal_type sig) "_up" then "BUY" else "SELL")
     /\ (direction sig = "BUY" <->
         signal_type sig ∈ ["tk_cross_up"; "kumo_breakout_up"; "chikou_cross_up"])
     /\ (direction sig = "SELL" <->
         signal_type sig ∈ ["tk_cross_down"; "kumo_breakout_down"; "chikou_cross_down"]))
  /\ NoDup (signal_type <$> sigs)
  /\ (signal_type <$> sigs) `sublist_of` rules.*1
  /\ (length sigs <= 6)%nat.
Proof. apply check_fields. Qed.

(** X13. When a snapshot continues another (its previous values are the current
    values of the other), a TK cross or Kumo breakout that fired on the earlier
    one does not fire on the later one. *)
Theorem crossing_fires_once self self' s1 s2 :
  follows s1 s2 ->
  ((_tk_cross_up self s1).1 = true -> (_tk_cross_up self' s2).1 = false)
  /\ ((_tk_cross_down self s1).1 = true -> (_tk_cross_down self' s2).1 = false)
  /\ ((_kumo_breakout_up self s1).1 = true -> (_kumo_breakout_up self' s2).1 = false)
  /\ ((_kumo_breakout_down self s1).1 = true -> (_kumo_breakout_down self' s2).1 = false).
Proof.
  intros (Ht & Hk & Hc & Hct & Hcb).
  unfold _tk_cross_up, _tk_cross_down, _kumo_breakout_up, _kumo_breakout_down.
  rewrite Ht, Hk, Hc, Hct, Hcb.
  split; [|split; [|split]].
  - destruct ((Indicators.prev_tenkan s1 <=? Indicators.prev_kijun s1)%float
              && (Indicators.kijun s1 <? Indicators.tenkan s1)%float) eqn:E;
      simpl; [|discriminate].
    apply andb_prop in E as [_ E]. rewrite (ltb_leb_false _ _ E). reflexivity.
  - destruct ((Indicators.prev_kijun s1 <=? Indicators.prev_tenkan s1)%float
              && (Indicators.tenkan s1 <? Indicators.kijun s1)%float) eqn:E;
      simpl; [|discriminate].
    apply andb_prop in E as [_ E]. rewrite (ltb_leb_false _ _ E). reflexivity.
  - simpl. intros E. apply andb_prop in E as [_ E]. rewrite (ltb_leb_false _ _ E). reflexivity.
  - simpl. intros E. apply andb_prop in E as [_ E]. rewrite (ltb_leb_false _ _ E). reflexivity.
Qed.

(** [max(a, b)] is never below [min(a, b)]. *)
Lemma py_max_min_order a b : (py_max a b <? py_min a b)%float = false.
Proof.
  unfold py_max, py_min. destruct (a <? b)%float eqn:E.
  - rewrite (ltb_asym _ _ E). apply ltb_asym, E.
  - destruct (b <? a)%float eqn:E'; [exact E | apply ltb_irrefl].
Qed.

(** In a snapshot of [latest_values] the cloud bounds are [max] and [min] of the
    senkou lines. *)
Lemma latest_values_cloud indicator candles ind :
  IchimokuIndicator.latest_values indicator candles = Ok ind ->
  Indicators.cloud_top ind = py_max (Indicators.senkou_a ind) (Indicators.senkou_b ind)
  /\ Indicators.cloud_bottom ind = py_min (Indicators.senkou_a ind) (Indicators.senkou_b ind).
Proof.
  intros H. unfold IchimokuIndicator.latest_values in H.
  result_case H. case_bool_decide.
  - injection H as <-. split; reflexivity.
  - do 4 result_case H. injection H as <-. split; reflexivity.
Qed.

(** X14. On one snapshot the two TK crosses never both fire, nor the two chikou
    crosses; the two Kumo breakouts never both fire when the cloud bounds are
    the maximum and minimum of the senkou lines, as in every snapshot of
    [latest_values]. *)
Theorem opposite_signals_exclusive self ind :
  ((_tk_cross_up self ind).1 = true -> (_tk_cross_down self ind).1 = false)
  /\ ((_chikou_cross_up self ind).1 = true -> (_chikou_cross_down self ind).1 = false)
  /\ (Indicators.cloud_top ind
        = py_max (Indicators.senkou_a ind) (Indicators.senkou_b ind) ->
      Indicators.cloud_bottom ind
        = py_min (Indicators.senkou_a ind) (Indicators.senkou_b ind) ->
      (_kumo_breakout_up self ind).1 = true -> (_kumo_breakout_down self ind).1 = false)
  /\ (forall indicator candles,
      IchimokuIndicator.latest_values indicator candles = Ok ind ->
      (_kumo_breakout_up self ind).1 = true -> (_kumo_breakout_down self ind).1 = false).
Proof.
  assert (Hk : Indicators.cloud_top ind
                 = py_max (Indicators.senkou_a ind) (Indicators.senkou_b ind) ->
               Indicators.cloud_bottom ind
                 = py_min (Indicators.senkou_a ind) (Indicators.senkou_b ind) ->
               (_kumo_breakout_up self ind).1 = true ->
               (_kumo_breakout_down self ind).1 = false).
  { intros Ht Hb. unfold _kumo_breakout_up, _kumo_breakout_down. simpl.
    intros E. apply andb_prop in E as [_ E].
    destruct (Indicators.close ind <? Indicators.cloud_bottom ind)%float eqn:E';
      [|apply andb_false_r].
    pose proof (ltb_trans _ _ _ E E') as Hc. rewrite Ht, Hb, py_max_min_order in Hc.
    discriminate. }
  split; [|split; [|split]].
  - unfold _tk_cross_up, _tk_cross_down.
    destruct ((Indicators.prev_tenkan ind <=? Indicators.prev_kijun ind)%float
              && (Indicators.kijun ind <? Indicators.tenkan ind)%float) eqn:E;
      simpl; [|discriminate].
    apply andb_prop in E as [_ E]. rewrite (ltb_asym _ _ E), andb_false_r. reflexivity.
  - unfold _chikou_cross_up, _chikou_cross_down. simpl. intros E.
    apply andb_prop in E as [_ E]. rewrite (ltb_asym _ _ E), andb_false_r. reflexivity.
  - exact Hk.
  - intros indicator candles H. destruct (latest_values_cloud _ _ _ H). auto.
Qed.

(** [reset_cooldowns] gives the detector as constructed with the same
    configuration and enabled set; every enabled rule that fires emits again. *)
Lemma reset_cooldowns_forgets self :
  cfg (reset_cooldowns self) = cfg self
  /\ enabled (reset_cooldowns self) = enabled self
  /\ _last_signal_time (reset_cooldowns self) = ∅
  /\ reset_cooldowns self = init (Some (cfg self)) (Some (enabled self))
  /\ (forall pair timeframe ind now st fn,
        _has_nan ind = false -> (st, fn) ∈ rules ->
        st ∈ enabled self -> (fn self ind).1 = true ->
        exists sig, sig ∈ (check (reset_cooldowns self) pair timeframe ind now).1
                    /\ signal_type sig = st /\ timestamp sig = now).
Proof.
  repeat (split; [reflexivity|]).
  intros pair timeframe ind now st fn Hn Hin He Hf.
  pose proof (emitted_when (reset_cooldowns self) pair timeframe ind now st fn Hn Hin)
    as Hiff.
  destruct (proj2 Hiff) as (sig & Hs & Ht).
  - split; [exact He|]. split; [|reflexivity].
    pose proof rules_cfg_only as Hco. rewrite Forall_forall in Hco.
    pose proof (Hco (st, fn) Hin (reset_cooldowns self) self ind eq_refl) as Hx.
    simpl in Hx. rewrite Hx. exact Hf.
  - exists sig. split; [exact Hs|]. split; [exact Ht|].
    apply (check_timestamps _ _ _ _ _ _ Hs).
Qed.






End detector_more.

Section recheck.
Import SignalDetector.

(** With a positive cooldown, checking the same snapshot a second time at
    the same candle time returns no signal and leaves the registry alone. *)
Lemma recheck_silent self pair timeframe ind now :
  1 <= cooldown_minutes (cfg self) ->
  let self1 := (check self pair timeframe ind now).2 in
  check self1 pair timeframe ind now = ([], self1).
Proof.
  intros Hc self1. destruct (_has_nan ind) eqn:Hn.
  { unfold check. apply check_rules_has_nan, Hn. }
  destruct (check_frame self pair timeframe ind now) as [Hcfg Hen]. fold self1 in Hcfg, Hen.
  rewrite (check_unfold self1) by exact Hn.
  assert (Hnone : emitting self1 pair timeframe ind now rules = []).
  { apply filter_none. intros [st fn] Hin Hem.
    apply emits_true_iff in Hem as (Hst & Hfire & Hoff).
    pose proof rules_cfg_only as Hco. rewrite Forall_forall in Hco.
    specialize (Hco _ Hin self1 self ind Hcfg). simpl in Hco. rewrite Hco in Hfire.
    rewrite Hen in Hst.
    unfold _on_cooldown in Hoff.
    destruct (check_registry self pair timeframe ind now (pair, timeframe, st))
      as [[Hnow _]|[Hsame Hno]]; fold self1 in Hnow || fold self1 in Hsame.
    - rewrite Hnow in Hoff. cbv zeta in Hoff. rewrite Hcfg in Hoff.
      unfold timedelta_minutes in Hoff. lia.
    - destruct (_on_cooldown self pair timeframe st now) eqn:Hon.
      + unfold _on_cooldown in Hon. rewrite Hsame, Hcfg in Hoff. congruence.
      + assert (Hem : emits self pair timeframe ind now (st, fn) = true).
        { apply emits_true_iff. auto. }
        apply (emitted_iff self pair timeframe ind now st fn Hn Hin) in Hem
          as (sig & Hsig & Hty).
        apply (Hno sig Hsig).
        destruct (check_fields self pair timeframe ind now) as (Hf & _).
        destruct (Hf sig Hsig) as (-> & -> & _). rewrite Hty. reflexivity. }
  rewrite Hnone. reflexivity.
Qed.


End recheck.

Lemma crossing_fires_once_witness :
  (SignalDetector._tk_cross_up (SignalDetector.init None None) tk_cross_up_ind).1 = true
  /\ (SignalDetector._tk_cross_up (SignalDetector.init None None) after_tk_cross_up).1 = false.
Proof.
  split; [vm_compute; reflexivity|].
  destruct (crossing_fires_once (SignalDetector.init None None) (SignalDetector.init None None)
              tk_cross_up_ind after_tk_cross_up) as (Hup & _).
  - repeat split; reflexivity.
  - apply Hup. vm_compute. reflexivity.
Defined.



(** ** Engine: what a backtest returns *)

Section engine_more.
Import BacktestEngine.

(** The two ways one replay step can end: nothing checked (buffer not ready,
    or the indicator raised), or the signals of one [check] on the snapshot
    of the window. *)
Lemma replay_step_cases indicator symbol timeframe st row st' :
  replay_step indicator symbol timeframe st row = Ok st' ->
  CandleBuffer.append (st_buffer st) [row] = Ok (st_buffer st')
  /\ ((st_detector st' = st_detector st /\ all_signals st' = all_signals st)
      \/ exists d ind,
           CandleBuffer.is_ready (st_buffer st') = true
           /\ CandleBuffer._data (st_buffer st') = Some d
           /\ IchimokuIndicator.latest_values indicator d = Ok ind
           /\ st_detector st'
              = (SignalDetector.check (st_detector st) symbol timeframe ind (time row)).2
           /\ all_signals st'
              = all_signals st
                ++ (SignalDetector.check (st_detector st) symbol timeframe ind (time row)).1).
Proof.
  unfold replay_step. destruct row as [t o h l c]. simpl.
  destruct (CandleBuffer.append (st_buffer st) _) as [buffer|e] eqn:Ha;
    result_step; [|discriminate].
  destruct (CandleBuffer.is_ready buffer) eqn:Hr; simpl.
  - unfold CandleBuffer.data. destruct (CandleBuffer._data buffer) as [d|] eqn:Hd; result_step.
    + destruct (IchimokuIndicator.latest_values indicator d) as [ind|] eqn:Hlv.
      * destruct (SignalDetector.check (st_detector st) symbol timeframe ind t)
          as [signals det] eqn:Hc.
        intros H. injection H as <-. simpl. split; [reflexivity|]. right.
        exists d, ind. rewrite Hc. auto.
      * intros H. injection H as <-. simpl. auto.
    + intros H. injection H as <-. simpl. auto.
  - intros H. injection H as <-. simpl. auto.
Qed.

(** Replaying two stretches of candles one after the other. *)
Lemma replay_loop_app indicator symbol timeframe rows1 rows2 : forall st,
  replay_loop indicator symbol timeframe (rows1 ++ rows2) st
  = (st1 ← replay_loop indicator symbol timeframe rows1 st;
     replay_loop indicator symbol timeframe rows2 st1).
Proof.
  induction rows1 as [|row rows1 IH]; intros st; [reflexivity|].
  simpl. destruct (replay_step indicator symbol timeframe st row); result_step;
    [apply IH | reflexivity].
Qed.

(** With a chikou shift of at least one the replay loop adds no signal and
    leaves the detector alone. *)
Lemma replay_loop_no_signal indicator symbol timeframe rows : forall st st',
  1 <= IchimokuIndicator.chikou_shift (IchimokuIndicator.cfg indicator) ->
  replay_loop indicator symbol timeframe rows st = Ok st' ->
  all_signals st' = all_signals st /\ st_detector st' = st_detector st.
Proof.
  induction rows as [|row rows IH]; intros st st' Hcs H.
  - simpl in H. injection H as <-. auto.
  - cbn [replay_loop] in H.
    destruct (replay_step indicator symbol timeframe st row) as [st1|] eqn:Hs;
      result_step; [|discriminate].
    destruct (IH st1 st' Hcs H) as [-> ->].
    apply replay_step_cases in Hs as [_ [[-> ->]|(d & ind & _ & _ & Hlv & -> & ->)]]; [auto|].
    destruct (snapshot_chikou_nan indicator d ind Hcs Hlv) as (_ & _ & Hck).
    rewrite Hck. simpl. rewrite app_nil_r. auto.
Qed.

(** X18. With a chikou shift of at least one (the default is 26), a backtest
    returns no signal: whatever [run] returns is the empty list, and it does
    return it when there are more candles than the warm-up and the buffer size
    is at least 78. *)
Theorem shifted_chikou_silences_backtest self symbol timeframe candles enabled_signals :
  1 <= IchimokuIndicator.chikou_shift (ichimoku (cfg self)) ->
  (forall sigs, run self symbol timeframe candles enabled_signals = Ok sigs -> sigs = [])
  /\ (warmup_candles (cfg self) < Z.of_nat (length candles) ->
      CandleBuffer.DEFAULT_MIN <= buffer_size (cfg self) ->
      run self symbol timeframe candles enabled_signals = Ok []).
Proof.
  intros Hcs.
  assert (Hnone : forall sigs,
            run self symbol timeframe candles enabled_signals = Ok sigs -> sigs = []).
  { intros sigs Hrun. unfold run in Hrun.
    destruct (Z.of_nat (length candles) <=? warmup_candles (cfg self)); [discriminate|].
    destruct (start self candles enabled_signals) as [st0|] eqn:Hs; result_step; [|discriminate].
    destruct (replay_loop _ _ _ _ st0) as [st|] eqn:Hl; result_step; [|discriminate].
    injection Hrun as <-.
    apply replay_loop_no_signal in Hl as [-> _]; [|exact Hcs].
    apply start_spec in Hs as (_ & _ & Hnil & _). exact Hnil. }
  split; [exact Hnone|].
  intros Hw Hb. destruct (run_total self symbol timeframe candles enabled_signals Hw Hb)
    as [sigs Hr]. rewrite Hr. f_equal. apply Hnone, Hr.
Qed.

(** *** Signals come out grouped by candle *)

(** The replay loop adds one group of signals per candle, in order. *)
Lemma replay_loop_groups indicator symbol timeframe rows : forall st st',
  replay_loop indicator symbol timeframe rows st = Ok st' ->
  SignalDetector.cfg (st_detector st') = SignalDetector.cfg (st_detector st)
  /\ SignalDetector.enabled (st_detector st') = SignalDetector.enabled (st_detector st)
  /\ exists groups,
       all_signals st' = all_signals st ++ concat groups
       /\ Forall2 (candle_group symbol timeframe (SignalDetector.enabled (st_detector st)))
            rows groups.
Proof.
  induction rows as [|row rows IH]; intros st st' H.
  - simpl in H. injection H as <-. split; [reflexivity|]. split; [reflexivity|].
    exists []. simpl. rewrite app_nil_r. split; [reflexivity|constructor].
  - cbn [replay_loop] in H.
    destruct (replay_step indicator symbol timeframe st row) as [st1|] eqn:Hs;
      result_step; [|discriminate].
    destruct (IH st1 st' H) as (Hc & He & groups & Hsig & Hg).
    apply replay_step_cases in Hs as [_ [[Hd Ha]|(d & ind & _ & _ & _ & Hd & Ha)]].
    + rewrite Hd in *. split; [exact Hc|]. split; [exact He|].
      exists ([] :: groups). simpl. rewrite Hsig, Ha. split; [reflexivity|].
      constructor; [|exact Hg].
      split; [intros sig Hin; apply elem_of_nil in Hin as []|].
      split; [constructor|simpl; lia].
    + destruct (check_frame (st_detector st) symbol timeframe ind (time row)) as [Hc1 He1].
      rewrite <- Hd in Hc1, He1.
      split; [congruence|]. split; [congruence|].
      set (g := (SignalDetector.check (st_detector st) symbol timeframe ind (time row)).1) in *.
      exists (g :: groups). simpl. rewrite Hsig, Ha, <- app_assoc. split; [reflexivity|].
      constructor; [|rewrite <- He1; exact Hg].
      destruct (check_fields (st_detector st) symbol timeframe ind (time row))
        as (Hf & Hnd & _ & Hlen).
      split; [|split; [exact Hnd|exact Hlen]].
      intros sig Hin. destruct (Hf sig Hin) as (? & ? & ? & _ & ? & _). auto.
Qed.

(** Signals grouped by candle carry the times of their candles; over candles in
    ascending time the timestamps ascend. *)
Lemma groups_sorted symbol timeframe en rows : forall groups,
  Forall2 (candle_group symbol timeframe en) rows groups ->
  (forall sig, sig ∈ concat groups ->
     exists row, row ∈ rows /\ SignalDetector.timestamp sig = time row)
  /\ (StronglySorted Z.le (time <$> rows) ->
      StronglySorted Z.le (SignalDetector.timestamp <$> concat groups)).
Proof.
  induction rows as [|row rows IH]; intros groups Hg.
  - inversion Hg; subst. simpl. split; [|constructor].
    intros sig H. apply elem_of_nil in H as [].
  - inversion Hg as [|? g ? gs [Hf _] Hgs]; subst. destruct (IH gs Hgs) as [Hin Hs].
    split.
    + intros sig H. simpl in H. apply elem_of_app in H as [H|H].
      * exists row. split; [left|]. apply Hf in H as (_ & _ & H & _). exact H.
      * destruct (Hin sig H) as (r & Hr & Ht). exists r. split; [right; exact Hr|exact Ht].
    + intros Hsort. simpl in Hsort. apply StronglySorted_inv in Hsort as [Hsort Hall].
      simpl. rewrite fmap_app.
      assert (Hge : Forall (Z.le (time row)) (SignalDetector.timestamp <$> concat gs)).
      { apply Forall_forall. intros t Ht. apply list_elem_of_fmap in Ht as (sig & -> & Ht).
        destruct (Hin sig Ht) as (r & Hr & ->).
        rewrite Forall_forall in Hall. apply Hall. apply list_elem_of_fmap. eauto. }
      assert (Hgs' : forall sig, sig ∈ g -> SignalDetector.timestamp sig = time row).
      { intros sig H. apply Hf in H as (_ & _ & H & _). exact H. }
      clear Hf Hg. induction g as [|s g IHg]; simpl; [apply Hs, Hsort|].
      constructor.
      * apply IHg. intros sig H. apply Hgs'. right. exact H.
      * rewrite (Hgs' s) by left. apply Forall_app. split; [|exact Hge].
        apply Forall_forall. intros t Ht. apply list_elem_of_fmap in Ht as (sig & -> & Ht).
        rewrite (Hgs' sig) by (right; exact Ht). lia.
Qed.

(** The signals of [run], grouped by replay candle. *)
Lemma run_groups self symbol timeframe candles enabled_signals sigs :
  run self symbol timeframe candles enabled_signals = Ok sigs ->
  let replay_candles := iloc_from (warmup_candles (cfg self)) candles in
  (exists groups,
     sigs = concat groups
     /\ Forall2 (candle_group symbol timeframe
                   (default SignalDetector.ALL_SIGNALS enabled_signals))
          replay_candles groups)
  /\ (forall sig, sig ∈ sigs ->
        SignalDetector.pair sig = symbol /\ SignalDetector.timeframe sig = timeframe
        /\ SignalDetector.signal_type sig ∈ default SignalDetector.ALL_SIGNALS enabled_signals
        /\ exists row, row ∈ replay_candles /\ SignalDetector.timestamp sig = time row)
  /\ (length sigs <= 6 * length replay_candles)%nat
  /\ (StronglySorted Z.le (time <$> replay_candles) ->
      StronglySorted Z.le (SignalDetector.timestamp <$> sigs)).
Proof.
  intros Hrun replay_candles. unfold run in Hrun.
  destruct (Z.of_nat (length candles) <=? warmup_candles (cfg self)); [discriminate|].
  destruct (start self candles enabled_signals) as [st0|] eqn:Hs; result_step; [|discriminate].
  destruct (replay_loop _ _ _ _ st0) as [st|] eqn:Hl; result_step; [|discriminate].
  injection Hrun as <-.
  apply replay_loop_groups in Hl as (_ & _ & groups & Hsig & Hg).
  assert (Hen : SignalDetector.enabled (st_detector st0)
                = default SignalDetector.ALL_SIGNALS enabled_signals).
  { unfold start in Hs. destruct (CandleBuffer.init _ _); result_step; [|discriminate].
    injection Hs as <-. reflexivity. }
  apply start_spec in Hs as (_ & _ & Hnil & _). rewrite Hnil in Hsig. simpl in Hsig.
  rewrite Hen in Hg. fold replay_candles in Hg.
  destruct (groups_sorted _ _ _ _ _ Hg) as [Hin Hsort].
  split; [eauto|]. split; [|split].
  - intros sig H. rewrite Hsig in H. destruct (Hin sig H) as (row & Hr & Ht).
    assert (Hf : exists g, g ∈ groups /\ sig ∈ g).
    { apply list_elem_of_In, in_concat in H as (g & H1 & H2).
      exists g. rewrite !list_elem_of_In. auto. }
    destruct Hf as (g & Hgin & Hsg).
    apply list_elem_of_lookup in Hgin as [i Hi].
    destruct (Forall2_lookup_r _ _ _ _ _ Hg Hi) as (r & _ & Hgr & _).
    destruct (Hgr sig Hsg) as (? & ? & _ & ?). eauto 6.
  - rewrite Hsig. clear -Hg. induction Hg as [|r g rs gs (_ & _ & Hlen) _ IH]; simpl; [lia|].
    rewrite length_app. lia.
  - rewrite Hsig. exact Hsort.
Qed.

(** X19. The list [run] returns is made of one group per replay candle, in
    replay order: the signals of a group carry the symbol, the timeframe and the
    time of their candle and an enabled type, no type twice, at most six; so
    there are at most six signals per replay candle, and over replay candles in
    ascending time the timestamps ascend. *)
Theorem backtest_signals_grouped_by_candle self symbol timeframe candles enabled_signals sigs :
  run self symbol timeframe candles enabled_signals = Ok sigs ->
  let replay_candles := iloc_from (warmup_candles (cfg self)) candles in
  (exists groups,
     sigs = concat groups
     /\ Forall2 (candle_group symbol timeframe
                   (default SignalDetector.ALL_SIGNALS enabled_signals))
          replay_candles groups)
  /\ (forall sig, sig ∈ sigs ->
        SignalDetector.pair sig = symbol /\ SignalDetector.timeframe sig = timeframe
        /\ SignalDetector.signal_type sig ∈ default SignalDetector.ALL_SIGNALS enabled_signals
        /\ exists row, row ∈ replay_candles /\ SignalDetector.timestamp sig = time row)
  /\ (length sigs <= 6 * length replay_candles)%nat
  /\ (StronglySorted Z.le (time <$> replay_candles) ->
      StronglySorted Z.le (SignalDetector.timestamp <$> sigs)).
Proof. apply run_groups. Qed.

End engine_more.

Lemma shifted_chikou_silences_backtest_witness :
  BacktestEngine.run (BacktestEngine.init None) "EURUSD" "H1" (make_ohlc 101) None = Ok [].
Proof.
  destruct (shifted_chikou_silences_backtest (BacktestEngine.init None) "EURUSD" "H1"
              (make_ohlc 101) None) as [_ Hok].
  - vm_compute. discriminate.
  - apply Hok; vm_compute; first [reflexivity | discriminate].
Defined.

Lemma backtest_signals_grouped_by_candle_witness :
  exists sigs,
    BacktestEngine.run (BacktestEngine.mk fast_config) "EURUSD" "H1" (make_ohlc 85) None
    = Ok sigs
    /\ length sigs = 7%nat
    /\ StronglySorted Z.le (SignalDetector.timestamp <$> sigs)
    /\ forall sig, sig ∈ sigs ->
         SignalDetector.pair sig = "EURUSD" /\ SignalDetector.timeframe sig = "H1".
Proof.
  destruct (BacktestEngine.run (BacktestEngine.mk fast_config) "EURUSD" "H1"
              (make_ohlc 85) None) as [sigs|] eqn:Hr; [|vm_compute in Hr; discriminate].
  exists sigs. split; [reflexivity|].
  destruct (backtest_signals_grouped_by_candle (BacktestEngine.mk fast_config)
              "EURUSD" "H1" (make_ohlc 85) None sigs Hr) as (_ & Hf & _ & Hs).
  split; [vm_compute in Hr; injection Hr as <-; reflexivity|]. split.
  - apply Hs. apply (bool_decide_unpack _). vm_compute. exact I.
  - intros sig Hin. destruct (Hf sig Hin) as (? & ? & _). auto.
Defined.

(** ** Engine: cooldown between the signals of a run *)

Section cooldown_spacing.
Import BacktestEngine.

(** Adding a time at the end keeps the spacing when it is far enough from the
    last one. *)
Lemma spaced_snoc c ts x :
  spaced c ts -> (forall y, last ts = Some y -> c <= x - y) -> spaced c (ts ++ [x]).
Proof.
  intros Hs Hl i a b Ha Hb.
  destruct (decide (S i < length ts)%nat) as [Hlt|Hge].
  - rewrite lookup_app_l in Ha by lia. rewrite lookup_app_l in Hb by lia. eauto.
  - assert (Hi : S i = length ts).
    { apply lookup_lt_Some in Hb. rewrite length_app in Hb. simpl in Hb. lia. }
    rewrite lookup_app_l in Ha by lia.
    rewrite lookup_app_r in Hb by lia. rewrite Hi, Nat.sub_diag in Hb. simpl in Hb.
    injection Hb as <-. apply Hl. rewrite last_lookup.
    replace (pred (length ts)) with i by lia. exact Ha.
Qed.

(** With a spacing of zero or more, any two entries are that far apart. *)
Lemma spaced_far c ts :
  0 <= c -> spaced c ts ->
  forall j i a b, (i < j)%nat -> ts !! i = Some a -> ts !! j = Some b -> c <= b - a.
Proof.
  intros Hc Hs. induction j as [|j IH]; intros i a b Hij Ha Hb; [lia|].
  destruct (decide (i = j)) as [->|Hne]; [eauto|].
  destruct (ts !! j) as [m|] eqn:Hm.
  - pose proof (IH i a m ltac:(lia) Ha eq_refl). pose proof (Hs j m b Hm Hb). lia.
  - apply lookup_ge_None in Hm. apply lookup_lt_Some in Hb. lia.
Qed.

(** Among elements with distinct images at most one has a given image. *)
Lemma filter_unique {A B} `{EqDecision B} (f : A -> B) (b : B) (l : list A) :
  NoDup (f <$> l) ->
  filter (fun x => f x = b) l = []
  \/ exists x, filter (fun x => f x = b) l = [x] /\ x ∈ l /\ f x = b.
Proof.
  induction l as [|x l IH]; intros Hnd; [left; reflexivity|].
  simpl in Hnd. apply NoDup_cons in Hnd as [Hx Hnd].
  rewrite filter_cons. destruct (decide (f x = b)) as [Hfx|Hfx].
  - right. exists x. split; [|split; [left|exact Hfx]].
    f_equal. apply filter_none. intros y Hy Hfy. apply Hx.
    apply list_elem_of_fmap. exists y. split; [congruence|exact Hy].
  - destruct (IH Hnd) as [H|(y & H & Hy & Hfy)]; [left; exact H|].
    right. exists y. split; [exact H|]. split; [right; exact Hy|exact Hfy].
Qed.

(** A signal [check] returns was not on cooldown. *)
Lemma check_emitted_off_cooldown self pair timeframe ind now sig :
  sig ∈ (SignalDetector.check self pair timeframe ind now).1 ->
  SignalDetector._on_cooldown self pair timeframe (SignalDetector.signal_type sig) now = false.
Proof.
  intros Hin. destruct (SignalDetector._has_nan ind) eqn:Hn.
  - unfold SignalDetector.check in Hin. rewrite check_rules_has_nan in Hin by exact Hn.
    apply elem_of_nil in Hin as [].
  - destruct (check_fields self pair timeframe ind now) as (Hf & _).
    destruct (Hf sig Hin) as (_ & _ & _ & _ & _ & Hr & _).
    apply list_elem_of_fmap in Hr as ([st fn] & Hst & Hr). simpl in Hst.
    destruct (emitted_when self pair timeframe ind now st fn Hn Hr) as [Hiff _].
    rewrite Hst.
    apply Hiff. exists sig. split; [exact Hin|exact Hst].
Qed.

(** One [check] keeps the registry entry of a type equal to the time of the
    last signal of that type, and keeps successive signals of the type a
    cooldown apart. *)
Lemma check_spacing self pair timeframe ind now old ty :
  let c := timedelta_minutes (SignalDetector.cooldown_minutes (SignalDetector.cfg self)) in
  let sigs := (SignalDetector.check self pair timeframe ind now).1 in
  let self' := (SignalDetector.check self pair timeframe ind now).2 in
  SignalDetector._last_signal_time self !! (pair, timeframe, ty) = last (times_of_type ty old) ->
  spaced c (times_of_type ty old) ->
  SignalDetector._last_signal_time self' !! (pair, timeframe, ty)
  = last (times_of_type ty (old ++ sigs))
  /\ spaced c (times_of_type ty (old ++ sigs)).
Proof.
  intros c sigs self' Hreg Hsp. subst sigs self'.
  destruct (check_fields self pair timeframe ind now) as (Hf & Hnd & _).
  set (sigs := (SignalDetector.check self pair timeframe ind now).1) in *.
  unfold times_of_type. rewrite filter_app, fmap_app.
  destruct (check_registry self pair timeframe ind now (pair, timeframe, ty))
    as [[Hnow (sig & Hin & Hkey)]|[Hsame Hno]].
  - destruct (filter_unique SignalDetector.signal_type ty sigs Hnd)
      as [Hnil|(x & Hx & Hxin & Hxty)].
    + exfalso. assert (Hsf : sig ∈ filter (fun s => SignalDetector.signal_type s = ty) sigs).
      { apply list_elem_of_filter. split; [congruence|exact Hin]. }
      rewrite Hnil in Hsf. apply elem_of_nil in Hsf as [].
    + rewrite Hx. simpl. rewrite last_snoc.
      destruct (Hf x Hxin) as (_ & _ & Hts & _). rewrite Hts.
      split; [exact Hnow|]. apply spaced_snoc; [exact Hsp|].
      intros y Hy. fold (times_of_type ty old) in Hy. rewrite <- Hreg in Hy.
      pose proof (check_emitted_off_cooldown self pair timeframe ind now x Hxin) as Hoff.
      rewrite Hxty in Hoff. unfold SignalDetector._on_cooldown in Hoff.
      rewrite Hy in Hoff. cbv zeta in Hoff. fold c in Hoff. lia.
  - destruct (filter_unique SignalDetector.signal_type ty sigs Hnd)
      as [Hnil|(x & Hx & Hxin & Hxty)].
    + rewrite Hnil. simpl. rewrite app_nil_r. split; [rewrite Hsame, Hreg; reflexivity|exact Hsp].
    + exfalso. apply (Hno x Hxin).
      destruct (Hf x Hxin) as (-> & -> & _). rewrite Hxty. reflexivity.
Qed.

(** The replay loop keeps the signals of a type a cooldown apart, when the
    registry entry of the type is the time of its last signal. *)
Lemma replay_loop_spacing indicator symbol timeframe ty rows : forall st st',
  let c := timedelta_minutes
             (SignalDetector.cooldown_minutes (SignalDetector.cfg (st_detector st))) in
  replay_loop indicator symbol timeframe rows st = Ok st' ->
  SignalDetector._last_signal_time (st_detector st) !! (symbol, timeframe, ty)
  = last (times_of_type ty (all_signals st)) ->
  spaced c (times_of_type ty (all_signals st)) ->
  spaced c (times_of_type ty (all_signals st')).
Proof.
  induction rows as [|row rows IH]; intros st st' c H Hreg Hsp.
  - simpl in H. injection H as <-. exact Hsp.
  - cbn [replay_loop] in H.
    destruct (replay_step indicator symbol timeframe st row) as [st1|] eqn:Hs;
      result_step; [|discriminate].
    apply replay_step_cases in Hs as [_ [[Hd Ha]|(d & ind & _ & _ & _ & Hd & Ha)]].
    + specialize (IH st1 st' H). rewrite Hd, Ha in IH. apply IH; assumption.
    + destruct (check_spacing (st_detector st) symbol timeframe ind (time row)
                  (all_signals st) ty Hreg Hsp) as [Hreg' Hsp'].
      destruct (check_frame (st_detector st) symbol timeframe ind (time row)) as [Hc1 _].
      specialize (IH st1 st' H). rewrite Hd, Ha, Hc1 in IH. apply IH; assumption.
Qed.

(** X20. In the list [run] returns, two successive signals of the same type are
    at least the cooldown apart; with a cooldown of zero or more this holds for
    any two signals of the same type. *)
Theorem backtest_respects_cooldown self symbol timeframe candles enabled_signals sigs ty :
  run self symbol timeframe candles enabled_signals = Ok sigs ->
  let c := timedelta_minutes (SignalDetector.cooldown_minutes (detector (cfg self))) in
  (forall i a b,
     times_of_type ty sigs !! i = Some a -> times_of_type ty sigs !! S i = Some b ->
     c <= b - a)
  /\ (0 <= SignalDetector.cooldown_minutes (detector (cfg self)) ->
      forall i j a b, (i < j)%nat ->
        times_of_type ty sigs !! i = Some a -> times_of_type ty sigs !! j = Some b ->
        c <= b - a).
Proof.
  intros Hrun c. unfold run in Hrun.
  destruct (Z.of_nat (length candles) <=? warmup_candles (cfg self)); [discriminate|].
  destruct (start self candles enabled_signals) as [st0|] eqn:Hs; result_step; [|discriminate].
  destruct (replay_loop _ _ _ _ st0) as [st|] eqn:Hl; result_step; [|discriminate].
  injection Hrun as <-.
  assert (Hcfg : SignalDetector.cfg (st_detector st0) = detector (cfg self)).
  { unfold start in Hs. destruct (CandleBuffer.init _ _); result_step; [|discriminate].
    injection Hs as <-. reflexivity. }
  apply start_spec in Hs as (_ & _ & Hnil & Hreg & _).
  assert (Hsp : spaced c (times_of_type ty (all_signals st))).
  { pose proof (replay_loop_spacing _ _ _ ty _ _ _ Hl) as H.
    rewrite Hcfg, Hnil, Hreg in H. apply H; [reflexivity|].
    intros i a b Ha. discriminate Ha. }
  split; [exact Hsp|]. intros Hc i j a b. apply spaced_far; [|exact Hsp].
  unfold c, timedelta_minutes. lia.
Qed.

End cooldown_spacing.

Lemma backtest_respects_cooldown_witness :
  exists sigs,
    BacktestEngine.run (BacktestEngine.mk paced_config) "EURUSD" "H1" (make_ohlc 85) None
    = Ok sigs
    /\ times_of_type "chikou_cross_up" sigs = [78 * hour; 80 * hour; 82 * hour; 84 * hour]
    /\ forall i a b,
         times_of_type "chikou_cross_up" sigs !! i = Some a ->
         times_of_type "chikou_cross_up" sigs !! S i = Some b ->
         timedelta_minutes 120 <= b - a.
Proof.
  destruct (BacktestEngine.run (BacktestEngine.mk paced_config) "EURUSD" "H1"
              (make_ohlc 85) None) as [sigs|] eqn:Hr; [|vm_compute in Hr; discriminate].
  exists sigs. split; [reflexivity|].
  split; [vm_compute in Hr; injection Hr as <-; vm_compute; reflexivity|].
  destruct (backtest_respects_cooldown (BacktestEngine.mk paced_config)
              "EURUSD" "H1" (make_ohlc 85) None sigs "chikou_cross_up" Hr) as [Hadj _].
  exact Hadj.
Defined.

(** ** Engine: runs over short histories *)

Section history.
Import BacktestEngine.

Lemma prepare_length df : (length (CandleBuffer._prepare df) <= length df)%nat.
Proof.
  unfold CandleBuffer._prepare.
  rewrite sort_index_Permutation. unfold CandleBuffer.dropna. apply length_filter.
Qed.

Lemma df_tail_length_le {A} n (l : list A) : (length (df_tail n l) <= length l)%nat.
Proof. destruct (df_tail_drop n l) as [k ->]. rewrite length_drop. lia. Qed.

(** [append] adds at most as many rows as the batch has. *)
Lemma append_length self df self' :
  CandleBuffer.append self df = Ok self' ->
  exists d d', CandleBuffer._data self = Some d /\ CandleBuffer._data self' = Some d'
    /\ (length d' <= length d + length df)%nat.
Proof.
  intros H. destruct (CandleBuffer._data self) as [d|] eqn:Hd;
    [|unfold CandleBuffer.append in H; rewrite Hd in H; discriminate].
  destruct (append_result self df d Hd) as (s & Hs & _ & _ & [[_ Heq]|[_ Hd']]).
  - assert (self = self') as <- by congruence. exists d, d. split; [reflexivity|].
    split; [exact Hd|lia].
  - assert (s = self') as <- by congruence.
    exists d, (df_tail (CandleBuffer._max_size self) (d ++ new_rows d df)).
    split; [reflexivity|]. split; [exact Hd'|].
    pose proof (df_tail_length_le (CandleBuffer._max_size self) (d ++ new_rows d df)) as Hl.
    rewrite length_app in Hl. unfold new_rows, CandleBuffer.not_isin in Hl.
    pose proof (length_filter (fun c : Candle => time c ∉ index d) (CandleBuffer._prepare df)).
    pose proof (prepare_length df). unfold new_rows, CandleBuffer.not_isin. lia.
Qed.

(** The replay loop adds no signal while the window is below the minimum or
    below [senkou_b_period + displacement]. *)
Lemma replay_loop_short indicator symbol timeframe (total : Z) rows : forall st st' d,
  let sbp := IchimokuIndicator.senkou_b_period (IchimokuIndicator.cfg indicator) in
  let disp := IchimokuIndicator.displacement (IchimokuIndicator.cfg indicator) in
  replay_loop indicator symbol timeframe rows st = Ok st' ->
  CandleBuffer._data (st_buffer st) = Some d ->
  0 <= CandleBuffer._max_size (st_buffer st) ->
  Z.of_nat (length d) <= CandleBuffer._max_size (st_buffer st) ->
  Z.of_nat (length d) + Z.of_nat (length rows) <= total ->
  total < CandleBuffer._min (st_buffer st)
  \/ (1 <= sbp /\ 0 <= disp
      /\ (total < sbp + disp \/ CandleBuffer._max_size (st_buffer st) < sbp + disp)) ->
  all_signals st' = all_signals st.
Proof.
  induction rows as [|row rows IH]; intros st st' d sbp disp H Hd Hmax Hlen Htot Hshort.
  - simpl in H. injection H as <-. reflexivity.
  - cbn [replay_loop] in H.
    destruct (replay_step indicator symbol timeframe st row) as [st1|] eqn:Hs;
      result_step; [|discriminate].
    apply replay_step_cases in Hs as [Happ Hcase].
    destruct (append_length _ _ _ Happ) as (d0 & d1 & Hd0 & Hd1 & Hl1).
    assert (d0 = d) as -> by congruence.
    apply append_data in Happ as (Hmx & Hmn & d0' & d1' & Hd0' & Hd1' & _ & Hfit).
    assert (d0' = d) as -> by congruence. assert (d1' = d1) as -> by congruence.
    specialize (Hfit Hmax Hlen). simpl in Hl1, Htot.
    assert (Hst1 : all_signals st1 = all_signals st).
    { destruct Hcase as [[_ Ha]|(d2 & ind & Hr & Hd2 & Hlv & _ & Ha)]; [exact Ha|].
      assert (d2 = d1) as -> by congruence.
      destruct Hshort as [Hm|(H1 & H2 & Hs)].
      - exfalso. unfold CandleBuffer.is_ready in Hr. rewrite Hd1 in Hr.
        apply bool_decide_eq_true in Hr. lia.
      - destruct (short_history_nan indicator d1 ind H1 H2) as [_ Hck];
          [fold sbp disp; lia|exact Hlv|].
        rewrite Hck in Ha. simpl in Ha. rewrite app_nil_r in Ha. exact Ha. }
    rewrite <- Hst1. apply (IH st1 st' d1); try assumption; lia.
Qed.

(** X21. A backtest over fewer than 78 candles returns no signal; nor does one,
    for a Senkou B period of at least one and a displacement of at least zero,
    over fewer candles than [senkou_b_period + displacement] or with a buffer
    smaller than that. *)
Theorem backtest_needs_enough_history self symbol timeframe candles enabled_signals sigs :
  let sbp := IchimokuIndicator.senkou_b_period (ichimoku (cfg self)) in
  let disp := IchimokuIndicator.displacement (ichimoku (cfg self)) in
  run self symbol timeframe candles enabled_signals = Ok sigs ->
  Z.of_nat (length candles) < CandleBuffer.DEFAULT_MIN
  \/ (1 <= sbp /\ 0 <= disp
      /\ (Z.of_nat (length candles) < sbp + disp \/ buffer_size (cfg self) < sbp + disp)) ->
  sigs = [].
Proof.
  intros sbp disp Hrun Hshort. unfold run in Hrun.
  destruct (Z.of_nat (length candles) <=? warmup_candles (cfg self)); [discriminate|].
  destruct (start self candles enabled_signals) as [st0|] eqn:Hs; result_step; [|discriminate].
  destruct (replay_loop _ _ _ _ st0) as [st|] eqn:Hl; result_step; [|discriminate].
  injection Hrun as <-.
  unfold start, CandleBuffer.init in Hs.
  destruct (buffer_size (cfg self) <? CandleBuffer.DEFAULT_MIN) eqn:E;
    result_step; [discriminate|].
  injection Hs as <-.
  assert (Hmin : CandleBuffer.DEFAULT_MIN <= buffer_size (cfg self)) by lia.
  assert (H78 : CandleBuffer.DEFAULT_MIN = 78) by reflexivity.
  eapply (replay_loop_short _ _ _ (Z.of_nat (length candles))) in Hl;
    [exact Hl|reflexivity|simpl; lia| | |exact Hshort].
  - simpl. apply df_tail_length. lia.
  - simpl.
    pose proof (df_tail_length_le (buffer_size (cfg self))
      (CandleBuffer._prepare (iloc_to (warmup_candles (cfg self)) candles))).
    pose proof (prepare_length (iloc_to (warmup_candles (cfg self)) candles)).
    assert (length (iloc_to (warmup_candles (cfg self)) candles)
            + length (iloc_from (warmup_candles (cfg self)) candles)
            = length candles)%nat.
    { unfold iloc_to, iloc_from. rewrite <- length_app, take_drop. reflexivity. }
    lia.
Qed.

End history.

Lemma backtest_needs_enough_history_witness :
  BacktestEngine.run (BacktestEngine.mk hasty_config) "EURUSD" "H1" (make_ohlc 77) None
  = Ok [].
Proof.
  destruct (BacktestEngine.run (BacktestEngine.mk hasty_config) "EURUSD" "H1"
              (make_ohlc 77) None) as [sigs|] eqn:Hr; [|vm_compute in Hr; discriminate].
  f_equal.
  apply (backtest_needs_enough_history (BacktestEngine.mk hasty_config) "EURUSD" "H1"
           (make_ohlc 77) None sigs Hr).
  left. vm_compute. reflexivity.
Defined.

(** ** Report *)

Section report.
Import BacktestReport.

Lemma insert_by_Permutation {A} (key : A -> Z) x l : insert_by key x l ≡ₚ x :: l.
Proof.
  induction l as [|y l IH]; simpl; [reflexivity|].
  destruct (key x <=? key y); [reflexivity|]. rewrite IH. apply Permutation_swap.
Qed.

(** [sorted] permutes its argument. *)
Lemma sorted_Permutation {A} (key : A -> Z) l : sorted key l ≡ₚ l.
Proof.
  induction l as [|x l IH]; simpl; [reflexivity|].
  rewrite insert_by_Permutation, IH. reflexivity.
Qed.

Lemma insert_by_sorted {A} (key : A -> Z) x l :
  StronglySorted Z.le (key <$> l) -> StronglySorted Z.le (key <$> insert_by key x l).
Proof.
  induction l as [|y l IH]; simpl; intros Hs; [repeat constructor|].
  apply StronglySorted_inv in Hs as [Hs Hall].
  destruct (Z.leb_spec (key x) (key y)) as [Hle|Hgt]; simpl.
  - constructor; [constructor; assumption|]. constructor; [exact Hle|].
    eapply Forall_impl; [exact Hall|]. intros z Hz. simpl in Hz. lia.
  - constructor; [apply IH, Hs|].
    apply Forall_forall. intros z Hz. apply list_elem_of_fmap in Hz as (w & -> & Hw).
    rewrite insert_by_Permutation in Hw. apply elem_of_cons in Hw as [->|Hw]; [lia|].
    rewrite Forall_forall in Hall. apply Hall. apply list_elem_of_fmap. eauto.
Qed.

(** The result of [sorted] ascends by key. *)
Lemma sorted_sorted {A} (key : A -> Z) l : StronglySorted Z.le (key <$> sorted key l).
Proof.
  induction l as [|x l IH]; simpl; [constructor|]. apply insert_by_sorted, IH.
Qed.

Lemma insert_by_head {A} (key : A -> Z) x l :
  Forall (fun y => key x <= key y) l -> insert_by key x l = x :: l.
Proof.
  destruct l as [|y l]; [reflexivity|]. intros H. apply Forall_cons in H as [H _].
  simpl. destruct (Z.leb_spec (key x) (key y)); [reflexivity|lia].
Qed.

(** [sorted] leaves a list that ascends by key as it is. *)
Lemma sorted_id {A} (key : A -> Z) l :
  StronglySorted Z.le (key <$> l) -> sorted key l = l.
Proof.
  induction l as [|x l IH]; simpl; intros Hs; [reflexivity|].
  apply StronglySorted_inv in Hs as [Hs Hall]. rewrite IH by exact Hs.
  apply insert_by_head. apply Forall_forall. intros y Hy.
  rewrite Forall_forall in Hall. apply Hall. apply list_elem_of_fmap. eauto.
Qed.

Lemma insert_by_filter {A} (key : A -> Z) x l t :
  StronglySorted Z.le (key <$> l) ->
  filter (fun y => key y = t) (insert_by key x l) = filter (fun y => key y = t) (x :: l).
Proof.
  induction l as [|y l IH]; simpl; intros Hs; [reflexivity|].
  apply StronglySorted_inv in Hs as [Hs Hall].
  destruct (Z.leb_spec (key x) (key y)) as [Hle|Hgt]; [reflexivity|].
  rewrite filter_cons, IH by exact Hs. rewrite !filter_cons.
  destruct (decide (key y = t)) as [Hy|Hy], (decide (key x = t)) as [Hx|Hx];
    try reflexivity. lia.
Qed.

(** [sorted] keeps the order among the elements of one key. *)
Lemma sorted_filter {A} (key : A -> Z) l t :
  filter (fun y => key y = t) (sorted key l) = filter (fun y => key y = t) l.
Proof.
  induction l as [|x l IH]; simpl; [reflexivity|].
  rewrite insert_by_filter by apply sorted_sorted. rewrite !filter_cons, IH. reflexivity.
Qed.

(** X22. The rows of [signals_as_dataframe] are the rows of the signals in
    ascending order of timestamp, one per signal, signals with the same
    timestamp in the order of [all_signals]; when [all_signals] already ascends,
    the rows are in its order. *)
Theorem report_rows_sorted_stably self :
  let sigs := sorted SignalDetector.timestamp (all_signals self) in
  signals_as_dataframe self = row_of <$> sigs
  /\ length (signals_as_dataframe self) = length (all_signals self)
  /\ sigs ≡ₚ all_signals self
  /\ StronglySorted Z.le (SignalDetector.timestamp <$> sigs)
  /\ (forall t, filter (fun s => SignalDetector.timestamp s = t) sigs
               = filter (fun s => SignalDetector.timestamp s = t) (all_signals self))
  /\ (StronglySorted Z.le (SignalDetector.timestamp <$> all_signals self) ->
      signals_as_dataframe self = row_of <$> all_signals self).
Proof.
  intros sigs.
  assert (Hdf : signals_as_dataframe self = row_of <$> sigs).
  { unfold signals_as_dataframe, sigs. destruct (all_signals self); reflexivity. }
  split; [exact Hdf|]. split.
  { rewrite Hdf, length_fmap. unfold sigs. rewrite sorted_Permutation. reflexivity. }
  split; [apply sorted_Permutation|]. split; [apply sorted_sorted|].
  split; [intros t; apply sorted_filter|].
  intros Hs. rewrite Hdf. unfold sigs. rewrite sorted_id by exact Hs. reflexivity.
Qed.

(** What [extend_at] does to the entries, the keys and the flat list. *)
Lemma extend_at_spec key signals results :
  results_at key (extend_at key signals results)
    = Some (default [] (results_at key results) ++ signals)
  /\ (forall key', key' <> key ->
        results_at key' (extend_at key signals results) = results_at key' results)
  /\ (extend_at key signals results).*1
     = results.*1 ++ (if decide (key ∈ results.*1) then [] else [key])
  /\ concat (extend_at key signals results).*2 ≡ₚ concat results.*2 ++ signals
  /\ (key ∉ results.*1 ->
      concat (extend_at key signals results).*2 = concat results.*2 ++ signals).
Proof.
  induction results as [|[k v] rest (IH1 & IH2 & IH3 & IH4 & IH5)];
    cbn [extend_at results_at].
  - rewrite decide_True by reflexivity. split; [reflexivity|]. split.
    { intros key' Hne. rewrite decide_False by congruence. reflexivity. }
    split; [reflexivity|]. simpl. rewrite app_nil_r. auto.
  - destruct (decide (k = key)) as [->|Hne]; cbn [results_at]; rewrite ?fmap_cons;
      cbn [fst snd concat].
    + rewrite decide_True by reflexivity. split; [reflexivity|]. split.
      { intros key' Hne. rewrite !decide_False by congruence. reflexivity. }
      split.
      { rewrite decide_True by left. rewrite app_nil_r. reflexivity. }
      split.
      { rewrite <- !app_assoc. apply Permutation_app_head, Permutation_app_comm. }
      intros Hnin. exfalso. apply Hnin. left.
    + rewrite decide_False by exact Hne. split; [exact IH1|]. split.
      { intros key' Hne'. destruct (decide (k = key')); [reflexivity|]. apply IH2, Hne'. }
      split.
      { rewrite IH3. destruct (decide (key ∈ rest.*1)) as [Hin|Hnin].
        - rewrite decide_True by (right; exact Hin). reflexivity.
        - rewrite decide_False; [reflexivity|].
          intros Hin. apply elem_of_cons in Hin as [Heq|Hin]; [congruence|auto]. }
      split; [rewrite IH4, app_assoc; reflexivity|].
      intros Hnin. rewrite IH5, app_assoc; [reflexivity|].
      intros Hin. apply Hnin. right. exact Hin.
Qed.

(** X23. [add_results] extends the list of its (symbol, timeframe) key, entering
    the key if it is new, and leaves the list of every other key alone; keys
    stay distinct; the flat list gains exactly the new signals, at its end when
    the key is new. *)
Theorem add_results_extends_its_key self symbol timeframe signals :
  let self' := add_results self symbol timeframe signals in
  results_at (symbol, timeframe) (_results self')
    = Some (default [] (results_at (symbol, timeframe) (_results self)) ++ signals)
  /\ (forall key, key <> (symbol, timeframe) ->
        results_at key (_results self') = results_at key (_results self))
  /\ (NoDup (_results self).*1 -> NoDup (_results self').*1)
  /\ all_signals self' ≡ₚ all_signals self ++ signals
  /\ length (all_signals self') = (length (all_signals self) + length signals)%nat
  /\ ((symbol, timeframe) ∉ (_results self).*1 ->
      all_signals self' = all_signals self ++ signals).
Proof.
  intros self'. unfold self', add_results, all_signals. simpl.
  destruct (extend_at_spec (symbol, timeframe) signals (_results self))
    as (H1 & H2 & H3 & H4 & H5).
  split; [exact H1|]. split; [exact H2|]. split.
  { intros Hnd. rewrite H3. destruct (decide ((symbol, timeframe) ∈ (_results self).*1)).
    - rewrite app_nil_r. exact Hnd.
    - apply NoDup_app. split; [exact Hnd|]. split; [|apply NoDup_singleton].
      intros x Hx Hx'. apply list_elem_of_singleton in Hx'. congruence. }
  split; [exact H4|]. split; [|exact H5].
  rewrite H4, length_app. reflexivity.
Qed.

(** X24. A report holding the result of one backtest over replay candles in
    ascending time lists the signals in the order the engine returned them. *)
Theorem report_of_one_run_keeps_order self symbol timeframe candles enabled_signals sigs :
  BacktestEngine.run self symbol timeframe candles enabled_signals = Ok sigs ->
  StronglySorted Z.le
    (time <$> iloc_from (BacktestEngine.warmup_candles (BacktestEngine.cfg self)) candles) ->
  all_signals (add_results init symbol timeframe sigs) = sigs
  /\ signals_as_dataframe (add_results init symbol timeframe sigs) = row_of <$> sigs.
Proof.
  intros Hrun Hs.
  destruct (run_groups self symbol timeframe candles
              enabled_signals sigs Hrun) as (_ & _ & _ & Hsort).
  assert (Hall : all_signals (add_results init symbol timeframe sigs) = sigs).
  { unfold all_signals, add_results. simpl. apply app_nil_r. }
  split; [exact Hall|].
  unfold signals_as_dataframe. rewrite Hall.
  rewrite sorted_id by (apply Hsort, Hs). destruct sigs; reflexivity.
Qed.

End report.

Lemma report_of_one_run_keeps_order_witness :
  exists sigs,
    BacktestEngine.run (BacktestEngine.mk fast_config) "EURUSD" "H1" (make_ohlc 85) None
    = Ok sigs
    /\ length sigs = 7%nat
    /\ BacktestReport.signals_as_dataframe
         (BacktestReport.add_results BacktestReport.init "EURUSD" "H1" sigs)
       = BacktestReport.row_of <$> sigs.
Proof.
  destruct (BacktestEngine.run (BacktestEngine.mk fast_config) "EURUSD" "H1"
              (make_ohlc 85) None) as [sigs|] eqn:Hr; [|vm_compute in Hr; discriminate].
  exists sigs. split; [reflexivity|].
  split; [vm_compute in Hr; injection Hr as <-; reflexivity|].
  apply (report_of_one_run_keeps_order (BacktestEngine.mk fast_config) "EURUSD" "H1"
           (make_ohlc 85) None sigs Hr).
  apply (bool_decide_unpack _). vm_compute. exact I.
Defined.

(** ** The retry loop of the data fetcher *)

Section retry.
Import MT5DataFetcher.


Lemma calls_app l1 l2 : calls (l1 ++ l2) = (calls l1 + calls l2)%nat.
Proof. unfold calls. rewrite filter_app, length_app. reflexivity. Qed.

Lemma calls_failed_attempts j : forall d, calls (failed_attempts j d) = j.
Proof.
  induction j as [|j IH]; intros d; [reflexivity|].
  change (failed_attempts (S j) d)
    with ([Call; Sleep d] ++ failed_attempts j (d * 2)%float).
  rewrite calls_app, IH. reflexivity.
Qed.





(** The default five tries with two failures first, and with failures only. *)
Example retry_third_call_succeeds :
  _retry (mk default_config true)
    (fun k => if (k <? 2)%nat then Raised else Returned (Some [k])) None
  = (Some [2%nat], [Call; Sleep 2; Call; Sleep 4; Call]).
Proof. vm_compute. reflexivity. Qed.

Example retry_gives_up :
  _retry (mk default_config true) (fun _ => Returned (Some ([] : list nat))) None
  = (None, [Call; Sleep 2; Call; Sleep 4; Call; Sleep 8; Call; Sleep 16; Call]).
Proof. vm_compute. reflexivity. Qed.

End retry.

(** ** Notifier *)

Section notifier.
Import DiscordNotifier.

(** [s.startswith(p)]: [s] is [p] followed by a rest. *)
Lemma prefix_spec p : forall s,
  String.prefix p s = true <-> exists rest, s = (p ++ rest)%string.
Proof.
  induction p as [|a p IH]; intros s.
  - split; [intros _; exists s; reflexivity|intros _; destruct s; reflexivity].
  - destruct s as [|b s]; simpl.
    + split; [discriminate|intros [rest H]; discriminate].
    + destruct (Ascii.ascii_dec a b) as [->|Hne].
      * rewrite IH. split; intros [rest H]; exists rest; [rewrite H; reflexivity|].
        change (String b p +:+ rest) with (String b (p +:+ rest)) in H.
        injection H as ->. reflexivity.
      * split; [discriminate|]. intros [rest H].
        change (String a p +:+ rest) with (String a (p +:+ rest)) in H.
        injection H as -> _. congruence.
Qed.

(** X26. The notifier is constructed for the URLs that start with the webhook
    prefix, with the given settings, and raises [ValueError] for every other
    URL, the empty one included; under [dry_run], [send] returns [True] and
    posts nothing. *)
Theorem notifier_needs_webhook_url url dry n d :
  ((exists rest, url = (WEBHOOK_PREFIX ++ rest)%string) ->
     init url dry n d = Ok (mk url dry n d))
  /\ ((forall rest, url <> (WEBHOOK_PREFIX ++ rest)%string) ->
     init url dry n d = Raise ValueError)
  /\ init "" dry n d = Raise ValueError
  /\ (forall post, send (mk url true n d) post = (true, [])).
Proof.
  unfold init. split; [|split; [|split]].
  - intros H. apply prefix_spec in H. rewrite H. reflexivity.
  - intros H. destruct (String.prefix WEBHOOK_PREFIX url) eqn:E; [|reflexivity].
    apply prefix_spec in E as [rest ->]. exfalso. apply (H rest). reflexivity.
  - reflexivity.
  - reflexivity.
Qed.






(** Three tries: a server error, a rate limit that asks for half a second,
    then success; and rate limits only. *)
Example post_third_request_accepted :
  _post_with_retry (mk WEBHOOK_PREFIX false 3 2)
    (fun k => match k with
              | O => Status 500 None
              | S O => Status 429 (Some 0.5%float)
              | _ => Status 204 None
              end)
  = (true, [Call; Sleep 2; Call; Sleep 0.5; Call]).
Proof. vm_compute. reflexivity. Qed.

Example post_rate_limited_throughout :
  _post_with_retry (mk WEBHOOK_PREFIX false 3 2) (fun _ => Status 429 None)
  = (false, [Call; Sleep 2; Call; Sleep 2; Call; Sleep 2]).
Proof. vm_compute. reflexivity. Qed.

End notifier.

(** ** The live tick *)

Section bot.
Import Bot.

Lemma new_rows_nil d : new_rows d [] = [].
Proof. reflexivity. Qed.

(** A row that is the only new row of a batch is the only new row of the batch
    made of it alone. *)
Lemma new_rows_single d fetched row :
  new_rows d fetched = [row] -> new_rows d [row] = [row].
Proof.
  intros H. assert (Hin : row ∈ new_rows d fetched) by (rewrite H; left).
  unfold new_rows, CandleBuffer.not_isin in Hin.
  apply list_elem_of_filter in Hin as [Ht Hin]. apply prepare_elem in Hin as [_ Hnan].
  unfold new_rows. rewrite prepare_singleton by exact Hnan.
  unfold CandleBuffer.not_isin. rewrite filter_cons, decide_True by exact Ht. reflexivity.
Qed.

(** [append] depends on the batch through its new rows only. *)
Lemma append_new_rows self df1 df2 d :
  CandleBuffer._data self = Some d ->
  new_rows d df1 = new_rows d df2 ->
  CandleBuffer.append self df1 = CandleBuffer.append self df2.
Proof.
  intros Hd H. unfold CandleBuffer.append. rewrite Hd. unfold new_rows in H.
  rewrite H. reflexivity.
Qed.

(** X28. A live tick whose fetch brings exactly one candle that is new to the
    window does what the replay step of the backtest does with that candle: the
    same window, the same detector, the same signals, checked at the time of
    that candle. *)
Theorem live_tick_matches_replay_step st symbol timeframe buffer d fetched row sigs st' :
  buffers st !! (symbol, timeframe) = Some buffer ->
  CandleBuffer._data buffer = Some d ->
  1 <= CandleBuffer._max_size buffer ->
  new_rows d fetched = [row] ->
  BacktestEngine.replay_step (indicator st) symbol timeframe
    (BacktestEngine.mkState buffer (detector st) sigs) row = Ok st' ->
  let live := process_candle st symbol timeframe (Ok fetched) in
  buffers live = <[(symbol, timeframe) := BacktestEngine.st_buffer st']> (buffers st)
  /\ detector live = BacktestEngine.st_detector st'
  /\ CandleBuffer.latest_time (BacktestEngine.st_buffer st') = Some (time row)
  /\ exists new, BacktestEngine.all_signals st' = sigs ++ new
                 /\ notified live = notified st ++ new.
Proof.
  intros Hb Hd Hmax Hnew Hstep live.
  assert (Hne : fetched <> []). { intros ->. discriminate Hnew. }
  pose proof (append_new_rows buffer [row] fetched d Hd) as Happ.
  rewrite (new_rows_single d fetched row Hnew), Hnew in Happ. specialize (Happ eq_refl).
  destruct (append_result buffer fetched d Hd) as (b' & Ha & _ & _ & [[Hnil _]|[_ Hd']]);
    [rewrite Hnew in Hnil; discriminate|].
  rewrite Hnew in Hd'.
  assert (Hlt : CandleBuffer.latest_time b' = Some (time row)).
  { unfold CandleBuffer.latest_time. rewrite Hd'. unfold index.
    rewrite fmap_last, df_tail_last by exact Hmax. rewrite last_snoc. reflexivity. }
  unfold BacktestEngine.replay_step in Hstep. cbn [BacktestEngine.st_buffer] in Hstep.
  replace [mkCandle (time row) (open row) (high row) (low row) (close row)] with [row]
    in Hstep by (destruct row; reflexivity).
  rewrite Happ, Ha in Hstep. revert Hstep. result_step.
  cbn [BacktestEngine.st_detector BacktestEngine.all_signals].
  unfold live, process_candle. rewrite Hb.
  destruct fetched as [|c0 fetched0]; [congruence|]. rewrite Ha.
  cbn [indicator with_buffer buffers detector notified heartbeats].
  destruct (CandleBuffer.is_ready b'); simpl.
  - destruct (d0 ← CandleBuffer.data b';
              IchimokuIndicator.latest_values (indicator st) d0) as [ind|e].
    + rewrite Hlt.
      destruct (SignalDetector.check (detector st) symbol timeframe ind (time row))
        as [signals det].
      intros [= <-]. simpl. split; [reflexivity|]. split; [reflexivity|].
      split; [exact Hlt|]. exists signals. auto.
    + intros [= <-]. simpl. split; [reflexivity|]. split; [reflexivity|].
      split; [exact Hlt|]. exists []. rewrite !app_nil_r. auto.
  - intros [= <-]. simpl. split; [reflexivity|]. split; [reflexivity|].
    split; [exact Hlt|]. exists []. rewrite !app_nil_r. auto.
Qed.

(** X29. [process_candle] changes nothing but the buffer of its own (symbol,
    timeframe), the registry entries of that pair and timeframe, and the
    notifications, which it only extends, with signals of that pair and
    timeframe; without a buffer for the key, on a failed fetch or on an empty
    fetch it changes nothing. *)
Theorem tick_touches_only_its_pair st symbol timeframe fetched :
  let st' := process_candle st symbol timeframe fetched in
  (forall key, key <> (symbol, timeframe) -> buffers st' !! key = buffers st !! key)
  /\ (forall key, is_Some (buffers st' !! key) <-> is_Some (buffers st !! key))
  /\ indicator st' = indicator st
  /\ SignalDetector.cfg (detector st') = SignalDetector.cfg (detector st)
  /\ SignalDetector.enabled (detector st') = SignalDetector.enabled (detector st)
  /\ (forall p t ty, (p, t) <> (symbol, timeframe) ->
        SignalDetector._last_signal_time (detector st') !! (p, t, ty)
        = SignalDetector._last_signal_time (detector st) !! (p, t, ty))
  /\ (exists new, notified st' = notified st ++ new
        /\ forall sig, sig ∈ new ->
             SignalDetector.pair sig = symbol /\ SignalDetector.timeframe sig = timeframe)
  /\ (buffers st !! (symbol, timeframe) = None -> st' = st)
  /\ (forall e, fetched = Raise e -> st' = st)
  /\ (fetched = Ok [] -> st' = st).
Proof.
  intros st'. subst st'.
  pose (P := fun st' : BotState =>
    (forall key, key <> (symbol, timeframe) -> buffers st' !! key = buffers st !! key)
    /\ (forall key, is_Some (buffers st' !! key) <-> is_Some (buffers st !! key))
    /\ indicator st' = indicator st
    /\ SignalDetector.cfg (detector st') = SignalDetector.cfg (detector st)
    /\ SignalDetector.enabled (detector st') = SignalDetector.enabled (detector st)
    /\ (forall p t ty, (p, t) <> (symbol, timeframe) ->
          SignalDetector._last_signal_time (detector st') !! (p, t, ty)
          = SignalDetector._last_signal_time (detector st) !! (p, t, ty))
    /\ (exists new, notified st' = notified st ++ new
          /\ forall sig, sig ∈ new ->
               SignalDetector.pair sig = symbol /\ SignalDetector.timeframe sig = timeframe)).
  assert (Hsame : P st).
  { unfold P. repeat (split; [reflexivity || tauto|]).
    exists []. rewrite app_nil_r. split; [reflexivity|].
    intros sig H. apply elem_of_nil in H as []. }
  assert (Hearly : buffers st !! (symbol, timeframe) = None ->
                   process_candle st symbol timeframe fetched = st).
  { intros H. unfold process_candle. rewrite H. reflexivity. }
  assert (Hraise : forall e, fetched = Raise e ->
                   process_candle st symbol timeframe fetched = st).
  { intros e ->. unfold process_candle.
    destruct (buffers st !! (symbol, timeframe)); reflexivity. }
  assert (Hempty : fetched = Ok [] -> process_candle st symbol timeframe fetched = st).
  { intros ->. unfold process_candle.
    destruct (buffers st !! (symbol, timeframe)); reflexivity. }
  cut (P (process_candle st symbol timeframe fetched)).
  { unfold P. intros (H1 & H2 & H3 & H4 & H5 & H6 & H7).
    repeat (split; [assumption|]). assumption. }
  clear Hearly Hraise Hempty.
  unfold process_candle.
  destruct (buffers st !! (symbol, timeframe)) as [buffer|] eqn:Hb; [|exact Hsame].
  destruct fetched as [[|c0 fetched0]|e]; [exact Hsame| |exact Hsame].
  destruct (CandleBuffer.append buffer (c0 :: fetched0)) as [b'|e]; [|exact Hsame].
  cbn [indicator with_buffer buffers detector notified heartbeats].
  assert (Hbuf1 : forall key, key <> (symbol, timeframe) ->
            <[(symbol, timeframe) := b']> (buffers st) !! key = buffers st !! key).
  { intros key Hk. apply lookup_insert_ne. congruence. }
  assert (Hbuf2 : forall key, is_Some (<[(symbol, timeframe) := b']> (buffers st) !! key)
                              <-> is_Some (buffers st !! key)).
  { intros key. destruct (decide (key = (symbol, timeframe))) as [->|Hk].
    - rewrite lookup_insert_eq, Hb. split; eauto.
    - rewrite lookup_insert_ne by congruence. reflexivity. }
  assert (Hquiet : P (with_buffer st (symbol, timeframe) b')).
  { unfold P. simpl. split; [exact Hbuf1|]. split; [exact Hbuf2|].
    repeat (split; [reflexivity|]).
    exists []. rewrite app_nil_r. split; [reflexivity|].
    intros sig H. apply elem_of_nil in H as []. }
  destruct (CandleBuffer.is_ready b'); simpl; [|exact Hquiet].
  destruct (d0 ← CandleBuffer.data b'; IchimokuIndicator.latest_values (indicator st) d0)
    as [ind|e]; [|exact Hquiet].
  destruct (CandleBuffer.latest_time b') as [candle_time|]; [|exact Hquiet].
  destruct (SignalDetector.check (detector st) symbol timeframe ind candle_time)
    as [signals det] eqn:Hck.
  destruct (check_frame (detector st) symbol timeframe ind candle_time) as [Hc He].
  rewrite Hck in Hc, He. simpl in Hc, He.
  destruct (check_fields (detector st) symbol timeframe ind candle_time) as (Hf & _).
  rewrite Hck in Hf. simpl in Hf.
  unfold P. simpl.
  split; [exact Hbuf1|]. split; [exact Hbuf2|]. split; [reflexivity|].
  split; [exact Hc|]. split; [exact He|]. split.
  - intros p t ty Hne.
    destruct (check_registry (detector st) symbol timeframe ind candle_time (p, t, ty))
      as [[_ (sig & Hin & Hkey)]|[Hsame' _]]; rewrite Hck in *; simpl in *.
    + destruct (Hf sig Hin) as (Hp & Ht & _). exfalso. apply Hne. congruence.
    + exact Hsame'.
  - exists signals. split; [reflexivity|]. intros sig Hin.
    destruct (Hf sig Hin) as (? & ? & _). auto.
Qed.

(** X30. With a cooldown of at least one minute, a second tick whose fetch
    brings nothing new to the window notifies nothing and leaves the buffers and
    the detector as the first tick left them. *)
Theorem repeated_tick_is_silent st symbol timeframe fetched buffer d :
  let st1 := process_candle st symbol timeframe (Ok fetched) in
  let st2 := process_candle st1 symbol timeframe (Ok fetched) in
  1 <= SignalDetector.cooldown_minutes (SignalDetector.cfg (detector st)) ->
  buffers st1 !! (symbol, timeframe) = Some buffer ->
  CandleBuffer._data buffer = Some d ->
  new_rows d fetched = [] ->
  buffers st2 = buffers st1
  /\ detector st2 = detector st1
  /\ notified st2 = notified st1.
Proof.
  intros st1 st2 Hc Hb1 Hd Hnew.
  assert (Happ : CandleBuffer.append buffer fetched = Ok buffer).
  { destruct (append_result buffer fetched d Hd) as (b' & Ha & _ & _ & [[_ ->]|[Hne _]]);
      [exact Ha|congruence]. }
  assert (Hins : <[(symbol, timeframe) := buffer]> (buffers st1) = buffers st1).
  { apply insert_id, Hb1. }
  assert (Heta : forall s, s = mkState (buffers s) (indicator s) (detector s)
                                 (notified s) (heartbeats s)).
  { intros []. reflexivity. }
  cut (exists hb, st2 = mkState (buffers st1) (indicator st1) (detector st1)
                          (notified st1) hb).
  { intros [hb ->]. simpl. auto. }
  unfold st2, process_candle. rewrite Hb1.
  destruct fetched as [|c0 fetched0]; [eexists; apply Heta|]. rewrite Happ.
  unfold with_buffer.
  cbn [indicator buffers detector notified heartbeats].
  rewrite Hins.
  destruct (CandleBuffer.is_ready buffer) eqn:Hr; simpl; [|eexists; reflexivity].
  destruct (d0 ← CandleBuffer.data buffer;
            IchimokuIndicator.latest_values (indicator st1) d0) as [ind|e] eqn:Hlv;
    [|eexists; reflexivity].
  destruct (CandleBuffer.latest_time buffer) as [candle_time|] eqn:Hlt;
    [|eexists; reflexivity].
  (* what the first tick did *)
  assert (Hdet : detector st1
                 = (SignalDetector.check (detector st) symbol timeframe ind candle_time).2).
  { unfold st1 in Hb1, Hlv |- *. unfold process_candle in Hb1, Hlv |- *.
    destruct (buffers st !! (symbol, timeframe)) as [b0|] eqn:Hb0.
    2:{ rewrite Hb0 in Hb1. discriminate. }
    destruct (CandleBuffer.append b0 (c0 :: fetched0)) as [b0'|e0] eqn:Ha0.
    2:{ exfalso. unfold CandleBuffer.append in Ha0.
        destruct (CandleBuffer._data b0) eqn:Hd0.
        - destruct (CandleBuffer.not_isin _ _); discriminate.
        - rewrite Hb0 in Hb1. injection Hb1 as ->. congruence. }
    unfold with_buffer in *.
    cbn [indicator buffers detector notified heartbeats] in *.
    destruct (CandleBuffer.is_ready b0') eqn:Hr0; simpl in *.
    2:{ rewrite lookup_insert_eq in Hb1. injection Hb1 as ->. congruence. }
    destruct (d1 ← CandleBuffer.data b0';
              IchimokuIndicator.latest_values (indicator st) d1) as [ind0|e0] eqn:Hlv0.
    2:{ simpl in *. rewrite lookup_insert_eq in Hb1. injection Hb1 as ->.
        rewrite Hlv0 in Hlv. discriminate. }
    destruct (CandleBuffer.latest_time b0') as [t0|] eqn:Hlt0.
    2:{ simpl in *. rewrite lookup_insert_eq in Hb1. injection Hb1 as ->. congruence. }
    destruct (SignalDetector.check (detector st) symbol timeframe ind0 t0)
      as [signals det] eqn:Hck. simpl in *.
    rewrite lookup_insert_eq in Hb1. injection Hb1 as ->.
    rewrite Hlv0 in Hlv. injection Hlv as ->.
    rewrite Hlt in Hlt0. injection Hlt0 as ->. rewrite Hck. reflexivity. }
  pose proof (recheck_silent (detector st) symbol timeframe ind candle_time Hc) as H2.
  cbv zeta in H2. rewrite <- Hdet in H2. rewrite H2. rewrite app_nil_r.
  eexists. reflexivity.
Qed.

End bot.

Lemma live_tick_matches_replay_step_witness :
  exists st',
    BacktestEngine.replay_step (Bot.indicator live_state) "EURUSD" "H1"
      (BacktestEngine.mkState seeded_100 (Bot.detector live_state) []) candle_100 = Ok st'
    /\ length (BacktestEngine.all_signals st') = 1%nat
    /\ Bot.notified (Bot.process_candle live_state "EURUSD" "H1" (Ok latest_3))
       = BacktestEngine.all_signals st'.
Proof.
  destruct (BacktestEngine.replay_step (Bot.indicator live_state) "EURUSD" "H1"
              (BacktestEngine.mkState seeded_100 (Bot.detector live_state) []) candle_100)
    as [st'|] eqn:Hs; [|vm_compute in Hs; discriminate].
  exists st'. split; [reflexivity|].
  split; [vm_compute in Hs; injection Hs as <-; reflexivity|].
  destruct (live_tick_matches_replay_step live_state "EURUSD" "H1" seeded_100
              (make_ohlc 100) latest_3 candle_100 [] st')
    as (_ & _ & _ & new & Hall & Hnot).
  - vm_compute. reflexivity.
  - vm_compute. reflexivity.
  - vm_compute. discriminate.
  - vm_compute. reflexivity.
  - exact Hs.
  - rewrite Hall, Hnot. reflexivity.
Defined.

Lemma repeated_tick_is_silent_witness :
  length (Bot.notified (Bot.process_candle live_state "EURUSD" "H1" (Ok latest_3))) = 1%nat
  /\ Bot.notified
       (Bot.process_candle (Bot.process_candle live_state "EURUSD" "H1" (Ok latest_3))
          "EURUSD" "H1" (Ok latest_3))
     = Bot.notified (Bot.process_candle live_state "EURUSD" "H1" (Ok latest_3)).
Proof.
  split; [vm_compute; reflexivity|].
  destruct (repeated_tick_is_silent live_state "EURUSD" "H1" latest_3
              (CandleBuffer.seed (CandleBuffer.mk 300 78 None) (make_ohlc 101))
              (make_ohlc 101)) as (_ & _ & Hn).
  - vm_compute. discriminate.
  - vm_compute. reflexivity.
  - vm_compute. reflexivity.
  - vm_compute. reflexivity.
  - exact Hn.
Defined.
